(** * newsapi_crawler: the daily snapshot / diff / prune tasks of [dags/crawler.py]

    A shallow embedding of the Airflow operators of [dags/crawler.py] and the
    properties of the repository's specification that are about them.

    The external services are modelled by their observable state:
    - the Firestore client as one finite map per collection, from document
      id to document ([gmap string _]);
    - the Pub/Sub publisher as the set of existing topics and the list of
      published messages, oldest first;
    - the BigQuery client as the dataset flag, the table's schema and rows;
    - the logger as the list of records written, oldest first.
    Every operator is a function from the state of the world before the run
    to the raised exception (if any) and the state of the world after it.

    The factories of the clients ([get_store_client] and the like) are not
    part of the embedding: the cool-down they keep in Redis, their waiting
    and retrying, and the records they log depend on the clock and on the
    answers of the services. The operators are modelled from the point where
    they hold their clients. *)

From Stdlib Require Import Ascii String.
From stdpp Require Import gmap strings list sorting fin_maps pretty.

#[local] Set Warnings "-register-all,-clear-no-such-hyp,-notation-for-abbreviation".

(** ** Calendar dates and timestamps ([datetime.date], [datetime.datetime]) *)

Module Calendar.

Local Open Scope Z_scope.

Record date := Date { year : Z; month : Z; day : Z }.

(** A [tzinfo]: the minutes east of UTC of a local date and time of day
    (hour, minute, second, microsecond); it need not be the same all year. *)
Definition tzinfo : Type := date -> Z -> Z -> Z -> Z -> Z.

(** [timezone(timedelta(minutes=off))]: the same offset on every day. *)
Definition fixed_offset (off : Z) : tzinfo := fun _ _ _ _ _ => off.

Record datetime := DateTime {
  dt_date : date;
  hour : Z;
  minute : Z;
  second : Z;
  microsecond : Z;
  dt_tzinfo : option tzinfo   (* [None] for a naive value *)
}.

(** [dt.utcoffset()], in minutes; [None] for a naive value. *)
Definition utcoffset (dt : datetime) : option Z :=
  match dt_tzinfo dt with
  | Some tz => Some (tz (dt_date dt) (hour dt) (minute dt) (second dt) (microsecond dt))
  | None => None
  end.

Definition is_leap (y : Z) : bool :=
  (y mod 4 =? 0) && (negb (y mod 100 =? 0) || (y mod 400 =? 0)).

Definition days_in_month (y m : Z) : Z :=
  match m with
  | 2 => if is_leap y then 29 else 28
  | 4 | 6 | 9 | 11 => 30
  | _ => 31
  end.

(** The values the [date] type admits: MINYEAR = 1, MAXYEAR = 9999. *)
Definition valid_date (d : date) : bool :=
  (1 <=? year d) && (year d <=? 9999) &&
  (1 <=? month d) && (month d <=? 12) &&
  (1 <=? day d) && (day d <=? days_in_month (year d) (month d)).

(** [d - timedelta(days=1)]; [None] is the OverflowError Python raises
    below [date.min]. *)
Definition minus_one_day (d : date) : option date :=
  if 1 <? day d then Some (Date (year d) (month d) (day d - 1))
  else if 1 <? month d then
    Some (Date (year d) (month d - 1) (days_in_month (year d) (month d - 1)))
  else if 1 <? year d then Some (Date (year d - 1) 12 31)
  else None.

(** [d - timedelta(days=n)], one day at a time. *)
Fixpoint minus_days (d : date) (n : nat) : option date :=
  match n with
  | O => Some d
  | S n' => match minus_one_day d with
            | Some d' => minus_days d' n'
            | None => None
            end
  end.

(** [dt - timedelta(days=1)]: the day before on the calendar, with the
    time of day and the [tzinfo] of [dt]; the offset from UTC is the one
    the [tzinfo] gives for that day. *)
Definition datetime_minus_one_day (dt : datetime) : option datetime :=
  match minus_one_day (dt_date dt) with
  | Some d => Some (DateTime d (hour dt) (minute dt) (second dt)
                             (microsecond dt) (dt_tzinfo dt))
  | None => None
  end.

(** A bound on the number of days that can still be subtracted; it
    strictly decreases along [minus_one_day]. *)
Definition rank (d : date) : nat :=
  Z.to_nat (year d * 416 + month d * 32 + day d).

(** *** isoformat *)

Definition digit (n : Z) : ascii := ascii_of_nat (48 + Z.to_nat (n mod 10)).

(** The [w] low decimal digits of [n], most significant first: what
    ["%0wd"] prints for every [0 <= n < 10 ^ w], which the fields of a date
    and of a time of day always are. *)
Fixpoint digits (w : nat) (n : Z) : list ascii :=
  match w with
  | O => []
  | S w' => digits w' (n / 10) ++ [digit n]
  end.

Definition date_chars (d : date) : list ascii :=
  digits 4 (year d) ++ ["-"%char] ++ digits 2 (month d) ++ ["-"%char] ++
  digits 2 (day d).

Definition offset_chars (off : Z) : list ascii :=
  let m := Z.abs off in
  [if off <? 0 then "-"%char else "+"%char] ++
  digits 2 (m / 60) ++ [":"%char] ++ digits 2 (m mod 60).

Definition time_chars (dt : datetime) : list ascii :=
  digits 2 (hour dt) ++ [":"%char] ++ digits 2 (minute dt) ++ [":"%char] ++
  digits 2 (second dt) ++
  (if microsecond dt =? 0 then [] else ["."%char] ++ digits 6 (microsecond dt)) ++
  match utcoffset dt with
  | Some off => offset_chars off
  | None => []
  end.

(** [date.isoformat()]: YYYY-MM-DD. *)
Definition date_isoformat (d : date) : string :=
  string_of_list_ascii (date_chars d).

(** [datetime.isoformat()]: YYYY-MM-DDTHH:MM:SS[.ffffff][+HH:MM]. *)
Definition datetime_isoformat (dt : datetime) : string :=
  string_of_list_ascii (date_chars (dt_date dt) ++ ["T"%char] ++ time_chars dt).

End Calendar.

Import Calendar.

#[global] Arguments date_isoformat : simpl never.
#[global] Arguments datetime_isoformat : simpl never.
#[global] Arguments rank : simpl never.

(** ** Values, documents and the state of the external services *)

(** A value of the JSON data model: what the content API returns, what a
    Firestore document holds and what [json.dumps] is applied to. *)
Inductive json :=
| JNull
| JBool (b : bool)
| JNum (n : Z)
| JStr (s : string)
| JArr (items : list json)
| JObj (members : list (string * json)).

(** A [dict] decoded from an API response, in the order of its keys. *)
Definition dict : Type := list (string * json).

Fixpoint dict_get (k : string) (d : dict) : option json :=
  match d with
  | [] => None
  | (k', v) :: d' => if decide (k' = k) then Some v else dict_get k d'
  end.

Definition dict_keys (d : dict) : list string := d.*1.

(** The exceptions the operators can raise. *)
Inductive exn :=
| TypeError
| KeyError
| IndexError
| OverflowError
| ValueError
| NotFound.

(** A published message: [data] is the object whose [json.dumps] text,
    encoded as UTF-8, is the payload, [bytes(json.dumps(data), 'utf8')]. *)
Record message := Message { msg_topic : string; msg_data : json }.

Inductive level := DEBUG | INFO | WARNING.

Record log_record := LogRecord { log_level : level; log_text : string }.

(** [bigquery.SchemaField(name, field_type, fields)]. *)
Inductive SchemaField :=
| mkSchemaField (name : string) (field_type : string) (fields : list SchemaField).

Definition SchemaField_name (f : SchemaField) : string :=
  match f with mkSchemaField n _ _ => n end.

(** An entry of the declared table schema (the JSON file named by
    GOOGLE_BIGQUERY_TABLE_SCHEMA_FILE): its ['type'] and, when the key is
    present, its nested ['fields']. *)
Inductive field_decl :=
| FieldDecl (type : string) (fields : option (list (string * field_decl))).

Record table := Table {
  schema : list SchemaField;
  rows : list (gmap string json)
}.

Record world := World {
  (* Firestore *)
  sources : gmap string (gmap string json);
  sources_schema : gmap string (list string);
  article_schema : gmap string (list string);
  articles : gmap (string * string * string) (gmap string json);
  (* Pub/Sub *)
  topics : list string;
  published : list message;
  (* BigQuery *)
  bq_dataset : bool;
  bq_table : option table;
  (* logging *)
  log : list log_record
}.

Definition set_sources (c : gmap string (gmap string json)) (w : world) : world :=
  World c (sources_schema w) (article_schema w) (articles w) (topics w)
        (published w) (bq_dataset w) (bq_table w) (log w).

Definition set_sources_schema (c : gmap string (list string)) (w : world) : world :=
  World (sources w) c (article_schema w) (articles w) (topics w)
        (published w) (bq_dataset w) (bq_table w) (log w).

Definition set_article_schema (c : gmap string (list string)) (w : world) : world :=
  World (sources w) (sources_schema w) c (articles w) (topics w)
        (published w) (bq_dataset w) (bq_table w) (log w).

Definition set_articles (c : gmap (string * string * string) (gmap string json))
    (w : world) : world :=
  World (sources w) (sources_schema w) (article_schema w) c (topics w)
        (published w) (bq_dataset w) (bq_table w) (log w).

Definition set_topics (t : list string) (w : world) : world :=
  World (sources w) (sources_schema w) (article_schema w) (articles w) t
        (published w) (bq_dataset w) (bq_table w) (log w).

Definition set_published (p : list message) (w : world) : world :=
  World (sources w) (sources_schema w) (article_schema w) (articles w) (topics w)
        p (bq_dataset w) (bq_table w) (log w).

Definition set_bq_dataset (b : bool) (w : world) : world :=
  World (sources w) (sources_schema w) (article_schema w) (articles w) (topics w)
        (published w) b (bq_table w) (log w).

Definition set_bq_table (t : option table) (w : world) : world :=
  World (sources w) (sources_schema w) (article_schema w) (articles w) (topics w)
        (published w) (bq_dataset w) t (log w).

Definition set_log (l : list log_record) (w : world) : world :=
  World (sources w) (sources_schema w) (article_schema w) (articles w) (topics w)
        (published w) (bq_dataset w) (bq_table w) l.

(** ** The monad of the operators: state of the world and exceptions *)

Inductive outcome (A : Type) :=
| Returned (a : A)
| Raised (e : exn).
Arguments Returned {A} a.
Arguments Raised {A} e.

Definition task (A : Type) : Type := world -> outcome A * world.

#[global] Instance task_ret : MRet task := fun A a w => (Returned a, w).

#[global] Instance task_bind : MBind task := fun A B f m w =>
  match m w with
  | (Returned a, w') => f a w'
  | (Raised e, w') => (Raised e, w')
  end.

Definition raise {A} (e : exn) : task A := fun w => (Raised e, w).
Definition gets {A} (f : world -> A) : task A := fun w => (Returned (f w), w).
Definition modify (f : world -> world) : task unit := fun w => (Returned tt, f w).

(** [for x in xs: body(x)] *)
Fixpoint for_each {A} (xs : list A) (body : A -> task unit) : task unit :=
  match xs with
  | [] => mret tt
  | x :: xs' => body x ;; for_each xs' body
  end.

(** *** Logging *)

Definition log_info (s : string) : task unit :=
  modify (fun w => set_log (log w ++ [LogRecord INFO s]) w).

Definition log_warning (s : string) : task unit :=
  modify (fun w => set_log (log w ++ [LogRecord WARNING s]) w).

(** *** Firestore: collection references and document operations *)

(** [firestore_client.collection(name)]: how to read and replace the
    documents of one collection. *)
Record collection_ref (A : Type) := CollectionRef {
  coll_get : world -> gmap string A;
  coll_set : gmap string A -> world -> world
}.
Arguments coll_get {A} _ _.
Arguments coll_set {A} _ _ _.

(** [ref.document(id).get()]: the snapshot. [Some d] is a snapshot whose
    [exists] is true and whose [to_dict()] is [d]; [None] is one whose
    [exists] is false and whose [to_dict()] is [None]. *)
Definition document_get {A} (ref : collection_ref A) (id : string) : task (option A) :=
  gets (fun w => coll_get ref w !! id).

Definition snapshot_exists {A} (snapshot : option A) : bool :=
  match snapshot with Some _ => true | None => false end.

(** [ref.document(id).set(d)] *)
Definition document_set {A} (ref : collection_ref A) (id : string) (d : A) : task unit :=
  modify (fun w => coll_set ref (<[id := d]> (coll_get ref w)) w).

(** [ref.document(id).delete()] *)
Definition document_delete {A} (ref : collection_ref A) (id : string) : task unit :=
  modify (fun w => coll_set ref (delete id (coll_get ref w)) w).

(** *** Pub/Sub *)

(** [pubsub_client.publish(topic, bytes(json.dumps(data), 'utf8'))] *)
Definition publish (topic : string) (data : json) : task unit :=
  modify (fun w => set_published (published w ++ [Message topic data]) w).

(** ** Module-level constants and helpers of [dags/crawler.py] *)

Definition COLLECTION_SOURCES_KEY : string := "sources".
Definition COLLECTION_ARTICLES_KEY : string := "articles".
Definition SOURCES_SCHEMA_KEY : string := "sources_schema".
Definition ARTICLES_SCHEMA_KEY : string := "article_schema".

Definition SOURCES_SCHEMA_SOURCES_KEY : string := "sources-schema".
Definition ARTICLES_SCHEMA_SOURCES_KEY : string := "articles-schema".

(** [firestore_client.collection(COLLECTION_SOURCES_KEY)] *)
Definition sources_ref : collection_ref (gmap string json) :=
  CollectionRef _ sources set_sources.

(** [firestore_client.collection(SOURCES_SCHEMA_KEY)]; a document
    [{'keys': ks}] is represented by [ks]. *)
Definition sources_schema_ref : collection_ref (list string) :=
  CollectionRef _ sources_schema set_sources_schema.

(** [firestore_client.collection(ARTICLES_SCHEMA_KEY)] *)
Definition article_schema_ref : collection_ref (list string) :=
  CollectionRef _ article_schema set_article_schema.

(** [pubsub_client.topic_path(project, name)] *)
Definition topic_path (project name : string) : string :=
  "projects/" +:+ project +:+ "/topics/" +:+ name.

(** The three topics of the operators. *)
Definition sources_topic (project : string) : string :=
  topic_path project COLLECTION_SOURCES_KEY.
Definition sources_schema_topic (project : string) : string :=
  topic_path project SOURCES_SCHEMA_SOURCES_KEY.
Definition articles_schema_topic (project : string) : string :=
  topic_path project ARTICLES_SCHEMA_SOURCES_KEY.

Definition check_pubsub_topic (topic : string) : task unit :=
  topics ← gets topics;
  if decide (topic ∈ topics) then mret tt
  else
    log_info ("create pubsub topic " +:+ topic) ;;
    modify (fun w => set_topics (topics ++ [topic]) w).

(** The template method of [_BaseOperator]: [execute] derives
    [prev_execution_date] and delegates to [execute_]. *)
Definition execute (execute_ : datetime -> datetime -> task unit)
    (execution_date : datetime) : task unit :=
  match datetime_minus_one_day execution_date with
  | Some prev_execution_date => execute_ execution_date prev_execution_date
  | None => raise OverflowError
  end.

(** [while ref.document(_date.isoformat()).get().exists:
       ref.document(_date.isoformat()).delete()
       _date = _date - timedelta(days=1)]
    The loop ends at the first missing document, or with the OverflowError
    of the subtraction at [date.min]; [fuel] bounds the iterations. *)
Fixpoint delete_while_exists {A} (fuel : nat) (ref : collection_ref A)
    (_date : date) : task unit :=
  match fuel with
  | O => mret tt
  | S fuel' =>
      snapshot ← document_get ref (date_isoformat _date);
      if snapshot_exists snapshot then
        document_delete ref (date_isoformat _date) ;;
        match minus_one_day _date with
        | Some _date' => delete_while_exists fuel' ref _date'
        | None => raise OverflowError
        end
      else mret tt
  end.

(** [d - timedelta(days=1)] as a statement of an operator. *)
Definition date_minus_one_day (d : date) : task date :=
  match minus_one_day d with
  | Some d' => mret d'
  | None => raise OverflowError
  end.

(** The two messages of a diff, in the order the operators publish them:
    [remove] first, then [new], each only when its set is not empty.
    [elements] stands for [list(s)], whose order Python leaves to the set. *)
Definition publish_diff (topic : string) (prev_keys current_keys : gset string)
    : task unit :=
  let remove := prev_keys ∖ current_keys in
  let new := current_keys ∖ prev_keys in
  (if decide (remove = ∅) then mret tt
   else publish topic (JObj [("remove", JArr (JStr <$> elements remove))])) ;;
  (if decide (new = ∅) then mret tt
   else publish topic (JObj [("new", JArr (JStr <$> elements new))])).

(** [list(snapshot.to_dict())]: the keys of the document, or the TypeError
    of [list(None)] when the document does not exist. *)
Definition list_of_to_dict (snapshot : option (gmap string json))
    : task (gset string) :=
  match snapshot with
  | Some d => mret (dom d)
  | None => raise TypeError
  end.

(** The field names of a value are checked by the Firestore client down
    through nested dicts: a name is a string that is not empty. *)
Fixpoint field_names_ok (v : json) : bool :=
  match v with
  | JObj members =>
      (fix each (l : list (string * json)) : bool :=
         match l with
         | [] => true
         | (name, v') :: l' =>
             negb (String.eqb name "") && field_names_ok v' && each l'
         end) members
  | _ => true
  end.

(** How the keys of a dict compare: strings with strings, numbers and
    booleans with one another, and [None] with neither. *)
Definition key_kind (key : json) : nat :=
  match key with
  | JStr _ => 0
  | JNull => 1
  | _ => 2
  end.

(** What [ref.document(id).set(d)] raises before it writes, for a dict [d]
    with the entries [fields] under its string keys and with the other keys
    [others] ([None], booleans, numbers). The client sorts the items of [d],
    which raises TypeError when two keys do not compare, and then refuses
    with ValueError a field name that is not a non-empty string. What the
    client or the service refuses for other reasons (the size of the
    document, a number out of range, a list in a list) is not modelled. *)
Definition set_raises (fields : gmap string json) (others : list json) : option exn :=
  match others with
  | [] =>
      if bool_decide (map_Forall (fun name v => name ≠ "" ∧ field_names_ok v = true)
                                 fields)
      then None else Some ValueError
  | key :: others' =>
      if bool_decide (fields = ∅) &&
         forallb (fun key' => Nat.eqb (key_kind key') (key_kind key)) others'
      then Some ValueError else Some TypeError
  end.

(** [ref.document(id).set(d)] for a dict [d] built by an operator. *)
Definition document_set_dict (ref : collection_ref (gmap string json)) (id : string)
    (fields : gmap string json) (others : list json) : task unit :=
  match set_raises fields others with
  | Some ex => raise ex
  | None => document_set ref id fields
  end.

(** [_get_field_schema] of [CheckAndCreateBigQueryTable.execute_] *)
Fixpoint _get_field_schema (field_name : string) (field_schema : field_decl)
    : SchemaField :=
  match field_schema with
  | FieldDecl type extra =>
      mkSchemaField field_name type
        match extra with
        | Some members =>
            (fix each (l : list (string * field_decl)) : list SchemaField :=
               match l with
               | [] => []
               | (_extra_field, _extra_schema) :: l' =>
                   _get_field_schema _extra_field _extra_schema :: each l'
               end) members
        | None => []
        end
  end.

(** ** The operators *)

Section Operators.

(** Configuration read from the environment when the module is loaded,
    and [hashlib.md5(bytes(s, 'utf8')).hexdigest()]. *)
Variable GOOGLE_CLOUD_PROJECT : string.
Variable NEWSAPI_DEV_MODE : bool.
Variable NEWSAPI_QUERY_KEYWORDS : list string.
Variable BIGQUERY_TABLE_SCHEMA : list (string * field_decl).
Variable md5_hexdigest : string -> string.

(** *** Sources *)

Definition ClearOldSourceData_execute_ (execution_date prev_execution_date : datetime)
    : task unit :=
  _date ← date_minus_one_day (dt_date prev_execution_date);
  _date ← date_minus_one_day (dt_date prev_execution_date);
  delete_while_exists (S (rank _date)) sources_ref _date.

Definition CheckAndPublishNewsSources_execute_
    (execution_date prev_execution_date : datetime) : task unit :=
  let topic := sources_topic GOOGLE_CLOUD_PROJECT in
  check_pubsub_topic topic ;;
  let execution_date := date_isoformat (dt_date execution_date) in
  let prev_execution_date := datetime_isoformat prev_execution_date in
  prev_snapshot ← document_get sources_ref prev_execution_date;
  if negb (snapshot_exists prev_snapshot) then mret tt
  else
    current_snapshot ← document_get sources_ref execution_date;
    current_keys ← list_of_to_dict current_snapshot;
    prev_snapshot ← document_get sources_ref prev_execution_date;
    prev_keys ← list_of_to_dict prev_snapshot;
    publish_diff topic prev_keys current_keys.

(** [source['id']] as a key of the dict under construction: KeyError
    when there is none, TypeError when it is a list or a dict, which are
    not hashable. *)
Definition source_id (source : dict) : task json :=
  match dict_get "id" source with
  | Some (JArr _) | Some (JObj _) => raise TypeError
  | Some id => mret id
  | None => raise KeyError
  end.

(** [{source['id']: source for source in sources}]: the entries under the
    string keys, a later one replacing an earlier one of the same key, and
    the keys that are no strings. *)
Fixpoint sources_by_id (sources : list dict) (acc : gmap string json)
    (others : list json) : task (gmap string json * list json) :=
  match sources with
  | [] => mret (acc, others)
  | source :: sources' =>
      id ← source_id source;
      match id with
      | JStr id => sources_by_id sources' (<[id := JObj source]> acc) others
      | _ => sources_by_id sources' acc (others ++ [id])
      end
  end.

(** [sources] is [newsapi_client.get_sources()['sources']]. *)
Definition GetNewsSources_execute_ (sources : list dict)
    (execution_date prev_execution_date : datetime) : task unit :=
  log_info ("sources_count: " +:+ pretty (length sources)) ;;
  let execution_date := date_isoformat (dt_date execution_date) in
  snapshot ← document_get sources_ref execution_date;
  (if snapshot_exists snapshot
   then log_warning ("overriding sources for date " +:+ execution_date)
   else mret tt) ;;
  document ← sources_by_id sources ∅ [];
  document_set_dict sources_ref execution_date document.1 document.2.

(** *** Schemas *)

Definition ClearOldSchemas_execute_ (execution_date prev_execution_date : datetime)
    : task unit :=
  (* delete source schemas *)
  _date ← date_minus_one_day (dt_date prev_execution_date);
  delete_while_exists (S (rank _date)) sources_schema_ref _date ;;
  (* delete articles schemas *)
  _date ← date_minus_one_day (dt_date prev_execution_date);
  delete_while_exists (S (rank _date)) article_schema_ref _date.

(** One half of [CheckDataSchemas.execute_]: the diff of the collection
    [ref], published to [topic] when both snapshots exist and to
    [bootstrap_topic] when only today's does. *)
Definition check_schema (ref : collection_ref (list string))
    (topic bootstrap_topic : string)
    (execution_date prev_execution_date : string) : task unit :=
  prev_schema ← document_get ref prev_execution_date;
  schema ← document_get ref execution_date;
  match prev_schema, schema with
  | Some prev_keys, Some keys =>
      publish_diff topic (list_to_set prev_keys) (list_to_set keys)
  | None, Some keys =>
      publish bootstrap_topic (JObj [("new", JArr (JStr <$> keys))])
  | _, None => mret tt
  end.

Definition CheckDataSchemas_execute_ (execution_date prev_execution_date : datetime)
    : task unit :=
  let execution_date := date_isoformat (dt_date execution_date) in
  let prev_execution_date := datetime_isoformat prev_execution_date in
  let sources_schema_topic := sources_schema_topic GOOGLE_CLOUD_PROJECT in
  let articles_schema_topic := articles_schema_topic GOOGLE_CLOUD_PROJECT in
  check_pubsub_topic sources_schema_topic ;;
  check_pubsub_topic articles_schema_topic ;;
  (* source schema *)
  check_schema sources_schema_ref sources_schema_topic articles_schema_topic
               execution_date prev_execution_date ;;
  (* article schema *)
  check_schema article_schema_ref articles_schema_topic articles_schema_topic
               execution_date prev_execution_date.

(** [l.pop()]: the last element, or IndexError on an empty list. *)
Definition pop {A} (l : list A) : task A :=
  match last l with
  | Some x => mret x
  | None => raise IndexError
  end.

(** [sources] is [client.get_sources(language='en').get('sources')] and
    [top_headlines] is
    [client.get_top_headlines(page_size=1, page=1).get('articles')]. *)
Definition GetDataSchemas_execute_ (sources top_headlines : list dict)
    (execution_date prev_execution_date : datetime) : task unit :=
  let execution_date := date_isoformat (dt_date execution_date) in
  source ← pop sources;
  headline ← pop top_headlines;
  let source_keys := dict_keys source in
  let headline_keys := dict_keys headline in
  document_set sources_schema_ref execution_date source_keys ;;
  document_set article_schema_ref execution_date headline_keys.

Definition PingNewsApiOperator_execute_
    (execution_date prev_execution_date : datetime) : task unit :=
  mret tt.

(** *** Articles *)

(** The body of [for article in articles] of [GetData.execute_]; [date] is
    [self.execution_date.date().isoformat()]. The document is written at
    articles/[date]/[keyword]/[hash]. *)
Definition GetData_store_article (date keyword : string)
    (article : gmap string json) : task unit :=
  hash ← match article !! "url" with
         | Some (JStr url) => mret (md5_hexdigest url)
         | Some _ => raise TypeError
         | None => raise KeyError
         end;
  let article := <["id" := JStr hash]> article in
  let article := <["keyword" := JStr keyword]> article in
  let article := <["date" := JStr date]> article in
  modify (fun w => set_articles (<[(date, keyword, hash) := article]> (articles w)) w).

(** The paging loop [while True] for one keyword. [pages] are the article
    lists the content API returns for [page], [page + 1], ...; past the
    end of [pages] it returns no article. *)
Fixpoint GetData_pages (date keyword : string) (page : nat)
    (pages : list (list (gmap string json))) : task unit :=
  if NEWSAPI_DEV_MODE && bool_decide (10 < page) then mret tt
  else
    match pages with
    | [] => mret tt
    | articles :: pages' =>
        if bool_decide (length articles = 0) then mret tt
        else
          for_each articles (GetData_store_article date keyword) ;;
          GetData_pages date keyword (S page) pages'
    end.

(** [get_everything keyword] are the pages of
    [newsapi_client.get_everything(q=keyword, ..., page=1, 2, ...)['articles']]. *)
Definition GetData_execute_ (get_everything : string -> list (list (gmap string json)))
    (execution_date prev_execution_date : datetime) : task unit :=
  let date := date_isoformat (dt_date execution_date) in
  for_each NEWSAPI_QUERY_KEYWORDS (fun keyword =>
    GetData_pages date keyword 1 (get_everything keyword)).

(** *** BigQuery *)

(** [bigquery_client.get_table(...)] *)
Definition get_table : task table :=
  t ← gets bq_table;
  match t with
  | Some t => mret t
  | None => raise NotFound
  end.

(** The loop over [BIGQUERY_TABLE_SCHEMA.items()]. *)
Definition extend_schema (current_names : list string)
    (new_schema : list SchemaField) (declared : list (string * field_decl))
    : list SchemaField :=
  foldl (fun new_schema '(field_name, field_schema) =>
           if decide (field_name ∈ current_names) then new_schema
           else new_schema ++ [_get_field_schema field_name field_schema])
        new_schema declared.

Definition CheckAndCreateBigQueryTable_execute_
    (execution_date prev_execution_date : datetime) : task unit :=
  (* create dataset exists true *)
  modify (set_bq_dataset true) ;;
  (* create table exists true *)
  modify (fun w => match bq_table w with
                   | Some _ => w
                   | None => set_bq_table (Some (Table [] [])) w
                   end) ;;
  table ← get_table;
  let current_schema := schema table in
  let current_names := SchemaField_name <$> current_schema in
  let new_schema := extend_schema current_names current_schema BIGQUERY_TABLE_SCHEMA in
  (* table.schema = new_schema; update_table(table, ["schema"]) *)
  modify (fun w => match bq_table w with
                   | Some t => set_bq_table (Some (Table new_schema (rows t))) w
                   | None => w
                   end).

(** [keyword_ref.stream()]: the documents of the partition
    articles/[date]/[keyword], with their ids, in ascending order of the
    ids. *)
Definition stream (date keyword : string) (w : world)
    : list (string * gmap string json) :=
  merge_sort (fun doc1 doc2 => String.leb doc1.1 doc2.1)
    (omap (fun '((d, k, id), article) =>
             if decide (d = date ∧ k = keyword) then Some (id, article) else None)
          (map_to_list (articles w))).

(** [row['publishedAt'][:19]]; a text is the sequence of its characters,
    one [ascii] each. *)
Definition slice_19 (v : option json) : task json :=
  match v with
  | Some (JStr s) => mret (JStr (String.substring 0 19 s))
  | Some (JArr l) => mret (JArr (take 19 l))
  | Some _ => raise TypeError
  | None => raise KeyError
  end.

(** [bigquery_client.insert_rows_json(table, [row])] *)
Definition insert_rows_json (row : gmap string json) : task unit :=
  t ← get_table;
  modify (set_bq_table (Some (Table (schema t) (rows t ++ [row])))).

Definition LoadsDataToBigQuery_execute_
    (execution_date prev_execution_date : datetime) : task unit :=
  let current_date := date_isoformat (dt_date execution_date) in
  table ← get_table;
  for_each NEWSAPI_QUERY_KEYWORDS (fun keyword =>
    documents ← gets (stream current_date keyword);
    for_each documents (fun '(id, article) =>
      let row := <["id" := JStr id]> article in
      publishedAt ← slice_19 (row !! "publishedAt");
      let row := <["publishedAt" := publishedAt]> row in
      let row := <["date" := JStr current_date]> row in
      insert_rows_json row)).

(** *** The tasks of the DAG, with what the content API answers them *)

Inductive dag_task :=
| ping_task
| get_schemas_task (sources top_headlines : list dict)
| check_schemas_task
| clear_old_schemas
| get_news_sources (sources : list dict)
| publish_news_sources
| clear_old_sources
| get_data_task (get_everything : string -> list (list (gmap string json)))
| check_data_schemas
| loads_data_task.

Definition run (t : dag_task) (execution_date : datetime) : task unit :=
  execute
    match t with
    | ping_task => PingNewsApiOperator_execute_
    | get_schemas_task sources top_headlines =>
        GetDataSchemas_execute_ sources top_headlines
    | check_schemas_task => CheckDataSchemas_execute_
    | clear_old_schemas => ClearOldSchemas_execute_
    | get_news_sources sources => GetNewsSources_execute_ sources
    | publish_news_sources => CheckAndPublishNewsSources_execute_
    | clear_old_sources => ClearOldSourceData_execute_
    | get_data_task get_everything => GetData_execute_ get_everything
    | check_data_schemas => CheckAndCreateBigQueryTable_execute_
    | loads_data_task => LoadsDataToBigQuery_execute_
    end
    execution_date.

End Operators.

#[global] Arguments topic_path : simpl never.
#[global] Arguments extend_schema : simpl never.
#[global] Arguments publish_diff : simpl never.

(** ** What a run leaves behind *)

(** Unfolds the monad: a run becomes a term on the world. *)
Ltac unfold_task :=
  unfold document_get, document_set, document_delete, publish,
    log_info, log_warning in *;
  unfold mbind, task_bind, mret, task_ret, gets, modify, raise in *.

(** The world after [check_pubsub_topic topic]. *)
Definition after_check_pubsub_topic (topic : string) (w : world) : world :=
  if decide (topic ∈ topics w) then w
  else set_topics (topics w ++ [topic])
         (set_log (log w ++ [LogRecord INFO ("create pubsub topic " +:+ topic)]) w).

(** The messages of [publish_diff], oldest first. *)
Definition diff_messages (topic : string) (prev_keys current_keys : gset string)
    : list message :=
  (if decide (prev_keys ∖ current_keys = ∅) then []
   else [Message topic
           (JObj [("remove", JArr (JStr <$> elements (prev_keys ∖ current_keys)))])]) ++
  (if decide (current_keys ∖ prev_keys = ∅) then []
   else [Message topic
           (JObj [("new", JArr (JStr <$> elements (current_keys ∖ prev_keys)))])]).

(** The messages of one half of [CheckDataSchemas.execute_], from the two
    snapshots it reads. *)
Definition schema_messages (topic bootstrap_topic : string)
    (prev_schema schema : option (list string)) : list message :=
  match prev_schema, schema with
  | Some prev_keys, Some keys =>
      diff_messages topic (list_to_set prev_keys) (list_to_set keys)
  | None, Some keys => [Message bootstrap_topic (JObj [("new", JArr (JStr <$> keys))])]
  | _, None => []
  end.

(** [m] leaves the part [proj] of the world as it found it, however it ends. *)
Definition preserves {A X} (proj : world -> X) (m : task A) : Prop :=
  ∀ w, proj (m w).2 = proj w.

(** The dict [{source['id']: source for source in sources}], or the
    exception of the first source without a hashable [id]. *)
Fixpoint sources_items (sources : list dict) (acc : gmap string json)
    (others : list json) : outcome (gmap string json * list json) :=
  match sources with
  | [] => Returned (acc, others)
  | source :: sources' =>
      match dict_get "id" source with
      | Some (JStr id) => sources_items sources' (<[id := JObj source]> acc) others
      | Some (JArr _) | Some (JObj _) => Raised TypeError
      | Some id => sources_items sources' acc (others ++ [id])
      | None => Raised KeyError
      end
  end.

(** The document [GetNewsSources.execute_] stores for the fetched sources,
    or the exception of the comprehension or of [set()]. *)
Definition sources_dict (sources : list dict) : outcome (gmap string json) :=
  match sources_items sources ∅ [] with
  | Returned (fields, others) =>
      match set_raises fields others with
      | Some ex => Raised ex
      | None => Returned fields
      end
  | Raised ex => Raised ex
  end.

(** The records [GetNewsSources.execute_] logs before it writes. *)
Definition GetNewsSources_log (fetched : list dict) (execution_date : string)
    (w : world) : list log_record :=
  [LogRecord INFO ("sources_count: " +:+ pretty (length fetched))] ++
  (if snapshot_exists (sources w !! execution_date)
   then [LogRecord WARNING ("overriding sources for date " +:+ execution_date)]
   else []).

(** The declared fields whose names are not among [current_names], as
    schema fields, in the order of the declaration. *)
Definition missing_fields (current_names : list string)
    (declared : list (string * field_decl)) : list SchemaField :=
  (fun entry => _get_field_schema entry.1 entry.2) <$>
  filter (fun entry => entry.1 ∉ current_names) declared.

(** The schema and the rows of the table, empty when it has just been
    created. *)
Definition table_or_new (t : option table) : table :=
  match t with
  | Some t => t
  | None => Table [] []
  end.

(** The document [GetData.execute_] writes for [article]. *)
Definition stored_article (hash keyword date : string) (article : gmap string json)
    : gmap string json :=
  <["date" := JStr date]> (<["keyword" := JStr keyword]> (<["id" := JStr hash]> article)).

(** The laws of a collection reference. *)
Record lawful_ref {A} (ref : collection_ref A) : Prop := LawfulRef {
  get_set : ∀ c w, coll_get ref (coll_set ref c w) = c;
  set_get : ∀ w, coll_set ref (coll_get ref w) w = w;
  set_set : ∀ c c' w, coll_set ref c (coll_set ref c' w) = coll_set ref c w
}.

(** The ISO keys of [d], [d - 1 day], ..., [n] of them, as far as they exist. *)
Fixpoint keys_back (d : date) (n : nat) : list string :=
  match n with
  | O => []
  | S n' =>
      date_isoformat d ::
      match minus_one_day d with
      | Some d' => keys_back d' n'
      | None => []
      end
  end.

(** The documents of [keys] deleted one after the other. *)
Definition delete_keys {A} (keys : list string) (c : gmap string A) : gmap string A :=
  foldl (fun c key => delete key c) c keys.

(** In the collection [c], the snapshots of the days [D - 2], ...,
    [D - (k - 1)] exist and the snapshot of [D - k] is the first one missing. *)
Definition contiguous_run {A} (c : gmap string A) (D : date) (k : nat) : Prop :=
  2 ≤ k ∧
  (∃ dk, minus_days D k = Some dk ∧ c !! date_isoformat dk = None) ∧
  ∀ i di, 2 ≤ i < k -> minus_days D i = Some di -> is_Some (c !! date_isoformat di).

(** [c'] is [c] without the snapshots of [D - 2], ..., [D - (k - 1)]: those
    are gone, the snapshot of every other day and the document under every
    other key are as in [c]. *)
Definition pruned {A} (c c' : gmap string A) (D : date) (k : nat) : Prop :=
  (∀ i di, minus_days D i = Some di ->
     c' !! date_isoformat di
     = if bool_decide (2 ≤ i < k) then None else c !! date_isoformat di) ∧
  (∀ key, (∀ i di, 2 ≤ i < k -> minus_days D i = Some di -> key ≠ date_isoformat di) ->
     c' !! key = c !! key).

(** A collection reference whose writes leave the published messages alone. *)
Definition ref_keeps_published {A} (ref : collection_ref A) : Prop :=
  ∀ c w, published (coll_set ref c w) = published w.

(** The wire format of the specification: an object with exactly one key,
    [new] or [remove], mapped to a list of strings. *)
Definition wire_format (m : message) : Prop :=
  ∃ (key : string) (ids : list string),
    (key = "new" ∨ key = "remove") ∧
    msg_data m = JObj [(key, JArr (JStr <$> ids))].

(** ** Concrete runs *)

Module Sample.

Definition empty_world : world := World ∅ ∅ ∅ ∅ [] [] false None [].

(** 2020-01-02T00:00:00, the execution date of the sample runs. *)
Definition jan2 : datetime := DateTime (Date 2020 1 2) 0 0 0 0 None.
Definition jan1 : datetime := DateTime (Date 2020 1 1) 0 0 0 0 None.

(** A sources snapshot as [GetNewsSources] writes it. *)
Definition snapshot (ids : list string) : gmap string json :=
  list_to_map ((fun id => (id, JObj [("id", JStr id)])) <$> ids).

Definition with_sources (docs : list (string * gmap string json)) : world :=
  set_sources (list_to_map docs) empty_world.

Definition with_schemas (sources_docs article_docs : list (string * list string))
    : world :=
  set_sources_schema (list_to_map sources_docs)
    (set_article_schema (list_to_map article_docs) empty_world).

Definition project : string := "demo".

(** The operators of a deployment with project [demo], the keywords
    [rocq] and [ocaml], no declared table schema and a stand-in for MD5. *)
Definition run_task : dag_task -> datetime -> task unit :=
  run project false ["rocq"; "ocaml"] [] (fun url => "md5:" +:+ url).

End Sample.

(** ** Further helpers of [dags/crawler.py] and notions about whole runs *)

(** The three key builders of the module (no operator calls them). *)
Definition get_google_store_source_key (date : string) : string :=
  COLLECTION_SOURCES_KEY +:+ "-" +:+ date.

Definition get_google_store_source_schema_key (date : string) : string :=
  "source-schema-" +:+ date.

Definition get_google_store_article_schema_key (date : string) : string :=
  "article-schema-" +:+ date.

(** [source['id']] when it is a string. *)
Definition string_id (source : dict) : option string :=
  match dict_get "id" source with
  | Some (JStr id) => Some id
  | _ => None
  end.

(** A value the content API gives a field of a source: a text, a boolean
    or null. *)
Definition plain_value (v : json) : Prop :=
  match v with
  | JStr _ | JBool _ | JNull => True
  | _ => False
  end.

(** A record of plain values under names that are not empty. *)
Definition plain_record (source : dict) : Prop :=
  Forall (fun field => field.1 ≠ "" ∧ plain_value field.2) source.

(** The ids of the fetched sources that have one. *)
Definition source_ids (fetched : list dict) : list string := omap string_id fetched.

(** The last fetched source whose id is [id]. *)
Definition latest_source (id : string) (fetched : list dict) : option dict :=
  last (filter (fun source => string_id source = Some id) fetched).

(** Every document id of the collection is the ISO string of a date. *)
Definition date_keyed {A} (c : gmap string A) : Prop :=
  ∀ k, is_Some (c !! k) -> ∃ d, k = date_isoformat d.

Definition snapshots_date_keyed (w : world) : Prop :=
  date_keyed (sources w) ∧ date_keyed (sources_schema w) ∧
  date_keyed (article_schema w).

(** [m] keeps the invariant [I] of the world, however it ends. *)
Definition maintains {A} (I : world -> Prop) (m : task A) : Prop :=
  ∀ w, I w -> I (m w).2.

(** A message [{new: keys}] on the articles-schema topic. *)
Definition bootstrap_message (project : string) (m : message) : Prop :=
  msg_topic m = articles_schema_topic project ∧
  ∃ keys : list string, msg_data m = JObj [("new", JArr (JStr <$> keys))].

(** The tasks of [schedule] run one after the other, each on its own
    execution date, whether or not the ones before raised. *)
Fixpoint run_schedule (runner : dag_task -> datetime -> task unit)
    (schedule : list (dag_task * datetime)) (w : world) : world :=
  match schedule with
  | [] => w
  | (t, e) :: schedule' => run_schedule runner schedule' (runner t e w).2
  end.

(** Every article document carries its own path: its id, the keyword and
    the date of its partition. *)
Definition articles_well_keyed
    (c : gmap (string * string * string) (gmap string json)) : Prop :=
  ∀ date keyword hash article,
    c !! (date, keyword, hash) = Some article ->
    article !! "id" = Some (JStr hash) ∧
    article !! "keyword" = Some (JStr keyword) ∧
    article !! "date" = Some (JStr date).

(** The documents of [writes] set one after the other. *)
Definition write_all (writes : list (string * string * string * gmap string json))
    (c : gmap (string * string * string) (gmap string json))
    : gmap (string * string * string) (gmap string json) :=
  foldl (fun c write => <[write.1 := write.2]> c) c writes.

(** From any state, [m] ends with [r] after setting the article documents
    [writes], in this order, and changes nothing else. *)
Definition writes_articles {A} (m : task A)
    (writes : list (string * string * string * gmap string json))
    (r : outcome A) : Prop :=
  ∀ w, m w = (r, set_articles (write_all writes (articles w)) w).

(** [m] only sets article documents, each of them satisfying [P]. *)
Definition article_writer {A}
    (P : string * string * string * gmap string json -> Prop) (m : task A) : Prop :=
  ∃ writes r, writes_articles m writes r ∧ Forall P writes.

(** A document as [GetData] writes it on the date [date] for an article
    of one of the pages [pages] of the keyword [keyword]: under the MD5 of
    the URL of the article. *)
Definition page_write (md5_hexdigest : string -> string) (date keyword : string)
    (pages : list (list (gmap string json)))
    (write : string * string * string * gmap string json) : Prop :=
  ∃ page url article,
    page ∈ pages ∧ article ∈ page ∧ article !! "url" = Some (JStr url) ∧
    write = ((date, keyword, md5_hexdigest url),
             stored_article (md5_hexdigest url) keyword date article).

(** A document as [GetData] writes it on the date [date]: in the partition
    of a configured keyword, for an article of a page the content API
    answered for this keyword. *)
Definition fetched_write (md5_hexdigest : string -> string) (date : string)
    (keywords : list string)
    (get_everything : string -> list (list (gmap string json)))
    (write : string * string * string * gmap string json) : Prop :=
  ∃ keyword, keyword ∈ keywords ∧
             page_write md5_hexdigest date keyword (get_everything keyword) write.

(** The last document written under [key]. *)
Definition last_write (key : string * string * string)
    (writes : list (string * string * string * gmap string json))
    : option (gmap string json) :=
  snd <$> last (filter (fun write => write.1 = key) writes).

(** The documents [LoadsDataToBigQuery] streams for [date], keyword after
    keyword of [keywords]. *)
Definition streamed (keywords : list string) (date : string) (w : world)
    : list (string * gmap string json) :=
  keywords ≫= (fun keyword => stream date keyword w).

(** The row of the loop body of [LoadsDataToBigQuery.execute_] for the
    document [doc], or the exception of [row['publishedAt'][:19]]. *)
Definition build_row (current_date : string) (doc : string * gmap string json)
    : outcome (gmap string json) :=
  let row := <["id" := JStr doc.1]> doc.2 in
  match row !! "publishedAt" with
  | Some (JStr s) =>
      Returned (<["date" := JStr current_date]>
                  (<["publishedAt" := JStr (String.substring 0 19 s)]> row))
  | Some (JArr l) =>
      Returned (<["date" := JStr current_date]>
                  (<["publishedAt" := JArr (take 19 l)]> row))
  | Some _ => Raised TypeError
  | None => Raised KeyError
  end.

(** The rows inserted for [docs], up to the first document whose row cannot
    be built, and how the loop ends. *)
Fixpoint load_rows (current_date : string) (docs : list (string * gmap string json))
    : list (gmap string json) * outcome unit :=
  match docs with
  | [] => ([], Returned tt)
  | doc :: docs' =>
      match build_row current_date doc with
      | Returned row =>
          (row :: (load_rows current_date docs').1, (load_rows current_date docs').2)
      | Raised e => ([], Raised e)
      end
  end.

(** [row] is the document [doc] with its id as [id], the first 19
    characters of its text [publishedAt], and [current_date] as [date]. *)
Definition text_row (current_date : string) (doc : string * gmap string json)
    (row : gmap string json) : Prop :=
  ∃ s, doc.2 !! "publishedAt" = Some (JStr s) ∧
       row = <["date" := JStr current_date]>
               (<["publishedAt" := JStr (String.substring 0 19 s)]>
                  (<["id" := JStr doc.1]> doc.2)).

(** [row] is the document [doc] with its id as [id], its [publishedAt] cut
    to 19 characters or items, and [current_date] as [date]. *)
Definition loaded_row (current_date : string) (doc : string * gmap string json)
    (row : gmap string json) : Prop :=
  ∃ publishedAt,
    ((∃ s, doc.2 !! "publishedAt" = Some (JStr s) ∧
           publishedAt = JStr (String.substring 0 19 s)) ∨
     (∃ l, doc.2 !! "publishedAt" = Some (JArr l) ∧ publishedAt = JArr (take 19 l))) ∧
    row = <["date" := JStr current_date]>
            (<["publishedAt" := publishedAt]> (<["id" := JStr doc.1]> doc.2)).

(** [t'] has the columns and the rows of [t], in their order, and maybe
    more after them. *)
Definition table_grows (t t' : table) : Prop :=
  schema t `prefix_of` schema t' ∧ rows t `prefix_of` rows t'.

(** [ms] are the messages of a diff from the keys [prev] to the keys [cur]
    on [topic]: [{remove: ids}] when [prev - cur] is not empty, then
    [{new: ids}] when [cur - prev] is not empty, each list holding the ids
    of its set once, in the order [list(set)] gives them. *)
Definition announces_diff (topic : string) (prev cur : gset string)
    (ms : list message) : Prop :=
  ∃ removed added : list string,
    NoDup removed ∧ list_to_set removed = prev ∖ cur ∧
    NoDup added ∧ list_to_set added = cur ∖ prev ∧
    ms = (if decide (removed = []) then []
          else [Message topic (JObj [("remove", JArr (JStr <$> removed))])]) ++
         (if decide (added = []) then []
          else [Message topic (JObj [("new", JArr (JStr <$> added))])]).

(** [ms] are the messages of one half of the schema notifier that finds
    [prev] for the previous day and [cur] for the day: the diff on [topic]
    when both exist, [{new: keys}] on [bootstrap_topic] when only the
    snapshot of the day exists, nothing otherwise. *)
Definition announces_schema (topic bootstrap_topic : string)
    (prev cur : option (list string)) (ms : list message) : Prop :=
  match prev, cur with
  | Some prev_keys, Some keys =>
      announces_diff topic (list_to_set prev_keys) (list_to_set keys) ms
  | None, Some keys => ms = [Message bootstrap_topic (JObj [("new", JArr (JStr <$> keys))])]
  | _, None => ms = []
  end.

(** * Properties *)

(** ** Calendar *)

Section CalendarFacts.

Local Open Scope Z_scope.

Example date_isoformat_2020_03_01 : date_isoformat (Date 2020 3 1) = "2020-03-01"%string.
Proof. reflexivity. Qed.

Example date_isoformat_year_987 : date_isoformat (Date 987 12 31) = "0987-12-31"%string.
Proof. reflexivity. Qed.

Example datetime_isoformat_utc :
  datetime_isoformat (DateTime (Date 2020 3 1) 0 0 0 0 (Some (fixed_offset 0)))
  = "2020-03-01T00:00:00+00:00"%string.
Proof. reflexivity. Qed.

Example datetime_isoformat_microsecond :
  datetime_isoformat (DateTime (Date 2020 3 1) 23 5 9 1500 None)
  = "2020-03-01T23:05:09.001500"%string.
Proof. reflexivity. Qed.

Example minus_one_day_leap : minus_one_day (Date 2020 3 1) = Some (Date 2020 2 29).
Proof. reflexivity. Qed.

Example minus_one_day_new_year : minus_one_day (Date 2020 1 1) = Some (Date 2019 12 31).
Proof. reflexivity. Qed.

Example minus_one_day_min : minus_one_day (Date 1 1 1) = None.
Proof. reflexivity. Qed.

Lemma digit_code (n : Z) :
  nat_of_ascii (digit n) = (48 + Z.to_nat (n mod 10))%nat.
Proof.
  unfold digit. apply nat_ascii_embedding.
  pose proof (Z.mod_pos_bound n 10). lia.
Qed.

Lemma digit_inj (n m : Z) : digit n = digit m -> n mod 10 = m mod 10.
Proof.
  intros H. apply (f_equal nat_of_ascii) in H. rewrite !digit_code in H.
  pose proof (Z.mod_pos_bound n 10). pose proof (Z.mod_pos_bound m 10). lia.
Qed.

Lemma digits_length (w : nat) (n : Z) : length (digits w n) = w.
Proof.
  revert n. induction w as [|w IH]; intros n; simpl; [done|].
  rewrite length_app, IH. simpl. lia.
Qed.

Lemma digits_inj (w : nat) (n m : Z) :
  0 <= n < 10 ^ Z.of_nat w -> 0 <= m < 10 ^ Z.of_nat w ->
  digits w n = digits w m -> n = m.
Proof.
  revert n m. induction w as [|w IH]; intros n m Hn Hm H.
  - simpl in Hn, Hm. lia.
  - simpl in H. apply app_inj_tail in H as [Hhi Hlo].
    apply digit_inj in Hlo.
    rewrite Nat2Z.inj_succ, Z.pow_succ_r in Hn, Hm by lia.
    assert (n / 10 = m / 10) as Hdiv.
    { apply IH; [| |done].
      - split; [apply Z.div_pos; lia | apply Z.div_lt_upper_bound; lia].
      - split; [apply Z.div_pos; lia | apply Z.div_lt_upper_bound; lia]. }
    rewrite (Z.div_mod n 10), (Z.div_mod m 10) by lia. congruence.
Qed.

Lemma date_chars_length (d : date) : length (date_chars d) = 10%nat.
Proof. unfold date_chars. rewrite !length_app, !digits_length. done. Qed.

Lemma string_of_list_ascii_inj (l k : list ascii) :
  string_of_list_ascii l = string_of_list_ascii k -> l = k.
Proof.
  intros H. apply (f_equal list_ascii_of_string) in H.
  by rewrite !list_ascii_of_string_of_list_ascii in H.
Qed.

Lemma valid_date_bounds (d : date) :
  valid_date d = true ->
  1 <= year d <= 9999 /\ 1 <= month d <= 12 /\
  1 <= day d <= days_in_month (year d) (month d).
Proof. unfold valid_date. rewrite !andb_true_iff, !Z.leb_le. tauto. Qed.

Lemma days_in_month_bounds (y m : Z) : 28 <= days_in_month y m <= 31.
Proof.
  unfold days_in_month.
  repeat match goal with
         | |- context [match ?x with _ => _ end] => destruct x
         end; lia.
Qed.

(** Distinct dates have distinct ISO strings. *)
Lemma date_isoformat_inj (d1 d2 : date) :
  valid_date d1 = true -> valid_date d2 = true ->
  date_isoformat d1 = date_isoformat d2 -> d1 = d2.
Proof.
  intros V1 V2 H.
  apply valid_date_bounds in V1 as (Hy1 & Hm1 & Hd1).
  apply valid_date_bounds in V2 as (Hy2 & Hm2 & Hd2).
  pose proof (days_in_month_bounds (year d1) (month d1)).
  pose proof (days_in_month_bounds (year d2) (month d2)).
  apply string_of_list_ascii_inj in H. unfold date_chars in H.
  apply app_inj_1 in H as [Hy H]; [|by rewrite !digits_length].
  apply app_inj_1 in H as [_ H]; [|done].
  apply app_inj_1 in H as [Hm H]; [|by rewrite !digits_length].
  apply app_inj_1 in H as [_ Hd]; [|done].
  apply digits_inj in Hy; [|simpl; lia..].
  apply digits_inj in Hm; [|simpl; lia..].
  apply digits_inj in Hd; [|simpl; lia..].
  destruct d1, d2; simpl in *; congruence.
Qed.

(** The key a snapshotter writes and the key a notifier reads for the
    previous day are never the same string. *)
Lemma date_isoformat_ne_datetime_isoformat (d : date) (dt : datetime) :
  date_isoformat d ≠ datetime_isoformat dt.
Proof.
  intros H. apply string_of_list_ascii_inj in H.
  apply (f_equal length) in H.
  rewrite !length_app, !date_chars_length in H. simpl in H. lia.
Qed.

Lemma minus_one_day_valid (d d' : date) :
  valid_date d = true -> minus_one_day d = Some d' ->
  valid_date d' = true /\ (rank d' < rank d)%nat.
Proof.
  intros V H. apply valid_date_bounds in V as (Hy & Hm & Hd).
  unfold minus_one_day in H.
  pose proof (days_in_month_bounds (year d) (month d - 1)).
  unfold rank, valid_date.
  repeat case_match; simplify_eq; simpl;
    rewrite ?andb_true_iff, ?Z.leb_le; repeat split; try lia.
  all: rewrite ?Z.ltb_lt, ?Z.ltb_ge in *; try lia.
  all: try (unfold days_in_month; simpl; lia).
Qed.

(** Only [date.min], 0001-01-01, has no previous day. *)
Lemma minus_one_day_None (d : date) :
  valid_date d = true -> minus_one_day d = None -> d = Date 1 1 1.
Proof.
  intros V H. apply valid_date_bounds in V as (Hy & Hm & Hd).
  unfold minus_one_day in H. repeat case_match; simplify_eq.
  rewrite ?Z.ltb_ge in *. destruct d; simpl in *. f_equal; lia.
Qed.

Lemma minus_days_valid (n : nat) (d d' : date) :
  valid_date d = true -> minus_days d n = Some d' ->
  valid_date d' = true /\ (rank d' + n <= rank d)%nat.
Proof.
  revert d. induction n as [|n IH]; intros d V H; simpl in H.
  - simplify_eq. split; [done|lia].
  - destruct (minus_one_day d) as [d1|] eqn:E; [|done].
    destruct (minus_one_day_valid d d1 V E) as [V1 Hr].
    destruct (IH d1 V1 H) as [V' Hr']. split; [done|lia].
Qed.

Lemma minus_days_add (n m : nat) (d : date) :
  minus_days d (n + m) = minus_days d n ≫= fun d' => minus_days d' m.
Proof.
  revert d. induction n as [|n IH]; intros d; simpl; [done|].
  destruct (minus_one_day d); simpl; [apply IH|done].
Qed.

(** Walking back a different number of days reaches a different key. *)
Lemma minus_days_isoformat_ne (d di dj : date) (i j : nat) :
  valid_date d = true -> i ≠ j ->
  minus_days d i = Some di -> minus_days d j = Some dj ->
  date_isoformat di ≠ date_isoformat dj.
Proof.
  assert (forall i j di dj, (i < j)%nat ->
            valid_date d = true ->
            minus_days d i = Some di -> minus_days d j = Some dj ->
            date_isoformat di ≠ date_isoformat dj) as Hlt.
  { clear. intros i j di dj Hij V Hi Hj Heq.
    replace j with (i + (j - i))%nat in Hj by lia.
    rewrite minus_days_add, Hi in Hj. simpl in Hj.
    destruct (minus_days_valid i d di V Hi) as [Vi _].
    destruct (minus_days_valid (j - i) di dj Vi Hj) as [Vj Hr].
    apply date_isoformat_inj in Heq; [|done..]. subst. lia. }
  intros V Hij Hi Hj.
  destruct (decide (i < j)%nat).
  - by eapply Hlt.
  - intros Heq. symmetry in Heq. revert Heq. eapply (Hlt j i); [lia|done..].
Qed.

End CalendarFacts.

(** ** Running the operators *)

Section RunFacts.

Lemma check_pubsub_topic_run (topic : string) (w : world) :
  check_pubsub_topic topic w = (Returned tt, after_check_pubsub_topic topic w).
Proof.
  unfold check_pubsub_topic, after_check_pubsub_topic. unfold_task.
  by case_decide.
Qed.

Lemma after_check_pubsub_topic_frame (topic : string) (w : world) :
  let w' := after_check_pubsub_topic topic w in
  sources w' = sources w ∧ sources_schema w' = sources_schema w ∧
  article_schema w' = article_schema w ∧ articles w' = articles w ∧
  published w' = published w ∧ bq_dataset w' = bq_dataset w ∧
  bq_table w' = bq_table w.
Proof. unfold after_check_pubsub_topic. by case_decide. Qed.

Lemma publish_diff_run (topic : string) (prev_keys current_keys : gset string)
    (w : world) :
  publish_diff topic prev_keys current_keys w
  = (Returned tt,
     set_published (published w ++ diff_messages topic prev_keys current_keys) w).
Proof.
  unfold publish_diff, diff_messages. unfold_task.
  destruct w. repeat case_decide; simpl; unfold set_published; simpl;
    rewrite ?app_nil_r, <- ?app_assoc; done.
Qed.

Lemma diff_messages_wire_format (topic : string) (prev_keys current_keys : gset string) :
  Forall wire_format (diff_messages topic prev_keys current_keys).
Proof.
  unfold diff_messages. apply Forall_app. split; case_decide;
    repeat constructor; eexists _, _; split; [| reflexivity | | reflexivity]; auto.
Qed.

Lemma diff_messages_topic (topic : string) (prev_keys current_keys : gset string) :
  Forall (fun m => msg_topic m = topic) (diff_messages topic prev_keys current_keys).
Proof.
  unfold diff_messages. apply Forall_app. split; case_decide; repeat constructor.
Qed.

End RunFacts.

(** ** The sources diff notifier *)

Section SourcesNotifier.

Variable GOOGLE_CLOUD_PROJECT : string.

Local Notation topic := (sources_topic GOOGLE_CLOUD_PROJECT).

(** The three ways a run of [CheckAndPublishNewsSources.execute_] ends. *)
Lemma CheckAndPublishNewsSources_run (e p : datetime) (w : world) :
  CheckAndPublishNewsSources_execute_ GOOGLE_CLOUD_PROJECT e p w =
  let w1 := after_check_pubsub_topic topic w in
  match sources w !! datetime_isoformat p with
  | None => (Returned tt, w1)
  | Some y =>
      match sources w !! date_isoformat (dt_date e) with
      | None => (Raised TypeError, w1)
      | Some t =>
          (Returned tt,
           set_published (published w ++ diff_messages topic (dom y) (dom t)) w1)
      end
  end.
Proof.
  unfold CheckAndPublishNewsSources_execute_. unfold_task.
  rewrite check_pubsub_topic_run. simpl.
  destruct (after_check_pubsub_topic_frame topic w) as (Hs & _ & _ & _ & Hp & _).
  rewrite !Hs.
  destruct (sources w !! datetime_isoformat p) as [y|] eqn:Ey; simpl; [|done].
  rewrite !Hs.
  destruct (sources w !! date_isoformat (dt_date e)) as [t|]; simpl; [|done].
  rewrite Hs, Ey. simpl.
  rewrite publish_diff_run. by rewrite Hp.
Qed.

End SourcesNotifier.

Section SourcesNotifierClaims.

Variable GOOGLE_CLOUD_PROJECT : string.
Variable NEWSAPI_DEV_MODE : bool.
Variable NEWSAPI_QUERY_KEYWORDS : list string.
Variable BIGQUERY_TABLE_SCHEMA : list (string * field_decl).
Variable md5_hexdigest : string -> string.

Local Notation run_task :=
  (run GOOGLE_CLOUD_PROJECT NEWSAPI_DEV_MODE NEWSAPI_QUERY_KEYWORDS
       BIGQUERY_TABLE_SCHEMA md5_hexdigest).
Local Notation topic := (sources_topic GOOGLE_CLOUD_PROJECT).

(** The sources notifier is silent when the document it looks up for the
    previous day does not exist, whatever else the collection holds. *)
Lemma publish_news_sources_cold_start (e p : datetime) (w : world) :
  datetime_minus_one_day e = Some p ->
  sources w !! datetime_isoformat p = None ->
  run_task publish_news_sources e w
  = (Returned tt, after_check_pubsub_topic topic w).
Proof.
  intros Hp Hy. unfold run, execute. rewrite Hp.
  by rewrite CheckAndPublishNewsSources_run, Hy.
Qed.

End SourcesNotifierClaims.

(** ** The schema diff notifier *)

Section SchemaNotifier.

Variable GOOGLE_CLOUD_PROJECT : string.

Local Notation src_topic := (sources_schema_topic GOOGLE_CLOUD_PROJECT).
Local Notation art_topic := (articles_schema_topic GOOGLE_CLOUD_PROJECT).

Lemma append_inj_r (s a b : string) : s +:+ a = s +:+ b -> a = b.
Proof. induction s as [|c s IH]; simpl; [done|]. intros [=]. auto. Qed.

Lemma schema_topics_differ : art_topic ≠ src_topic.
Proof.
  unfold articles_schema_topic, sources_schema_topic, topic_path.
  intros H. do 3 apply append_inj_r in H. discriminate H.
Qed.

Lemma set_published_id (w : world) : set_published (published w ++ []) w = w.
Proof. destruct w. unfold set_published. simpl. by rewrite app_nil_r. Qed.

(** One half of the schema notifier on the collection [ref], when
    publishing does not change what [ref] holds. *)
Lemma check_schema_run (ref : collection_ref (list string))
    (topic bootstrap_topic execution_date prev_execution_date : string) (w : world) :
  check_schema ref topic bootstrap_topic execution_date prev_execution_date w
  = (Returned tt,
     set_published
       (published w ++
        schema_messages topic bootstrap_topic
          (coll_get ref w !! prev_execution_date)
          (coll_get ref w !! execution_date)) w).
Proof.
  unfold check_schema. unfold_task.
  destruct (coll_get ref w !! prev_execution_date) as [prev_keys|],
           (coll_get ref w !! execution_date) as [keys|]; simpl;
    rewrite ?publish_diff_run, ?set_published_id; done.
Qed.

Lemma schema_messages_wire_format (topic bootstrap_topic : string)
    (prev_schema schema : option (list string)) :
  Forall wire_format (schema_messages topic bootstrap_topic prev_schema schema).
Proof.
  destruct prev_schema, schema; simpl; auto using diff_messages_wire_format.
  repeat constructor. eexists _, _. split; [by left | reflexivity].
Qed.

(** A run of [CheckDataSchemas.execute_]: the messages of the source
    schema half, then those of the article schema half. *)
Lemma CheckDataSchemas_run (e p : datetime) (w : world) :
  let execution_date := date_isoformat (dt_date e) in
  let prev_execution_date := datetime_isoformat p in
  CheckDataSchemas_execute_ GOOGLE_CLOUD_PROJECT e p w
  = (Returned tt,
     set_published
       (published w ++
        schema_messages src_topic art_topic
          (sources_schema w !! prev_execution_date)
          (sources_schema w !! execution_date) ++
        schema_messages art_topic art_topic
          (article_schema w !! prev_execution_date)
          (article_schema w !! execution_date))
       (after_check_pubsub_topic art_topic
          (after_check_pubsub_topic src_topic w))).
Proof.
  intros execution_date prev_execution_date.
  unfold CheckDataSchemas_execute_. unfold_task.
  rewrite !check_pubsub_topic_run. simpl.
  rewrite !check_schema_run. simpl.
  set (w1 := after_check_pubsub_topic src_topic w).
  set (w2 := after_check_pubsub_topic art_topic w1).
  destruct (after_check_pubsub_topic_frame src_topic w)
    as (_ & Hs1 & Ha1 & _ & Hp1 & _).
  destruct (after_check_pubsub_topic_frame art_topic w1)
    as (_ & Hs2 & Ha2 & _ & Hp2 & _).
  fold w1 in Hs1, Ha1, Hp1. fold w2 in Hs2, Ha2, Hp2.
  rewrite Hs2, Ha2, Hp2, Hs1, Ha1, Hp1.
  unfold set_published. simpl. by rewrite <- app_assoc.
Qed.

End SchemaNotifier.

Section SchemaNotifierClaims.

Variable GOOGLE_CLOUD_PROJECT : string.
Variable NEWSAPI_DEV_MODE : bool.
Variable NEWSAPI_QUERY_KEYWORDS : list string.
Variable BIGQUERY_TABLE_SCHEMA : list (string * field_decl).
Variable md5_hexdigest : string -> string.

Local Notation run_task :=
  (run GOOGLE_CLOUD_PROJECT NEWSAPI_DEV_MODE NEWSAPI_QUERY_KEYWORDS
       BIGQUERY_TABLE_SCHEMA md5_hexdigest).
Local Notation src_topic := (sources_schema_topic GOOGLE_CLOUD_PROJECT).
Local Notation art_topic := (articles_schema_topic GOOGLE_CLOUD_PROJECT).

(** C4. The schema notifier returns, and for each of its two collections
    whose previous-day document is absent and whose snapshot of the day
    exists, a message [{new: keys}] with all the keys of that snapshot is
    among the messages it publishes; the sources notifier returns without
    publishing anything when its previous-day document is absent. *)
Theorem schema_bootstrap_sources_silent (e p : datetime) (w : world) :
  datetime_minus_one_day e = Some p ->
  let execution_date := date_isoformat (dt_date e) in
  let prev_execution_date := datetime_isoformat p in
  (∃ w' ms, run_task check_schemas_task e w = (Returned tt, w') ∧
     published w' = published w ++ ms ∧
     (∀ keys, sources_schema w !! prev_execution_date = None ->
              sources_schema w !! execution_date = Some keys ->
              Message art_topic (JObj [("new", JArr (JStr <$> keys))]) ∈ ms) ∧
     (∀ keys, article_schema w !! prev_execution_date = None ->
              article_schema w !! execution_date = Some keys ->
              Message art_topic (JObj [("new", JArr (JStr <$> keys))]) ∈ ms)) ∧
  (sources w !! prev_execution_date = None ->
   ∃ w', run_task publish_news_sources e w = (Returned tt, w') ∧
     published w' = published w).
Proof.
  intros Hp execution_date prev_execution_date. split.
  - unfold run, execute. rewrite Hp, CheckDataSchemas_run.
    eexists _, _. split; [reflexivity|]. simpl. split; [reflexivity|].
    fold execution_date prev_execution_date.
    split; intros keys -> ->; simpl; set_solver.
  - intros Hnone. rewrite (publish_news_sources_cold_start _ _ _ _ _ e p w Hp Hnone).
    eexists. split; [reflexivity|].
    by destruct (after_check_pubsub_topic_frame
                   (sources_topic GOOGLE_CLOUD_PROJECT) w) as (_ & _ & _ & _ & -> & _).
Qed.

(** C5. When the previous-day document of the sources schema is absent
    and the snapshot of the day exists, the first message of the run is
    [{new: keys}] on the articles-schema topic, and no message of the run
    is on the sources-schema topic; in any run, a message on the
    sources-schema topic means that both documents of the sources schema
    exist. *)
Theorem sources_schema_bootstrap_topic (e p : datetime) (w : world) :
  datetime_minus_one_day e = Some p ->
  let execution_date := date_isoformat (dt_date e) in
  let prev_execution_date := datetime_isoformat p in
  ∃ w' ms, run_task check_schemas_task e w = (Returned tt, w') ∧
    published w' = published w ++ ms ∧
    (∀ keys, sources_schema w !! prev_execution_date = None ->
             sources_schema w !! execution_date = Some keys ->
             (∃ rest, ms = Message art_topic (JObj [("new", JArr (JStr <$> keys))])
                           :: rest) ∧
             Forall (fun m => msg_topic m = art_topic ∧ msg_topic m ≠ src_topic) ms) ∧
    (∀ m, m ∈ ms -> msg_topic m = src_topic ->
          is_Some (sources_schema w !! prev_execution_date) ∧
          is_Some (sources_schema w !! execution_date)).
Proof.
  intros Hp execution_date prev_execution_date.
  unfold run, execute. rewrite Hp, CheckDataSchemas_run.
  eexists _, _. split; [reflexivity|]. simpl. split; [reflexivity|].
  fold execution_date prev_execution_date.
  pose proof (schema_topics_differ GOOGLE_CLOUD_PROJECT) as Hne.
  assert (Forall (fun m => msg_topic m = art_topic ∧ msg_topic m ≠ src_topic)
            (schema_messages art_topic art_topic
               (article_schema w !! prev_execution_date)
               (article_schema w !! execution_date))) as Harticle.
  { destruct (article_schema w !! prev_execution_date),
             (article_schema w !! execution_date); simpl;
      repeat constructor; simpl; try done.
    all: eapply Forall_impl; [apply diff_messages_topic|];
      simpl; intros m ->; done. }
  split.
  - intros keys -> ->. simpl. split; [by eexists|].
    constructor; [done|exact Harticle].
  - intros m Hm Htopic.
    apply elem_of_app in Hm as [Hm|Hm].
    + destruct (sources_schema w !! prev_execution_date),
               (sources_schema w !! execution_date); simpl in Hm;
        try (split; by eexists); set_solver.
    + rewrite Forall_forall in Harticle.
      destruct (Harticle m Hm) as [_ Hn]. done.
Qed.

End SchemaNotifierClaims.

(** A first run of the schema notifier: both snapshots of the day exist, no
    previous-day document does, and both lists of keys are announced. *)
Lemma schema_bootstrap_sources_silent_witness :
  let w := Sample.with_schemas [("2020-01-02", ["id"; "name"])]
                               [("2020-01-02", ["title"; "url"])] in
  datetime_minus_one_day Sample.jan2 = Some Sample.jan1 ∧
  (∃ w' ms, Sample.run_task check_schemas_task Sample.jan2 w = (Returned tt, w') ∧
     published w' = ms ∧
     Message "projects/demo/topics/articles-schema"
             (JObj [("new", JArr [JStr "id"; JStr "name"])]) ∈ ms ∧
     Message "projects/demo/topics/articles-schema"
             (JObj [("new", JArr [JStr "title"; JStr "url"])]) ∈ ms) ∧
  (∃ w', Sample.run_task publish_news_sources Sample.jan2 w = (Returned tt, w') ∧
     published w' = []).
Proof.
  intros w. split; [reflexivity|].
  destruct (schema_bootstrap_sources_silent Sample.project false ["rocq"; "ocaml"] []
              (fun url => "md5:" +:+ url) Sample.jan2 Sample.jan1 w eq_refl)
    as [(w' & ms & Hrun & Hpub & Hsources & Harticles) Hsilent].
  split.
  - exists w', ms. split; [exact Hrun|]. split; [exact Hpub|]. split.
    + apply (Hsources ["id"; "name"]); by vm_compute.
    + apply (Harticles ["title"; "url"]); by vm_compute.
  - apply Hsilent. by vm_compute.
Defined.

(** The same first run: its first message carries the keys of the sources
    schema and is on the articles-schema topic. *)
Lemma sources_schema_bootstrap_topic_witness :
  let w := Sample.with_schemas [("2020-01-02", ["id"; "name"])]
                               [("2020-01-02", ["title"; "url"])] in
  datetime_minus_one_day Sample.jan2 = Some Sample.jan1 ∧
  ∃ w' rest, Sample.run_task check_schemas_task Sample.jan2 w = (Returned tt, w') ∧
    published w' =
      Message "projects/demo/topics/articles-schema"
              (JObj [("new", JArr [JStr "id"; JStr "name"])]) :: rest ∧
    Forall (fun m => msg_topic m ≠ "projects/demo/topics/sources-schema")
           (published w').
Proof.
  intros w. split; [reflexivity|].
  destruct (sources_schema_bootstrap_topic Sample.project false ["rocq"; "ocaml"] []
              (fun url => "md5:" +:+ url) Sample.jan2 Sample.jan1 w eq_refl)
    as (w' & ms & Hrun & Hpub & Hboot & _).
  destruct (Hboot ["id"; "name"]) as [[rest Hms] Htopics]; [by vm_compute..|].
  exists w', rest. split; [exact Hrun|]. simpl in Hpub. rewrite Hpub. split; [exact Hms|].
  eapply Forall_impl; [exact Htopics|]. intros m [_ Hne]. exact Hne.
Defined.

(** ** What the operators leave untouched *)

Section Frame.

Context {X : Type} (proj : world -> X).

Lemma preserves_ret {A} (a : A) : preserves proj (mret a).
Proof. done. Qed.

Lemma preserves_raise {A} (e : exn) : preserves proj (raise e : task A).
Proof. done. Qed.

Lemma preserves_gets {A} (f : world -> A) : preserves proj (gets f).
Proof. done. Qed.

Lemma preserves_modify (f : world -> world) :
  (∀ w, proj (f w) = proj w) -> preserves proj (modify f).
Proof. intros H w. apply H. Qed.

Lemma preserves_bind {A B} (m : task A) (f : A -> task B) :
  preserves proj m -> (∀ a, preserves proj (f a)) -> preserves proj (m ≫= f).
Proof.
  intros Hm Hf w. unfold mbind, task_bind.
  specialize (Hm w). destruct (m w) as [[a|e] w1]; simpl in *.
  - by rewrite Hf.
  - done.
Qed.

Lemma preserves_for_each {A} (xs : list A) (body : A -> task unit) :
  (∀ x, preserves proj (body x)) -> preserves proj (for_each xs body).
Proof.
  intros H. induction xs as [|x xs IH]; simpl.
  - apply preserves_ret.
  - apply preserves_bind; [apply H | intros _; apply IH].
Qed.

Lemma preserves_document_get {A} (ref : collection_ref A) (id : string) :
  preserves proj (document_get ref id).
Proof. apply preserves_gets. Qed.

Lemma preserves_date_minus_one_day (d : date) :
  preserves proj (date_minus_one_day d).
Proof.
  unfold date_minus_one_day.
  destruct (minus_one_day d); [apply preserves_ret | apply preserves_raise].
Qed.

End Frame.

(** One step of a proof that an operator preserves a part of the world. *)
Ltac preserves_step :=
  lazymatch goal with
  | |- preserves _ (mret _) => apply preserves_ret
  | |- preserves _ (raise _) => apply preserves_raise
  | |- preserves _ (gets _) => apply preserves_gets
  | |- preserves _ (document_get _ _) => apply preserves_document_get
  | |- preserves _ (date_minus_one_day _) => apply preserves_date_minus_one_day
  | |- preserves _ (for_each _ _) => apply preserves_for_each; intros ?
  | |- preserves _ (mbind _ _) => apply preserves_bind; [|intros ?]
  | |- preserves _ (modify _) => apply preserves_modify; intros ?
  | |- preserves _ (match ?x with _ => _ end) => destruct x
  end.

Section PublishedFrame.

Variable GOOGLE_CLOUD_PROJECT : string.
Variable NEWSAPI_DEV_MODE : bool.
Variable NEWSAPI_QUERY_KEYWORDS : list string.
Variable BIGQUERY_TABLE_SCHEMA : list (string * field_decl).
Variable md5_hexdigest : string -> string.

Lemma delete_while_exists_published {A} (ref : collection_ref A) (fuel : nat)
    (d : date) :
  ref_keeps_published ref -> preserves published (delete_while_exists fuel ref d).
Proof.
  intros Href. revert d. induction fuel as [|fuel IH]; intros d; simpl.
  - apply preserves_ret.
  - repeat preserves_step; auto using preserves_ret.
    unfold document_delete. preserves_step. apply Href.
Qed.

Lemma sources_by_id_published (l : list dict) (acc : gmap string json)
    (others : list json) :
  preserves published (sources_by_id l acc others).
Proof.
  revert acc others. induction l as [|source l IH]; intros acc others; simpl.
  - apply preserves_ret.
  - preserves_step; [unfold source_id; repeat preserves_step|].
    repeat preserves_step; apply IH.
Qed.

Lemma document_set_dict_published (id : string) (fields : gmap string json)
    (others : list json) :
  preserves published (document_set_dict sources_ref id fields others).
Proof. unfold document_set_dict, document_set. repeat preserves_step. done. Qed.

Lemma GetData_store_article_published (date keyword : string)
    (article : gmap string json) :
  preserves published (GetData_store_article md5_hexdigest date keyword article).
Proof. unfold GetData_store_article. repeat preserves_step. done. Qed.

Lemma GetData_pages_published (date keyword : string) (page : nat)
    (pages : list (list (gmap string json))) :
  preserves published
    (GetData_pages NEWSAPI_DEV_MODE md5_hexdigest date keyword page pages).
Proof.
  revert page. induction pages as [|articles pages IH]; intros page; simpl.
  - repeat preserves_step.
  - repeat preserves_step; auto using GetData_store_article_published.
Qed.

Lemma insert_rows_json_published (row : gmap string json) :
  preserves published (insert_rows_json row).
Proof. unfold insert_rows_json, get_table. repeat preserves_step. done. Qed.

(** Only the two notifiers publish. *)
Lemma other_tasks_keep_published (t : dag_task) (e : datetime) :
  t ≠ publish_news_sources -> t ≠ check_schemas_task ->
  preserves published
    (run GOOGLE_CLOUD_PROJECT NEWSAPI_DEV_MODE NEWSAPI_QUERY_KEYWORDS
         BIGQUERY_TABLE_SCHEMA md5_hexdigest t e).
Proof.
  intros Hsources Hschemas. unfold run, execute.
  destruct (datetime_minus_one_day e) as [p|]; [|apply preserves_raise].
  destruct t; try (exfalso; congruence).
  - apply preserves_ret.
  - unfold GetDataSchemas_execute_, pop, document_set. repeat preserves_step; done.
  - unfold ClearOldSchemas_execute_.
    repeat preserves_step; by apply delete_while_exists_published.
  - unfold GetNewsSources_execute_, log_info, log_warning, document_set.
    repeat preserves_step; try done;
      auto using sources_by_id_published, document_set_dict_published.
  - unfold ClearOldSourceData_execute_.
    repeat preserves_step; by apply delete_while_exists_published.
  - unfold GetData_execute_. repeat preserves_step. apply GetData_pages_published.
  - unfold CheckAndCreateBigQueryTable_execute_, get_table.
    repeat preserves_step; try done; by case_match.
  - unfold LoadsDataToBigQuery_execute_, get_table, slice_19.
    repeat preserves_step; auto using insert_rows_json_published.
Qed.

End PublishedFrame.

Section WireFormat.

Variable GOOGLE_CLOUD_PROJECT : string.
Variable NEWSAPI_DEV_MODE : bool.
Variable NEWSAPI_QUERY_KEYWORDS : list string.
Variable BIGQUERY_TABLE_SCHEMA : list (string * field_decl).
Variable md5_hexdigest : string -> string.

Local Notation run_task :=
  (run GOOGLE_CLOUD_PROJECT NEWSAPI_DEV_MODE NEWSAPI_QUERY_KEYWORDS
       BIGQUERY_TABLE_SCHEMA md5_hexdigest).

(** C9. Whatever task of the DAG runs, on whatever date and state, and
    however it ends, each message it adds to the published ones is the
    encoding of an object with exactly one key, [new] or [remove], whose
    value is a list of strings. *)
Theorem published_messages_wire_format (t : dag_task) (e : datetime) (w : world) :
  ∃ ms, published (run_task t e w).2 = published w ++ ms ∧ Forall wire_format ms.
Proof.
  destruct t;
    try (exists []; rewrite app_nil_r; split;
         [by apply other_tasks_keep_published | constructor]).
  - unfold run, execute.
    destruct (datetime_minus_one_day e) as [p|]; simpl;
      [|by exists []; rewrite app_nil_r].
    rewrite CheckDataSchemas_run. simpl.
    eexists. split; [reflexivity|].
    apply Forall_app. split; apply schema_messages_wire_format.
  - unfold run, execute.
    destruct (datetime_minus_one_day e) as [p|]; simpl;
      [|by exists []; rewrite app_nil_r].
    rewrite CheckAndPublishNewsSources_run. simpl.
    destruct (after_check_pubsub_topic_frame
                (sources_topic GOOGLE_CLOUD_PROJECT) w) as (_ & _ & _ & _ & Hp & _).
    destruct (sources w !! datetime_isoformat p) as [y|]; simpl;
      [|by exists []; rewrite app_nil_r].
    destruct (sources w !! date_isoformat (dt_date e)) as [today|]; simpl;
      [|by exists []; rewrite app_nil_r].
    eexists. split; [reflexivity|]. apply diff_messages_wire_format.
Qed.

End WireFormat.

(** ** The snapshotters *)

Section Snapshotters.

Lemma sources_by_id_run (l : list dict) (acc : gmap string json)
    (others : list json) (w : world) :
  sources_by_id l acc others w = (sources_items l acc others, w).
Proof.
  revert acc others. induction l as [|source l IH]; intros acc others; simpl; [done|].
  unfold source_id. unfold_task.
  destruct (dict_get "id" source) as [[]|]; simpl; auto.
Qed.

(** A run of [GetNewsSources.execute_]. *)
Lemma GetNewsSources_run (l : list dict) (e p : datetime) (w : world) :
  let execution_date := date_isoformat (dt_date e) in
  let w1 := set_log (log w ++ GetNewsSources_log l execution_date w) w in
  GetNewsSources_execute_ l e p w =
  match sources_dict l with
  | Returned document =>
      (Returned tt, set_sources (<[execution_date := document]> (sources w)) w1)
  | Raised ex => (Raised ex, w1)
  end.
Proof.
  intros execution_date w1.
  unfold GetNewsSources_execute_, document_set_dict, sources_dict. unfold_task. simpl.
  fold execution_date. unfold w1, GetNewsSources_log.
  destruct (sources w !! execution_date) as [old|]; simpl;
    rewrite sources_by_id_run;
    destruct (sources_items l ∅ []) as [[fields others]|ex]; simpl;
    try destruct (set_raises fields others); simpl;
    unfold set_sources, set_log; simpl; rewrite <- ?app_assoc; done.
Qed.

(** A run of [GetDataSchemas.execute_]. *)
Lemma GetDataSchemas_run (l h : list dict) (e p : datetime) (w : world) :
  let execution_date := date_isoformat (dt_date e) in
  GetDataSchemas_execute_ l h e p w =
  match last l, last h with
  | Some source, Some headline =>
      (Returned tt,
       set_article_schema (<[execution_date := dict_keys headline]> (article_schema w))
         (set_sources_schema (<[execution_date := dict_keys source]> (sources_schema w)) w))
  | _, _ => (Raised IndexError, w)
  end.
Proof.
  intros execution_date. unfold GetDataSchemas_execute_, pop. unfold_task.
  destruct (last l), (last h); done.
Qed.

End Snapshotters.

Section SnapshotKeys.

Variable GOOGLE_CLOUD_PROJECT : string.
Variable NEWSAPI_DEV_MODE : bool.
Variable NEWSAPI_QUERY_KEYWORDS : list string.
Variable BIGQUERY_TABLE_SCHEMA : list (string * field_decl).
Variable md5_hexdigest : string -> string.

Local Notation run_task :=
  (run GOOGLE_CLOUD_PROJECT NEWSAPI_DEV_MODE NEWSAPI_QUERY_KEYWORDS
       BIGQUERY_TABLE_SCHEMA md5_hexdigest).

Lemma string_of_list_ascii_app (l k : list ascii) :
  string_of_list_ascii (l ++ k) = string_of_list_ascii l +:+ string_of_list_ascii k.
Proof. induction l as [|c l IH]; simpl; [done|]. by rewrite IH. Qed.

Lemma datetime_isoformat_time (p : datetime) :
  datetime_isoformat p
  = date_isoformat (dt_date p) +:+ "T" +:+ string_of_list_ascii (time_chars p).
Proof.
  unfold datetime_isoformat, date_isoformat.
  by rewrite !string_of_list_ascii_app.
Qed.

(** The sources snapshotter writes the document of its own date only. *)
Lemma get_news_sources_other_keys (l : list dict) (e : datetime) (w : world)
    (k : string) :
  k ≠ date_isoformat (dt_date e) ->
  sources (run_task (get_news_sources l) e w).2 !! k = sources w !! k.
Proof.
  intros Hk. unfold run, execute.
  destruct (datetime_minus_one_day e) as [p|]; [|done].
  rewrite GetNewsSources_run. destruct (sources_dict l); simpl; [|done].
  by rewrite lookup_insert_ne.
Qed.

(** The schema snapshotter writes the documents of its own date only. *)
Lemma get_schemas_task_other_keys (l h : list dict) (e : datetime) (w : world)
    (k : string) :
  k ≠ date_isoformat (dt_date e) ->
  let w' := (run_task (get_schemas_task l h) e w).2 in
  sources_schema w' !! k = sources_schema w !! k ∧
  article_schema w' !! k = article_schema w !! k.
Proof.
  intros Hk. unfold run, execute.
  destruct (datetime_minus_one_day e) as [p|]; [|done].
  rewrite GetDataSchemas_run. destruct (last l), (last h); simpl; try done.
  by rewrite !lookup_insert_ne.
Qed.

End SnapshotKeys.

Section Overwrite.

Variable GOOGLE_CLOUD_PROJECT : string.
Variable NEWSAPI_DEV_MODE : bool.
Variable NEWSAPI_QUERY_KEYWORDS : list string.
Variable BIGQUERY_TABLE_SCHEMA : list (string * field_decl).
Variable md5_hexdigest : string -> string.

Local Notation run_task :=
  (run GOOGLE_CLOUD_PROJECT NEWSAPI_DEV_MODE NEWSAPI_QUERY_KEYWORDS
       BIGQUERY_TABLE_SCHEMA md5_hexdigest).

(** The sources snapshotter on a date that already has a snapshot: the
    fetched sources replace it and a warning is logged. *)
Lemma get_news_sources_overwrites (l : list dict) (e p : datetime) (w : world)
    (old document : gmap string json) :
  datetime_minus_one_day e = Some p ->
  let execution_date := date_isoformat (dt_date e) in
  sources w !! execution_date = Some old ->
  sources_dict l = Returned document ->
  ∃ w', run_task (get_news_sources l) e w = (Returned tt, w') ∧
    sources w' !! execution_date = Some document ∧
    log w' = log w ++
      [LogRecord INFO ("sources_count: " +:+ pretty (length l));
       LogRecord WARNING ("overriding sources for date " +:+ execution_date)].
Proof.
  intros Hp execution_date Hold Hdoc. unfold run, execute. rewrite Hp.
  rewrite GetNewsSources_run, Hdoc. eexists. split; [reflexivity|]. simpl.
  fold execution_date. rewrite lookup_insert_eq. split; [done|].
  unfold GetNewsSources_log. by rewrite Hold.
Qed.

(** The schema snapshotter replaces the snapshots of its date as well, and
    logs nothing, whether or not they existed. *)
Lemma get_schemas_task_overwrites (l h : list dict) (e p : datetime) (w : world)
    (source headline : dict) :
  datetime_minus_one_day e = Some p ->
  let execution_date := date_isoformat (dt_date e) in
  last l = Some source -> last h = Some headline ->
  ∃ w', run_task (get_schemas_task l h) e w = (Returned tt, w') ∧
    sources_schema w' !! execution_date = Some (dict_keys source) ∧
    article_schema w' !! execution_date = Some (dict_keys headline) ∧
    log w' = log w.
Proof.
  intros Hp execution_date Hl Hh. unfold run, execute. rewrite Hp.
  rewrite GetDataSchemas_run, Hl, Hh. eexists. split; [reflexivity|]. simpl.
  fold execution_date. by rewrite !lookup_insert_eq.
Qed.

End Overwrite.

(** C10 at its failing input: schema snapshots for 2020-01-02 exist, the
    schema snapshotter runs for that date, replaces both with the fetched
    keys and logs no warning. *)
Theorem get_schemas_task_overwrites_silently :
  let w := Sample.with_schemas [("2020-01-02", ["id"])] [("2020-01-02", ["title"])] in
  let fetched_sources := [[("id", JStr "bbc"); ("name", JStr "BBC")]] in
  let fetched_headlines := [[("title", JStr "t"); ("url", JStr "u")]] in
  let r := Sample.run_task (get_schemas_task fetched_sources fetched_headlines)
             Sample.jan2 w in
  sources_schema w !! date_isoformat (dt_date Sample.jan2) = Some ["id"] ∧
  article_schema w !! date_isoformat (dt_date Sample.jan2) = Some ["title"] ∧
  r.1 = Returned tt ∧
  sources_schema r.2 !! "2020-01-02" = Some ["id"; "name"] ∧
  article_schema r.2 !! "2020-01-02" = Some ["title"; "url"] ∧
  log r.2 = [].
Proof. by vm_compute. Qed.

(** The sources snapshotter in the same situation: the snapshot is replaced
    and the warning is logged. *)
Lemma get_news_sources_overwrites_witness :
  let w := Sample.with_sources [("2020-01-02", Sample.snapshot ["bbc"])] in
  let r := Sample.run_task (get_news_sources [[("id", JStr "cnn")]]) Sample.jan2 w in
  r.1 = Returned tt ∧
  dom <$> sources r.2 !! "2020-01-02" = Some {["cnn"]} ∧
  log r.2 = [LogRecord INFO "sources_count: 1";
             LogRecord WARNING "overriding sources for date 2020-01-02"].
Proof.
  intros w r.
  destruct (get_news_sources_overwrites Sample.project false ["rocq"; "ocaml"] []
              (fun url => "md5:" +:+ url) [[("id", JStr "cnn")]] Sample.jan2 Sample.jan1 w
              (Sample.snapshot ["bbc"]) {["cnn" := JObj [("id", JStr "cnn")]]})
    as (w' & Hrun & Hdoc & Hlog); [by vm_compute..|].
  unfold r, Sample.run_task. rewrite Hrun. simpl. split; [done|].
  split; [|by rewrite Hlog].
  change "2020-01-02" with (date_isoformat (dt_date Sample.jan2)).
  rewrite Hdoc. by vm_compute.
Defined.

(** ** The retention pruner *)

Section Pruner.

Lemma sources_ref_lawful : lawful_ref sources_ref.
Proof. split; intros; by try destruct w. Qed.

Lemma sources_schema_ref_lawful : lawful_ref sources_schema_ref.
Proof. split; intros; by try destruct w. Qed.

Lemma article_schema_ref_lawful : lawful_ref article_schema_ref.
Proof. split; intros; by try destruct w. Qed.

Lemma lookup_delete_keys {A} (keys : list string) (c : gmap string A) (key : string) :
  delete_keys keys c !! key = if decide (key ∈ keys) then None else c !! key.
Proof.
  unfold delete_keys. revert c.
  induction keys as [|k keys IH]; intros c; cbn [foldl].
  - destruct (decide (key ∈ [])); [set_solver|done].
  - rewrite IH.
    destruct (decide (key ∈ keys)), (decide (key ∈ k :: keys)); try done.
    + set_solver.
    + assert (key = k) as -> by set_solver. apply lookup_delete_eq.
    + apply lookup_delete_ne. set_solver.
Qed.

Lemma elem_of_keys_back (d : date) (n : nat) (key : string) :
  key ∈ keys_back d n ->
  ∃ i di, i < n ∧ minus_days d i = Some di ∧ key = date_isoformat di.
Proof.
  revert d. induction n as [|n IH]; intros d; simpl; [set_solver|].
  rewrite elem_of_cons. intros [->|Hin].
  - exists 0, d. split; [lia|done].
  - destruct (minus_one_day d) as [d'|] eqn:E; [|set_solver].
    destruct (IH d' Hin) as (i & di & Hi & Hdi & ->).
    exists (S i), di. split; [lia|]. simpl. by rewrite E.
Qed.

Lemma keys_back_elem_of (d : date) (n i : nat) (di : date) :
  i < n -> minus_days d i = Some di -> date_isoformat di ∈ keys_back d n.
Proof.
  revert d i. induction n as [|n IH]; intros d i Hi Hdi; [lia|]. simpl.
  destruct i as [|i]; simpl in Hdi.
  - simplify_eq. set_solver.
  - destruct (minus_one_day d) as [d'|]; [|done].
    apply elem_of_cons. right. apply (IH d' i); [lia|done].
Qed.

(** The loop of the pruners from the date [d], when the snapshots of [d],
    ..., [d - (n - 1)] exist and the snapshot of [d - n] does not: it
    returns, with these [n] snapshots deleted, as soon as the fuel exceeds
    [n]. *)
Lemma delete_while_exists_run {A} (ref : collection_ref A) (n : nat) :
  lawful_ref ref ->
  ∀ (d dn : date) (w : world) (fuel : nat),
    n < fuel -> valid_date d = true ->
    minus_days d n = Some dn ->
    (∀ i di, i < n -> minus_days d i = Some di ->
             is_Some (coll_get ref w !! date_isoformat di)) ->
    coll_get ref w !! date_isoformat dn = None ->
    delete_while_exists fuel ref d w
    = (Returned tt, coll_set ref (delete_keys (keys_back d n) (coll_get ref w)) w).
Proof.
  intros [Hgs Hsg Hss]. induction n as [|n IH]; intros d dn w fuel Hfuel V Hdn Hrun Hgap.
  - simpl in Hdn. simplify_eq. destruct fuel as [|fuel]; [lia|].
    simpl. unfold_task. rewrite Hgap. simpl. unfold delete_keys. simpl.
    by rewrite Hsg.
  - destruct fuel as [|fuel]; [lia|]. simpl. unfold_task.
    destruct (Hrun 0 d) as [x Hx]; [lia|done|]. rewrite Hx. simpl.
    simpl in Hdn. destruct (minus_one_day d) as [d'|] eqn:E; [|done].
    destruct (minus_one_day_valid d d' V E) as [V' _].
    rewrite (IH d' dn); [|lia|done|done| |].
    + rewrite Hgs, Hss. done.
    + intros i di Hi Hdi. rewrite Hgs.
      rewrite lookup_delete_ne.
      * apply (Hrun (S i)); [lia|]. simpl. by rewrite E.
      * apply (minus_days_isoformat_ne d d di 0 (S i)); [done|lia|done|].
        simpl. by rewrite E.
    + rewrite Hgs. rewrite lookup_delete_ne; [done|].
      apply (minus_days_isoformat_ne d d dn 0 (S n)); [done|lia|done|].
      simpl. by rewrite E.
Qed.

(** The loop never stops for lack of fuel: above [rank d], more fuel
    changes nothing. *)
Lemma delete_while_exists_fuel {A} (ref : collection_ref A) (fuel1 fuel2 : nat)
    (d : date) (w : world) :
  valid_date d = true -> rank d < fuel1 -> rank d < fuel2 ->
  delete_while_exists fuel1 ref d w = delete_while_exists fuel2 ref d w.
Proof.
  revert fuel2 d w. induction fuel1 as [|fuel1 IH]; intros fuel2 d w V H1 H2; [lia|].
  destruct fuel2 as [|fuel2]; [lia|]. simpl. unfold_task.
  destruct (coll_get ref w !! date_isoformat d); simpl; [|done].
  destruct (minus_one_day d) as [d'|] eqn:E; [|done].
  destruct (minus_one_day_valid d d' V E) as [V' Hrank].
  apply IH; [done|lia..].
Qed.

Lemma minus_days_prefix (d dn : date) (n i : nat) :
  minus_days d n = Some dn -> i ≤ n -> ∃ di, minus_days d i = Some di.
Proof.
  intros Hn Hi. replace n with (i + (n - i)) in Hn by lia.
  rewrite minus_days_add in Hn. destruct (minus_days d i); [by eexists|done].
Qed.

(** The same loop as the pruners start it, two days before [D]. *)
Lemma prune_from_two_days_back {A} (ref : collection_ref A) (D d2 : date)
    (k : nat) (w : world) :
  lawful_ref ref -> valid_date D = true ->
  minus_days D 2 = Some d2 ->
  contiguous_run (coll_get ref w) D k ->
  ∃ w', delete_while_exists (S (rank d2)) ref d2 w = (Returned tt, w') ∧
    pruned (coll_get ref w) (coll_get ref w') D k ∧
    ∀ c, coll_set ref c w' = coll_set ref c w.
Proof.
  intros Hlaw V Hd2 (Hk & (dk & Hdk & Hgap) & Hrun).
  destruct (minus_days_valid 2 D d2 V Hd2) as [V2 _].
  assert (minus_days d2 (k - 2) = Some dk) as Hdk2.
  { replace k with (2 + (k - 2)) in Hdk by lia.
    rewrite minus_days_add, Hd2 in Hdk. done. }
  assert (∀ i di, minus_days d2 i = Some di -> minus_days D (2 + i) = Some di) as Hshift.
  { intros i di Hdi. by rewrite minus_days_add, Hd2. }
  destruct (minus_days_valid (k - 2) d2 dk V2 Hdk2) as [_ Hrank].
  rewrite (delete_while_exists_run ref (k - 2) Hlaw d2 dk w); [|lia|done|done| |done].
  2:{ intros i di Hi Hdi. apply (Hrun (2 + i)); [lia|]. by apply Hshift. }
  destruct Hlaw as [Hgs Hsg Hss].
  eexists. split; [reflexivity|]. rewrite Hgs. split; [split|].
  - intros i di Hdi. rewrite lookup_delete_keys. case_bool_decide as Hi.
    + rewrite decide_True; [done|].
      apply (keys_back_elem_of d2 (k - 2) (i - 2)); [lia|].
      destruct (minus_days_prefix d2 dk (k - 2) (i - 2) Hdk2) as [di' Hdi']; [lia|].
      rewrite Hdi'. apply Hshift in Hdi'.
      replace (2 + (i - 2)) with i in Hdi' by lia. congruence.
    + rewrite decide_False; [done|]. intros Hin.
      apply elem_of_keys_back in Hin as (j & dj & Hj & Hdj & Heq).
      apply Hshift in Hdj.
      revert Heq. apply (minus_days_isoformat_ne D di dj i (2 + j)); [done|lia|done..].
  - intros key Hkey. rewrite lookup_delete_keys. rewrite decide_False; [done|].
    intros Hin. apply elem_of_keys_back in Hin as (j & dj & Hj & Hdj & Heq).
    apply Hshift in Hdj. apply (Hkey (2 + j) dj); [lia|done..].
  - intros c. apply Hss.
Qed.

End Pruner.

Section PrunerClaims.

Variable GOOGLE_CLOUD_PROJECT : string.
Variable NEWSAPI_DEV_MODE : bool.
Variable NEWSAPI_QUERY_KEYWORDS : list string.
Variable BIGQUERY_TABLE_SCHEMA : list (string * field_decl).
Variable md5_hexdigest : string -> string.

Local Notation run_task :=
  (run GOOGLE_CLOUD_PROJECT NEWSAPI_DEV_MODE NEWSAPI_QUERY_KEYWORDS
       BIGQUERY_TABLE_SCHEMA md5_hexdigest).

Lemma two_days_back (e : datetime) (d2 : date) :
  minus_days (dt_date e) 2 = Some d2 ->
  ∃ p, datetime_minus_one_day e = Some p ∧ minus_one_day (dt_date p) = Some d2.
Proof.
  simpl. unfold datetime_minus_one_day.
  destruct (minus_one_day (dt_date e)) as [d1|]; [|done].
  destruct (minus_one_day d1) as [d2'|] eqn:E; [|done].
  intros [= <-]. by eexists.
Qed.

Lemma contiguous_run_two_days_back {A} (c : gmap string A) (D : date) (k : nat) :
  contiguous_run c D k -> ∃ d2, minus_days D 2 = Some d2.
Proof.
  intros (Hk & (dk & Hdk & _) & _). by apply (minus_days_prefix D dk k 2).
Qed.

(** C6. For the reference date [D] of a run, when the snapshots of [D - 2],
    ..., [D - (k - 1)] exist and the snapshot of [D - k] is the first one
    missing, the pruner returns and has deleted exactly these snapshots:
    the snapshots of [D], of [D - 1], of the days before the gap and every
    other document are unchanged. The sources pruner does so in the
    sources collection, the schema pruner in each of its two collections. *)
Theorem retention_pruner_deletes_run (e : datetime) (w : world) :
  valid_date (dt_date e) = true ->
  let D := dt_date e in
  (∀ k, contiguous_run (sources w) D k ->
     ∃ w', run_task clear_old_sources e w = (Returned tt, w') ∧
       pruned (sources w) (sources w') D k) ∧
  (∀ k1 k2,
     contiguous_run (sources_schema w) D k1 ->
     contiguous_run (article_schema w) D k2 ->
     ∃ w', run_task clear_old_schemas e w = (Returned tt, w') ∧
       pruned (sources_schema w) (sources_schema w') D k1 ∧
       pruned (article_schema w) (article_schema w') D k2).
Proof.
  intros V D. split.
  - intros k Hrun.
    destruct (contiguous_run_two_days_back _ _ _ Hrun) as [d2 Hd2].
    destruct (two_days_back e d2 Hd2) as (p & Hp & Hp2).
    unfold run, execute. rewrite Hp.
    unfold ClearOldSourceData_execute_, date_minus_one_day. rewrite Hp2.
    unfold_task.
    destruct (prune_from_two_days_back sources_ref D d2 k w
                sources_ref_lawful V Hd2 Hrun) as (w' & -> & Hpruned & _).
    by exists w'.
  - intros k1 k2 Hrun1 Hrun2.
    destruct (contiguous_run_two_days_back _ _ _ Hrun1) as [d2 Hd2].
    destruct (two_days_back e d2 Hd2) as (p & Hp & Hp2).
    unfold run, execute. rewrite Hp.
    unfold ClearOldSchemas_execute_, date_minus_one_day. rewrite Hp2.
    unfold_task.
    destruct (prune_from_two_days_back sources_schema_ref D d2 k1 w
                sources_schema_ref_lawful V Hd2 Hrun1) as (w1 & -> & Hpruned1 & Hw1).
    assert (article_schema w1 = article_schema w) as Ha.
    { rewrite <- (set_get _ sources_schema_ref_lawful w1), Hw1. done. }
    destruct (prune_from_two_days_back article_schema_ref D d2 k2 w1
                article_schema_ref_lawful V Hd2) as (w2 & -> & Hpruned2 & Hw2).
    { simpl. by rewrite Ha. }
    exists w2. split; [done|].
    assert (sources_schema w2 = sources_schema w1) as Hs.
    { rewrite <- (set_get _ article_schema_ref_lawful w2), Hw2. done. }
    simpl in *. by rewrite Hs, <- Ha.
Qed.

End PrunerClaims.

(** A run of the sources pruner on 2020-01-02, with snapshots for
    2020-01-02 back to 2019-12-30, none for 2019-12-29 and one for
    2019-12-28: the snapshots of 2019-12-31 and 2019-12-30 are deleted. *)
Lemma retention_pruner_deletes_run_witness :
  let w := Sample.with_sources
             [("2020-01-02", Sample.snapshot ["a"]); ("2020-01-01", Sample.snapshot ["b"]);
              ("2019-12-31", Sample.snapshot ["c"]); ("2019-12-30", Sample.snapshot ["d"]);
              ("2019-12-28", Sample.snapshot ["e"])] in
  valid_date (dt_date Sample.jan2) = true ∧
  contiguous_run (sources w) (dt_date Sample.jan2) 4 ∧
  ∃ w', Sample.run_task clear_old_sources Sample.jan2 w = (Returned tt, w') ∧
    sources w' !! "2020-01-02" = Some (Sample.snapshot ["a"]) ∧
    sources w' !! "2020-01-01" = Some (Sample.snapshot ["b"]) ∧
    sources w' !! "2019-12-31" = None ∧
    sources w' !! "2019-12-30" = None ∧
    sources w' !! "2019-12-28" = Some (Sample.snapshot ["e"]).
Proof.
  intros w.
  assert (contiguous_run (sources w) (dt_date Sample.jan2) 4) as Hrun.
  { split; [lia|]. split.
    - exists (Date 2019 12 29). split; [reflexivity|by vm_compute].
    - intros i di Hi Hdi.
      assert (i = 2 ∨ i = 3) as [-> | ->] by lia;
        vm_compute in Hdi; injection Hdi as <-; eexists; vm_compute; reflexivity. }
  split; [reflexivity|]. split; [exact Hrun|].
  destruct (retention_pruner_deletes_run Sample.project false ["rocq"; "ocaml"] []
              (fun url => "md5:" +:+ url) Sample.jan2 w eq_refl) as [Hsources _].
  destruct (Hsources 4 Hrun) as (w' & Hw' & Hdays & _).
  exists w'. split; [exact Hw'|].
  pose proof (Hdays 0 (Date 2020 1 2) eq_refl) as H0.
  pose proof (Hdays 1 (Date 2020 1 1) eq_refl) as H1.
  pose proof (Hdays 2 (Date 2019 12 31) eq_refl) as H2.
  pose proof (Hdays 3 (Date 2019 12 30) eq_refl) as H3.
  pose proof (Hdays 5 (Date 2019 12 28) eq_refl) as H5.
  repeat split;
    [etransitivity; [exact H0|] | etransitivity; [exact H1|]
    | etransitivity; [exact H2|] | etransitivity; [exact H3|]
    | etransitivity; [exact H5|]]; by vm_compute.
Defined.

(** ** Warehouse table provisioning *)

Section Provisioner.

Variable BIGQUERY_TABLE_SCHEMA : list (string * field_decl).

Lemma extend_schema_app (current_names : list string) (new_schema : list SchemaField)
    (declared : list (string * field_decl)) :
  extend_schema current_names new_schema declared
  = new_schema ++ missing_fields current_names declared.
Proof.
  unfold extend_schema, missing_fields. revert new_schema.
  induction declared as [|[field_name field_schema] declared IH];
    intros new_schema; simpl.
  - by rewrite app_nil_r.
  - rewrite IH. rewrite filter_cons. simpl. case_decide.
    + rewrite decide_False by auto. done.
    + rewrite decide_True by done. simpl. by rewrite <- app_assoc.
Qed.

Lemma _get_field_schema_name (field_name : string) (field_schema : field_decl) :
  SchemaField_name (_get_field_schema field_name field_schema) = field_name.
Proof. by destruct field_schema. Qed.

(** Once the missing fields are appended, no declared field is missing. *)
Lemma missing_fields_after (current : list SchemaField) :
  let new_schema :=
    current ++ missing_fields (SchemaField_name <$> current) BIGQUERY_TABLE_SCHEMA in
  missing_fields (SchemaField_name <$> new_schema) BIGQUERY_TABLE_SCHEMA = [].
Proof.
  intros new_schema. unfold missing_fields at 1.
  match goal with |- _ <$> ?l = [] => assert (l = []) as ->; [|done] end.
  apply elem_of_nil_inv. intros [n decl] [Hmissing Hin]%list_elem_of_filter.
  simpl in Hmissing. apply Hmissing. unfold new_schema. rewrite fmap_app. apply elem_of_app.
  destruct (decide (n ∈ SchemaField_name <$> current)) as [|Hn]; [by left|right].
  unfold missing_fields. rewrite <- list_fmap_compose.
  apply list_elem_of_fmap. exists (n, decl). split.
  - simpl. by rewrite _get_field_schema_name.
  - apply list_elem_of_filter. done.
Qed.

(** A run of [CheckAndCreateBigQueryTable.execute_]. *)
Lemma CheckAndCreateBigQueryTable_run (e p : datetime) (w : world) :
  let t := table_or_new (bq_table w) in
  CheckAndCreateBigQueryTable_execute_ BIGQUERY_TABLE_SCHEMA e p w
  = (Returned tt,
     set_bq_table
       (Some (Table (schema t ++ missing_fields (SchemaField_name <$> schema t)
                                                BIGQUERY_TABLE_SCHEMA)
                    (rows t)))
       (set_bq_dataset true w)).
Proof.
  unfold CheckAndCreateBigQueryTable_execute_, get_table. unfold_task.
  destruct w as [? ? ? ? ? ? ? [t|] ?]; simpl; by rewrite extend_schema_app.
Qed.

End Provisioner.

Section ProvisionerClaims.

Variable GOOGLE_CLOUD_PROJECT : string.
Variable NEWSAPI_DEV_MODE : bool.
Variable NEWSAPI_QUERY_KEYWORDS : list string.
Variable BIGQUERY_TABLE_SCHEMA : list (string * field_decl).
Variable md5_hexdigest : string -> string.

Local Notation run_task :=
  (run GOOGLE_CLOUD_PROJECT NEWSAPI_DEV_MODE NEWSAPI_QUERY_KEYWORDS
       BIGQUERY_TABLE_SCHEMA md5_hexdigest).

(** C7. Table provisioning returns with the dataset and the table in
    place; the new schema is the current schema of the table (empty for a
    table just created) followed by the declared fields whose names it
    does not have, so the current schema is a prefix of it and the rows are
    kept; a second call, on any date, changes nothing at all. *)
Theorem provisioning_appends_and_is_idempotent (e p : datetime) (w : world) :
  datetime_minus_one_day e = Some p ->
  let current := schema (table_or_new (bq_table w)) in
  let current_names := SchemaField_name <$> current in
  ∃ w1 t1, run_task check_data_schemas e w = (Returned tt, w1) ∧
    bq_dataset w1 = true ∧ bq_table w1 = Some t1 ∧
    schema t1 =
      current ++
      ((fun entry => _get_field_schema entry.1 entry.2) <$>
       filter (fun entry => entry.1 ∉ current_names) BIGQUERY_TABLE_SCHEMA) ∧
    current `prefix_of` schema t1 ∧
    rows t1 = rows (table_or_new (bq_table w)) ∧
    ∀ e2 p2, datetime_minus_one_day e2 = Some p2 ->
             run_task check_data_schemas e2 w1 = (Returned tt, w1).
Proof.
  intros Hp current current_names. unfold run, execute. rewrite Hp.
  rewrite CheckAndCreateBigQueryTable_run. eexists _, _.
  split; [reflexivity|]. simpl. split; [done|]. split; [reflexivity|]. simpl.
  split; [done|]. split; [by eexists|]. split; [done|].
  intros e2 p2 ->. rewrite CheckAndCreateBigQueryTable_run. simpl.
  fold current. fold (missing_fields current_names BIGQUERY_TABLE_SCHEMA).
  rewrite (missing_fields_after BIGQUERY_TABLE_SCHEMA current), app_nil_r.
  by destruct w.
Qed.

End ProvisionerClaims.

(** Provisioning a table that has the field [title] with another type, for
    a declaration of [title] and of the record [source]: [title] is kept as
    it is, [source] is appended with its nested field, and a second call
    changes nothing. *)
Lemma provisioning_appends_and_is_idempotent_witness :
  let declared :=
    [("title", FieldDecl "STRING" None);
     ("source", FieldDecl "RECORD" (Some [("id", FieldDecl "STRING" None)]))] in
  let w := set_bq_table (Some (Table [mkSchemaField "title" "INTEGER" []] []))
             Sample.empty_world in
  let provision := run Sample.project false [] declared (fun url => url)
                       check_data_schemas in
  datetime_minus_one_day Sample.jan2 = Some Sample.jan1 ∧
  ∃ w1, provision Sample.jan2 w = (Returned tt, w1) ∧
    schema <$> bq_table w1 =
      Some [mkSchemaField "title" "INTEGER" [];
            mkSchemaField "source" "RECORD" [mkSchemaField "id" "STRING" []]] ∧
    provision Sample.jan1 w1 = (Returned tt, w1).
Proof.
  intros declared w provision. split; [reflexivity|].
  destruct (provisioning_appends_and_is_idempotent Sample.project false [] declared
              (fun url => url) Sample.jan2 Sample.jan1 w eq_refl)
    as (w1 & t1 & Hrun & _ & Htable & Hschema & _ & _ & Hagain).
  exists w1. split; [exact Hrun|]. split.
  - rewrite Htable. simpl. rewrite Hschema. by vm_compute.
  - apply (Hagain Sample.jan1 (DateTime (Date 2019 12 31) 0 0 0 0 None)). reflexivity.
Defined.

(** ** Article identifiers *)

Section Articles.

Variable md5_hexdigest : string -> string.



End Articles.


(** * Further properties of the operators *)

(** ** Topics and key builders *)


(** * Further properties of the operators *)

(** ** Topics and key builders *)

(** X1. [check_pubsub_topic] returns with the topic among the topics, keeps
    every topic that existed, appends the topic exactly when it was absent,
    changes nothing when it was present, and changes nothing when it runs a
    second time. *)
Theorem check_pubsub_topic_ensures (topic : string) (w : world) :
  let r := check_pubsub_topic topic w in
  r.1 = Returned tt ∧
  topic ∈ topics r.2 ∧
  (∀ t, t ∈ topics w -> t ∈ topics r.2) ∧
  (topic ∈ topics w -> r.2 = w) ∧
  (topic ∉ topics w -> topics r.2 = topics w ++ [topic]) ∧
  check_pubsub_topic topic r.2 = (Returned tt, r.2).
Proof.
  intros r. unfold r. rewrite !check_pubsub_topic_run. simpl.
  destruct (decide (topic ∈ topics w)) as [Hin|Hout].
  - assert (after_check_pubsub_topic topic w = w) as Hw.
    { unfold after_check_pubsub_topic. by rewrite decide_True. }
    rewrite !Hw. repeat split; try done.
  - assert (topics (after_check_pubsub_topic topic w) = topics w ++ [topic]) as Ht.
    { unfold after_check_pubsub_topic. by rewrite decide_False. }
    split; [done|]. rewrite Ht. repeat split; try set_solver.
    unfold after_check_pubsub_topic at 1 3.
    rewrite decide_True; [done|]. rewrite Ht. set_solver.
Qed.

Lemma append_inj_prefix (s a b : string) : s +:+ a = s +:+ b -> a = b.
Proof. induction s as [|c s IH]; simpl; [done|]. intros [=]. auto. Qed.

(** X2. The three key builders are injective in the date, and no key of
    one builder is a key of another. *)
Theorem store_keys_injective_and_disjoint (date1 date2 : string) :
  (get_google_store_source_key date1 = get_google_store_source_key date2 ->
   date1 = date2) ∧
  (get_google_store_source_schema_key date1 = get_google_store_source_schema_key date2 ->
   date1 = date2) ∧
  (get_google_store_article_schema_key date1 = get_google_store_article_schema_key date2 ->
   date1 = date2) ∧
  get_google_store_source_key date1 ≠ get_google_store_source_schema_key date2 ∧
  get_google_store_source_key date1 ≠ get_google_store_article_schema_key date2 ∧
  get_google_store_source_schema_key date1 ≠ get_google_store_article_schema_key date2.
Proof.
  unfold get_google_store_source_key, get_google_store_source_schema_key,
    get_google_store_article_schema_key, COLLECTION_SOURCES_KEY.
  repeat split.
  - intros H. by do 2 apply append_inj_prefix in H.
  - apply append_inj_prefix.
  - apply append_inj_prefix.
  - simpl. intros H. discriminate H.
  - simpl. intros H. discriminate H.
  - simpl. intros H. discriminate H.
Qed.

(** ** The template method at the first day of the calendar *)

Section FirstDay.

Variable GOOGLE_CLOUD_PROJECT : string.
Variable NEWSAPI_DEV_MODE : bool.
Variable NEWSAPI_QUERY_KEYWORDS : list string.
Variable BIGQUERY_TABLE_SCHEMA : list (string * field_decl).
Variable md5_hexdigest : string -> string.

Local Notation run_task :=
  (run GOOGLE_CLOUD_PROJECT NEWSAPI_DEV_MODE NEWSAPI_QUERY_KEYWORDS
       BIGQUERY_TABLE_SCHEMA md5_hexdigest).

(** X3. On the execution date 0001-01-01 every task raises the
    OverflowError of [execution_date - timedelta(days=1)] and leaves the
    world as it was, and so does [execute] whatever the [execute_] of the
    operator is. On every later valid date, [execute] does what [execute_]
    does when called with the execution date and, as previous date, the
    day before on the calendar, a valid date, at the same time of day and
    with the same tzinfo. *)
Theorem execute_previous_day (execute_ : datetime -> datetime -> task unit)
    (t : dag_task) (e : datetime) (w : world) :
  valid_date (dt_date e) = true ->
  (dt_date e = Date 1 1 1 ->
   run_task t e w = (Raised OverflowError, w) ∧
   execute execute_ e w = (Raised OverflowError, w)) ∧
  (dt_date e ≠ Date 1 1 1 ->
   ∃ d, minus_one_day (dt_date e) = Some d ∧ valid_date d = true ∧
        execute execute_ e w
        = execute_ e (DateTime d (hour e) (minute e) (second e) (microsecond e)
                               (dt_tzinfo e)) w).
Proof.
  intros V. split.
  - intros Hmin. unfold run, execute, datetime_minus_one_day. by rewrite Hmin.
  - intros Hlater. unfold execute, datetime_minus_one_day.
    destruct (minus_one_day (dt_date e)) as [d|] eqn:E.
    + destruct (minus_one_day_valid _ _ V E) as [Vd _]. by exists d.
    + by apply minus_one_day_None in E.
Qed.

End FirstDay.

(** An operator that logs the previous date it is given: run through
    [execute] on 2020-01-02 it logs 2020-01-01T00:00:00, and on 0001-01-01 it
    is not reached. *)
Lemma execute_previous_day_witness :
  let logs_previous := fun _ p : datetime => log_info (datetime_isoformat p) in
  valid_date (dt_date Sample.jan2) = true ∧
  execute logs_previous Sample.jan2 Sample.empty_world
  = (Returned tt, set_log [LogRecord INFO "2020-01-01T00:00:00"] Sample.empty_world) ∧
  execute logs_previous (DateTime (Date 1 1 1) 0 0 0 0 None) Sample.empty_world
  = (Raised OverflowError, Sample.empty_world).
Proof.
  intros logs_previous. split; [reflexivity|]. split.
  - destruct (proj2 (execute_previous_day Sample.project false ["rocq"; "ocaml"] []
                       (fun url => "md5:" +:+ url) logs_previous ping_task
                       Sample.jan2 Sample.empty_world eq_refl))
      as (d & Hd & _ & Hrun); [discriminate|].
    rewrite Hrun. injection Hd as <-. reflexivity.
  - apply (execute_previous_day Sample.project false ["rocq"; "ocaml"] []
             (fun url => "md5:" +:+ url) logs_previous ping_task
             (DateTime (Date 1 1 1) 0 0 0 0 None) Sample.empty_world eq_refl).
    reflexivity.
Defined.

(** ** What the snapshotters store *)

Section SnapshotContent.

Variable GOOGLE_CLOUD_PROJECT : string.
Variable NEWSAPI_DEV_MODE : bool.
Variable NEWSAPI_QUERY_KEYWORDS : list string.
Variable BIGQUERY_TABLE_SCHEMA : list (string * field_decl).
Variable md5_hexdigest : string -> string.

Local Notation run_task :=
  (run GOOGLE_CLOUD_PROJECT NEWSAPI_DEV_MODE NEWSAPI_QUERY_KEYWORDS
       BIGQUERY_TABLE_SCHEMA md5_hexdigest).

Lemma sources_items_lookup (l : list dict) (acc : gmap string json)
    (others : list json) :
  Forall (fun source => is_Some (string_id source)) l ->
  ∃ document, sources_items l acc others = Returned (document, others) ∧
    ∀ id, document !! id = match latest_source id l with
                           | Some source => Some (JObj source)
                           | None => acc !! id
                           end.
Proof.
  revert acc. induction l as [|source l IH]; intros acc Hids.
  - by exists acc.
  - apply Forall_cons in Hids as [[i Hi] Hids]. simpl.
    pose proof Hi as Hi'. unfold string_id in Hi'.
    destruct (dict_get "id" source) as [[]|] eqn:E; try done.
    simplify_eq. destruct (IH (<[i := JObj source]> acc) Hids) as (document & -> & Hdoc).
    exists document. split; [done|]. intros id. rewrite Hdoc.
    unfold latest_source. rewrite filter_cons, Hi.
    destruct (decide (Some i = Some id)) as [[= ->]|Hne].
    + destruct (filter _ l) as [|x f] eqn:Ef; simpl.
      * by rewrite lookup_insert_eq.
      * by destruct (last (x :: f)) eqn:El;
          [|apply last_None in El].
    + destruct (last (filter _ l)); [done|].
      rewrite lookup_insert_ne; [done|congruence].
Qed.

Lemma latest_source_fetched (id : string) (l : list dict) (source : dict) :
  latest_source id l = Some source -> source ∈ l ∧ string_id source = Some id.
Proof.
  unfold latest_source. intros Hlast. apply last_Some_elem_of in Hlast.
  by apply list_elem_of_filter in Hlast as [Hid Hin].
Qed.

Lemma plain_record_field_names (source : dict) :
  plain_record source -> field_names_ok (JObj source) = true.
Proof.
  unfold plain_record. induction 1 as [|[name v] source [Hname Hv] _ IH]; [done|].
  simpl in *. rewrite IH, andb_true_r. apply andb_true_intro. split.
  - apply negb_true_iff. by apply String.eqb_neq.
  - by destruct v.
Qed.

Lemma latest_source_elem_of (id : string) (l : list dict) :
  is_Some (latest_source id l) ↔ id ∈ source_ids l.
Proof.
  unfold latest_source, source_ids. rewrite list_elem_of_omap. split.
  - intros [source Hlast]. apply last_Some in Hlast as [f Hf].
    assert (source ∈ filter (fun source => string_id source = Some id) l) as Hin
      by (rewrite Hf; set_solver).
    apply list_elem_of_filter in Hin as [Hid Hin]. by exists source.
  - intros (source & Hin & Hid).
    destruct (last (filter (fun source => string_id source = Some id) l)) eqn:El;
      [by eexists|].
    apply last_None in El.
    assert (source ∈ filter (fun source => string_id source = Some id) l) as Hf
      by (by apply list_elem_of_filter).
    rewrite El in Hf. set_solver.
Qed.

(** X4. For fetched sources that are records of plain values under
    non-empty names, each with a text [id]: when no id is the empty string
    the sources snapshotter returns and sets the snapshot of its date to the
    document that maps each fetched id to the last fetched source with this
    id, the keys of the snapshot being exactly the fetched ids, and no other
    document of the collection changes; when an id is the empty string,
    [set()] raises ValueError and the collection is as before. *)
Theorem get_news_sources_snapshot (l : list dict) (e p : datetime) (w : world) :
  datetime_minus_one_day e = Some p ->
  Forall (fun source => is_Some (string_id source)) l ->
  Forall plain_record l ->
  let r := run_task (get_news_sources l) e w in
  ("" ∉ source_ids l ->
   ∃ document,
     r.1 = Returned tt ∧
     sources r.2 = <[date_isoformat (dt_date e) := document]> (sources w) ∧
     (∀ id, document !! id = JObj <$> latest_source id l) ∧
     dom document = list_to_set (source_ids l)) ∧
  ("" ∈ source_ids l -> r.1 = Raised ValueError ∧ sources r.2 = sources w).
Proof.
  intros Hp Hids Hplain r. unfold r, run, execute. rewrite Hp, GetNewsSources_run.
  unfold sources_dict.
  destruct (sources_items_lookup l ∅ [] Hids) as (document & -> & Hdoc).
  assert (∀ id, document !! id = JObj <$> latest_source id l) as Hlookup.
  { intros id. rewrite Hdoc. by destruct (latest_source id l). }
  assert (dom document = list_to_set (source_ids l)) as Hdom.
  { apply set_eq. intros id.
    rewrite elem_of_dom, Hlookup, fmap_is_Some, latest_source_elem_of.
    by rewrite elem_of_list_to_set. }
  unfold set_raises. split.
  - intros Hnonempty. rewrite bool_decide_eq_true_2.
    + exists document. by repeat split.
    + intros id v Hv. split.
      * intros ->. apply Hnonempty.
        assert ("" ∈ dom document) as Hin by (apply elem_of_dom; by eexists).
        rewrite Hdom in Hin. by apply elem_of_list_to_set in Hin.
      * rewrite Hlookup in Hv. apply fmap_Some in Hv as (source & Hlast & ->).
        apply latest_source_fetched in Hlast as [Hin _].
        apply plain_record_field_names.
        by apply (proj1 (list.Forall_forall _ _) Hplain).
  - intros Hempty. rewrite bool_decide_eq_false_2; [done|].
    intros Hall.
    assert ("" ∈ dom document) as Hin by (rewrite Hdom; by apply elem_of_list_to_set).
    apply elem_of_dom in Hin as [v Hv]. by destruct (Hall _ _ Hv).
Qed.

Lemma sources_items_missing_id (l1 l2 : list dict) (source : dict)
    (acc : gmap string json) (others : list json) :
  Forall (fun source => is_Some (string_id source)) l1 ->
  dict_get "id" source = None ->
  sources_items (l1 ++ source :: l2) acc others = Raised KeyError.
Proof.
  revert acc. induction l1 as [|s l1 IH]; intros acc Hids Hnone; simpl.
  - by rewrite Hnone.
  - apply Forall_cons in Hids as [[i Hi] Hids].
    unfold string_id in Hi. destruct (dict_get "id" s) as [[]|]; try done.
    by apply IH.
Qed.

Lemma sources_dict_missing_id (l1 l2 : list dict) (source : dict) :
  Forall (fun source => is_Some (string_id source)) l1 ->
  dict_get "id" source = None ->
  sources_dict (l1 ++ source :: l2) = Raised KeyError.
Proof.
  intros Hids Hnone. unfold sources_dict.
  by rewrite (sources_items_missing_id l1 l2 source ∅ [] Hids Hnone).
Qed.

(** X5. When a fetched source has no [id] and the sources before it have
    string ids, the sources snapshotter raises KeyError and writes no
    snapshot: the collection is as before. The two log records are written
    all the same, the warning about overriding included when a snapshot of
    the date exists. *)
Theorem get_news_sources_missing_id (l1 l2 : list dict) (source : dict)
    (e p : datetime) (w : world) :
  datetime_minus_one_day e = Some p ->
  Forall (fun source => is_Some (string_id source)) l1 ->
  dict_get "id" source = None ->
  let l := l1 ++ source :: l2 in
  let execution_date := date_isoformat (dt_date e) in
  ∃ w', run_task (get_news_sources l) e w = (Raised KeyError, w') ∧
    sources w' = sources w ∧
    log w' = log w ++
      [LogRecord INFO ("sources_count: " +:+ pretty (length l))] ++
      (if snapshot_exists (sources w !! execution_date)
       then [LogRecord WARNING ("overriding sources for date " +:+ execution_date)]
       else []).
Proof.
  intros Hp Hids Hnone l execution_date. unfold run, execute.
  rewrite Hp, GetNewsSources_run.
  unfold l. rewrite (sources_dict_missing_id l1 l2 source Hids Hnone).
  eexists. split; [reflexivity|]. simpl. split; [done|].
  unfold GetNewsSources_log. fold execution_date.
  by destruct (sources w !! execution_date).
Qed.

(** X6. The schema snapshotter needs an answer of both endpoints: when
    either list is empty it raises IndexError and writes nothing at all,
    also not the snapshot whose list was fetched. Otherwise it returns, and
    the two snapshots of its date hold the keys of the last source and of
    the last headline, in their order; nothing else changes. *)
Theorem get_schemas_task_snapshot (l h : list dict) (e p : datetime) (w : world) :
  datetime_minus_one_day e = Some p ->
  let execution_date := date_isoformat (dt_date e) in
  (l = [] ∨ h = [] ->
   run_task (get_schemas_task l h) e w = (Raised IndexError, w)) ∧
  (∀ l' source h' headline,
     l = l' ++ [source] -> h = h' ++ [headline] ->
     run_task (get_schemas_task l h) e w
     = (Returned tt,
        set_article_schema (<[execution_date := headline.*1]> (article_schema w))
          (set_sources_schema (<[execution_date := source.*1]> (sources_schema w)) w))).
Proof.
  intros Hp execution_date. unfold run, execute. rewrite Hp, GetDataSchemas_run.
  split.
  - intros [-> | ->]; simpl; [done|]. by destruct (last l).
  - intros l' source h' headline -> ->. by rewrite !last_snoc.
Qed.

End SnapshotContent.

Lemma get_news_sources_snapshot_witness :
  let bbc1 := [("id", JStr "bbc"); ("name", JStr "old")] in
  let cnn := [("id", JStr "cnn")] in
  let bbc2 := [("id", JStr "bbc"); ("name", JStr "new")] in
  let r := Sample.run_task (get_news_sources [bbc1; cnn; bbc2]) Sample.jan2
             Sample.empty_world in
  datetime_minus_one_day Sample.jan2 = Some Sample.jan1 ∧
  Forall (fun source => is_Some (string_id source)) [bbc1; cnn; bbc2] ∧
  Forall plain_record [bbc1; cnn; bbc2] ∧
("" ∉ source_ids [bbc1; cnn; bbc2]) ∧
  ∃ document,
    r.1 = Returned tt ∧
    sources r.2 !! "2020-01-02" = Some document ∧
    document !! "bbc" = Some (JObj bbc2) ∧
    dom document = {["bbc"; "cnn"]}.
Proof.
  intros bbc1 cnn bbc2 r.
  assert (Forall (fun source => is_Some (string_id source)) [bbc1; cnn; bbc2]) as Hids
    by (repeat constructor; by eexists).
  assert (Forall plain_record [bbc1; cnn; bbc2]) as Hplain
    by (repeat constructor; done).
  assert ("" ∉ source_ids [bbc1; cnn; bbc2]) as Hnonempty.
  { intros Hin. vm_compute in Hin. set_solver. }
  split; [reflexivity|]. split; [exact Hids|]. split; [exact Hplain|].
  split; [exact Hnonempty|].
  destruct (proj1 (get_news_sources_snapshot Sample.project false ["rocq"; "ocaml"] []
                     (fun url => "md5:" +:+ url) [bbc1; cnn; bbc2] Sample.jan2
                     Sample.jan1 Sample.empty_world eq_refl Hids Hplain) Hnonempty)
    as (document & Hrun & Hsources & Hlookup & Hdom).
  exists document. split; [exact Hrun|]. split.
  - unfold r, Sample.run_task. rewrite Hsources. apply lookup_insert_eq.
  - split; [by rewrite Hlookup|]. rewrite Hdom. by vm_compute.
Defined.

Lemma get_news_sources_missing_id_witness :
  let bbc := [("id", JStr "bbc")] in
  let nameless := [("name", JStr "?")] in
  let w := Sample.with_sources [("2020-01-02", Sample.snapshot ["old"])] in
  datetime_minus_one_day Sample.jan2 = Some Sample.jan1 ∧
  Forall (fun source => is_Some (string_id source)) [bbc] ∧
  dict_get "id" nameless = None ∧
  ∃ w', Sample.run_task (get_news_sources [bbc; nameless]) Sample.jan2 w
        = (Raised KeyError, w') ∧
    sources w' = sources w ∧
    log w' = [LogRecord INFO "sources_count: 2";
              LogRecord WARNING "overriding sources for date 2020-01-02"].
Proof.
  intros bbc nameless w.
  assert (Forall (fun source => is_Some (string_id source)) [bbc]) as Hids
    by (repeat constructor; by eexists).
  split; [reflexivity|]. split; [exact Hids|]. split; [reflexivity|].
  destruct (get_news_sources_missing_id Sample.project false ["rocq"; "ocaml"] []
              (fun url => "md5:" +:+ url) [bbc] [] nameless Sample.jan2 Sample.jan1 w
              eq_refl Hids eq_refl)
    as (w' & Hrun & Hsources & Hlog).
  exists w'. split; [exact Hrun|]. split; [exact Hsources|]. rewrite Hlog. by vm_compute.
Defined.

Lemma get_schemas_task_snapshot_witness :
  let source := [("id", JStr "bbc"); ("name", JStr "BBC")] in
  let headline := [("title", JStr "t"); ("url", JStr "u")] in
  datetime_minus_one_day Sample.jan2 = Some Sample.jan1 ∧
  Sample.run_task (get_schemas_task [source] []) Sample.jan2 Sample.empty_world
  = (Raised IndexError, Sample.empty_world) ∧
  sources_schema
    (Sample.run_task (get_schemas_task [[]; source] [headline]) Sample.jan2
       Sample.empty_world).2 !! "2020-01-02" = Some ["id"; "name"].
Proof.
  intros source headline. split; [reflexivity|].
  destruct (get_schemas_task_snapshot Sample.project false ["rocq"; "ocaml"] []
              (fun url => "md5:" +:+ url) [source] [] Sample.jan2 Sample.jan1
              Sample.empty_world eq_refl) as [Hempty _].
  destruct (get_schemas_task_snapshot Sample.project false ["rocq"; "ocaml"] []
              (fun url => "md5:" +:+ url) [[]; source] [headline] Sample.jan2 Sample.jan1
              Sample.empty_world eq_refl) as [_ Hlast].
  split; [apply Hempty; by right|].
  unfold Sample.run_task. rewrite (Hlast [[]] source [] headline eq_refl eq_refl).
  by vm_compute.
Defined.

(** ** The pruners in any state *)

Section PrunerAnyState.

Variable GOOGLE_CLOUD_PROJECT : string.
Variable NEWSAPI_DEV_MODE : bool.
Variable NEWSAPI_QUERY_KEYWORDS : list string.
Variable BIGQUERY_TABLE_SCHEMA : list (string * field_decl).
Variable md5_hexdigest : string -> string.

Local Notation run_task :=
  (run GOOGLE_CLOUD_PROJECT NEWSAPI_DEV_MODE NEWSAPI_QUERY_KEYWORDS
       BIGQUERY_TABLE_SCHEMA md5_hexdigest).

(** The loop deletes the snapshots of a run of days from [d] backwards and
    ends by returning or with the OverflowError of the first day. *)
Lemma delete_while_exists_deletes {A} (ref : collection_ref A) (fuel : nat)
    (d : date) (w : world) :
  lawful_ref ref ->
  ∃ n r, delete_while_exists fuel ref d w
         = (r, coll_set ref (delete_keys (keys_back d n) (coll_get ref w)) w) ∧
         (r = Returned tt ∨ r = Raised OverflowError).
Proof.
  intros [Hgs Hsg Hss]. revert d w. induction fuel as [|fuel IH]; intros d w.
  - exists 0, (Returned tt). simpl. unfold delete_keys. simpl. rewrite Hsg. auto.
  - simpl. unfold_task.
    destruct (coll_get ref w !! date_isoformat d) eqn:E; simpl.
    + destruct (minus_one_day d) as [d'|] eqn:Ed.
      * destruct (IH d' (coll_set ref (delete (date_isoformat d) (coll_get ref w)) w))
          as (n & r & -> & Hr).
        exists (S n), r. simpl. rewrite Ed, Hgs, Hss. auto.
      * exists 1, (Raised OverflowError). simpl. rewrite Ed. auto.
    + exists 0, (Returned tt). unfold delete_keys. simpl. rewrite Hsg. auto.
Qed.

(** The pruning of one collection, as both pruners do it for the
    reference date [D] whose previous day is [d1]. *)
Lemma prune_collection {A} (ref : collection_ref A) (D d1 : date) (w : world) :
  lawful_ref ref -> valid_date D = true -> minus_one_day D = Some d1 ->
  ∃ keys r,
    match minus_one_day d1 with
    | Some _date => delete_while_exists (S (rank _date)) ref _date w
    | None => (Raised OverflowError, w)
    end
    = (r, coll_set ref (delete_keys keys (coll_get ref w)) w) ∧
    (r = Returned tt ∨ r = Raised OverflowError) ∧
    ∀ key, key ∈ keys ->
      ∃ i di, 2 ≤ i ∧ minus_days D i = Some di ∧ key = date_isoformat di.
Proof.
  intros Hlaw V Hd1.
  destruct (minus_one_day d1) as [d2|] eqn:Hd2.
  - destruct (delete_while_exists_deletes ref (S (rank d2)) d2 w Hlaw)
      as (n & r & -> & Hr).
    exists (keys_back d2 n), r. split; [done|]. split; [done|].
    intros key Hkey. apply elem_of_keys_back in Hkey as (i & di & _ & Hdi & ->).
    exists (2 + i), di. split; [lia|]. split; [|done].
    simpl. by rewrite Hd1, Hd2.
  - exists [], (Raised OverflowError). unfold delete_keys. simpl.
    rewrite (set_get _ Hlaw). split; [done|]. split; [auto|]. set_solver.
Qed.

Lemma pruned_keys_spare_recent {A} (c : gmap string A) (keys : list string)
    (D : date) :
  valid_date D = true ->
  (∀ key, key ∈ keys ->
     ∃ i di, 2 ≤ i ∧ minus_days D i = Some di ∧ key = date_isoformat di) ->
  let c' := delete_keys keys c in
  (∀ key, c' !! key = c !! key ∨ c' !! key = None) ∧
  (∀ i di, i < 2 -> minus_days D i = Some di ->
           c' !! date_isoformat di = c !! date_isoformat di).
Proof.
  intros V Hkeys c'. unfold c'. split.
  - intros key. rewrite lookup_delete_keys. case_decide; auto.
  - intros i di Hi Hdi. rewrite lookup_delete_keys.
    rewrite decide_False; [done|]. intros Hin.
    destruct (Hkeys _ Hin) as (j & dj & Hj & Hdj & Heq).
    revert Heq. apply (minus_days_isoformat_ne D di dj i j); [done|lia|done..].
Qed.

(** X7. Whatever the collections hold, a pruner only deletes: in the
    collections it prunes every document is either as before or gone, the
    snapshots of the reference date and of the day before are as before, and
    the other collections and the published messages are untouched. It ends
    by returning or with OverflowError. *)
Theorem pruners_only_delete_old (e : datetime) (w : world) :
  valid_date (dt_date e) = true ->
  let recent k := ∃ i di, i < 2 ∧ minus_days (dt_date e) i = Some di ∧
                          k = date_isoformat di in
  (let r := run_task clear_old_sources e w in
   (r.1 = Returned tt ∨ r.1 = Raised OverflowError) ∧
   (∀ k, sources r.2 !! k = sources w !! k ∨ sources r.2 !! k = None) ∧
   (∀ k, recent k -> sources r.2 !! k = sources w !! k) ∧
   sources_schema r.2 = sources_schema w ∧ article_schema r.2 = article_schema w ∧
   articles r.2 = articles w ∧ published r.2 = published w) ∧
  (let r := run_task clear_old_schemas e w in
   (r.1 = Returned tt ∨ r.1 = Raised OverflowError) ∧
   (∀ k, sources_schema r.2 !! k = sources_schema w !! k ∨ sources_schema r.2 !! k = None) ∧
   (∀ k, article_schema r.2 !! k = article_schema w !! k ∨ article_schema r.2 !! k = None) ∧
   (∀ k, recent k -> sources_schema r.2 !! k = sources_schema w !! k ∧
                     article_schema r.2 !! k = article_schema w !! k) ∧
   sources r.2 = sources w ∧ articles r.2 = articles w ∧ published r.2 = published w).
Proof.
  intros V recent. unfold run, execute, datetime_minus_one_day.
  destruct (minus_one_day (dt_date e)) as [d1|] eqn:Hd1; cbv beta iota.
  2:{ split; repeat split; auto. }
  split.
  - destruct (prune_collection sources_ref (dt_date e) d1 w sources_ref_lawful V Hd1)
      as (keys & r & Hrun & Hr & Hkeys).
    assert (ClearOldSourceData_execute_ e
              (DateTime d1 (hour e) (minute e) (second e) (microsecond e) (dt_tzinfo e)) w
            = (r, set_sources (delete_keys keys (sources w)) w)) as ->.
    { revert Hrun. unfold ClearOldSourceData_execute_, date_minus_one_day. unfold_task.
      cbn [dt_date]. by destruct (minus_one_day d1). }
    destruct (pruned_keys_spare_recent (sources w) keys (dt_date e) V Hkeys)
      as [Honly Hrecent].
    cbn [fst snd]. repeat split; try done.
    intros k (i & di & Hi & Hdi & ->). by apply (Hrecent i).
  - destruct (prune_collection sources_schema_ref (dt_date e) d1 w
                sources_schema_ref_lawful V Hd1) as (keys1 & r1 & Hrun1 & Hr1 & Hkeys1).
    destruct (pruned_keys_spare_recent (sources_schema w) keys1 (dt_date e) V Hkeys1)
      as [Honly1 Hrecent1].
    destruct (prune_collection article_schema_ref (dt_date e) d1 (set_sources_schema (delete_keys keys1 (sources_schema w)) w)
                article_schema_ref_lawful V Hd1) as (keys2 & r2 & Hrun2 & Hr2 & Hkeys2).
    destruct (pruned_keys_spare_recent (article_schema w) keys2 (dt_date e) V Hkeys2)
      as [Honly2 Hrecent2].
    assert (ClearOldSchemas_execute_ e
              (DateTime d1 (hour e) (minute e) (second e) (microsecond e) (dt_tzinfo e)) w
            = match r1 with
              | Returned _ =>
                  (r2, set_article_schema (delete_keys keys2 (article_schema w)) (set_sources_schema (delete_keys keys1 (sources_schema w)) w))
              | Raised ex => (Raised ex, (set_sources_schema (delete_keys keys1 (sources_schema w)) w))
              end) as ->.
    { revert Hrun1 Hrun2. unfold ClearOldSchemas_execute_, date_minus_one_day. unfold_task.
      cbn [dt_date coll_get coll_set sources_schema_ref article_schema_ref].
      destruct (minus_one_day d1) as [d2|]; cbv beta iota.
      - intros -> Hrun2. destruct r1; [|done]. by rewrite Hrun2.
      - intros H1 _. injection H1 as <- Hw1. cbv beta iota. by rewrite <- Hw1. }
    destruct Hr1 as [-> | ->]; cbn [fst snd].
    + do 3 (split; [done|]). split; [|done].
      intros k (i & di & Hi & Hdi & ->).
      split; [by apply (Hrecent1 i) | by apply (Hrecent2 i)].
    + split; [auto|]. split; [done|]. split; [auto|]. split; [|done].
      intros k (i & di & Hi & Hdi & ->). split; [by apply (Hrecent1 i) | done].
Qed.

End PrunerAnyState.

(** A run of the sources pruner on a collection with a document under a
    key that is no date: the document stays, like the two recent snapshots. *)
Lemma pruners_only_delete_old_witness :
  let w := Sample.with_sources
             [("2020-01-02", Sample.snapshot ["a"]); ("2020-01-01", Sample.snapshot ["b"]);
              ("2019-12-31", Sample.snapshot ["c"]); ("notes", Sample.snapshot ["d"])] in
  let r := Sample.run_task clear_old_sources Sample.jan2 w in
  valid_date (dt_date Sample.jan2) = true ∧
  r.1 = Returned tt ∧
  sources r.2 !! "2020-01-02" = Some (Sample.snapshot ["a"]) ∧
  sources r.2 !! "2020-01-01" = Some (Sample.snapshot ["b"]) ∧
  sources r.2 !! "2019-12-31" = None ∧
  sources r.2 !! "notes" = Some (Sample.snapshot ["d"]).
Proof.
  intros w r.
  destruct (pruners_only_delete_old Sample.project false ["rocq"; "ocaml"] []
              (fun url => "md5:" +:+ url) Sample.jan2 w eq_refl)
    as [(_ & _ & Hrecent & _) _].
  split; [reflexivity|]. split; [by vm_compute|]. split; [|split].
  - unfold r, Sample.run_task.
    rewrite (Hrecent "2020-01-02"); [by vm_compute|].
    exists 0, (Date 2020 1 2). split; [lia|]. split; reflexivity.
  - unfold r, Sample.run_task.
    rewrite (Hrecent "2020-01-01"); [by vm_compute|].
    exists 1, (Date 2020 1 1). split; [lia|]. split; reflexivity.
  - split; by vm_compute.
Defined.

(** ** An invariant of the snapshot collections and what follows from it *)

Section Invariants.

Context (I : world -> Prop).

Lemma maintains_ret {A} (a : A) : maintains I (mret a).
Proof. by intros w. Qed.

Lemma maintains_raise {A} (e : exn) : maintains I (raise e : task A).
Proof. by intros w. Qed.

Lemma maintains_gets {A} (f : world -> A) : maintains I (gets f).
Proof. by intros w. Qed.

Lemma maintains_modify (f : world -> world) :
  (∀ w, I w -> I (f w)) -> maintains I (modify f).
Proof. intros H w. apply H. Qed.

Lemma maintains_bind {A B} (m : task A) (f : A -> task B) :
  maintains I m -> (∀ a, maintains I (f a)) -> maintains I (m ≫= f).
Proof.
  intros Hm Hf w Hw. unfold mbind, task_bind.
  specialize (Hm w Hw). destruct (m w) as [[a|e] w1]; simpl in *.
  - by apply Hf.
  - done.
Qed.

Lemma maintains_for_each {A} (xs : list A) (body : A -> task unit) :
  (∀ x, maintains I (body x)) -> maintains I (for_each xs body).
Proof.
  intros H. induction xs as [|x xs IH]; simpl.
  - apply maintains_ret.
  - apply maintains_bind; [apply H | intros _; apply IH].
Qed.

End Invariants.

(** One step of a proof that an operator maintains an invariant. *)
Ltac maintains_step :=
  lazymatch goal with
  | |- maintains _ (mret _) => apply maintains_ret
  | |- maintains _ (raise _) => apply maintains_raise
  | |- maintains _ (gets _) => apply maintains_gets
  | |- maintains _ (for_each _ _) => apply maintains_for_each; intros ?
  | |- maintains _ (mbind _ _) => apply maintains_bind; [|intros ?]
  | |- maintains _ (modify _) => apply maintains_modify; intros ? ?
  | |- maintains _ (match ?x with _ => _ end) => destruct x
  end.

Section DateKeyed.

Variable GOOGLE_CLOUD_PROJECT : string.
Variable NEWSAPI_DEV_MODE : bool.
Variable NEWSAPI_QUERY_KEYWORDS : list string.
Variable BIGQUERY_TABLE_SCHEMA : list (string * field_decl).
Variable md5_hexdigest : string -> string.

Local Notation run_task :=
  (run GOOGLE_CLOUD_PROJECT NEWSAPI_DEV_MODE NEWSAPI_QUERY_KEYWORDS
       BIGQUERY_TABLE_SCHEMA md5_hexdigest).

Lemma date_keyed_insert {A} (c : gmap string A) (d : date) (x : A) :
  date_keyed c -> date_keyed (<[date_isoformat d := x]> c).
Proof.
  intros Hc k. destruct (decide (k = date_isoformat d)) as [->|Hne]; [by eexists|].
  rewrite lookup_insert_ne by done. apply Hc.
Qed.

Lemma date_keyed_delete {A} (c : gmap string A) (key : string) :
  date_keyed c -> date_keyed (delete key c).
Proof.
  intros Hc k. destruct (decide (k = key)) as [->|Hne].
  - rewrite lookup_delete_eq. by intros [].
  - rewrite lookup_delete_ne by done. apply Hc.
Qed.

(** A date-keyed collection holds nothing under the key the notifiers read
    for the previous day. *)
Lemma date_keyed_previous_day {A} (c : gmap string A) (p : datetime) :
  date_keyed c -> c !! datetime_isoformat p = None.
Proof.
  intros Hc. destruct (c !! datetime_isoformat p) eqn:E; [|done].
  destruct (Hc (datetime_isoformat p)) as [d Hd]; [by eexists|].
  symmetry in Hd. by apply date_isoformat_ne_datetime_isoformat in Hd.
Qed.

Ltac date_keyed_side :=
  match goal with
  | H : snapshots_date_keyed _ |- snapshots_date_keyed _ =>
      solve [destruct H as (? & ? & ?); repeat split; cbn;
             auto using date_keyed_insert, date_keyed_delete]
  end.

Lemma delete_while_exists_date_keyed {A} (ref : collection_ref A) (fuel : nat)
    (d : date) :
  (∀ key w, snapshots_date_keyed w ->
            snapshots_date_keyed (coll_set ref (delete key (coll_get ref w)) w)) ->
  maintains snapshots_date_keyed (delete_while_exists fuel ref d).
Proof.
  intros Href. revert d. induction fuel as [|fuel IH]; intros d; simpl.
  - apply maintains_ret.
  - unfold document_get, document_delete.
    repeat maintains_step; auto using maintains_ret.
Qed.

Lemma GetData_pages_date_keyed (date keyword : string) (page : nat)
    (pages : list (list (gmap string json))) :
  maintains snapshots_date_keyed
    (GetData_pages NEWSAPI_DEV_MODE md5_hexdigest date keyword page pages).
Proof.
  revert page. induction pages as [|articles pages IH]; intros page; simpl.
  - repeat maintains_step.
  - repeat maintains_step; auto.
    unfold GetData_store_article. repeat maintains_step. date_keyed_side.
Qed.

(** Being date-keyed is an invariant of every task. *)
Lemma run_maintains_date_keyed (t : dag_task) (e : datetime) :
  maintains snapshots_date_keyed (run_task t e).
Proof.
  unfold run, execute.
  destruct (datetime_minus_one_day e) as [p|]; [|apply maintains_raise].
  destruct t.
  - apply maintains_ret.
  - unfold GetDataSchemas_execute_, pop, document_set.
    repeat maintains_step; date_keyed_side.
  - intros w Hw. rewrite CheckDataSchemas_run. simpl.
    unfold after_check_pubsub_topic. repeat case_decide; date_keyed_side.
  - unfold ClearOldSchemas_execute_, date_minus_one_day.
    repeat maintains_step; apply delete_while_exists_date_keyed;
      intros; date_keyed_side.
  - intros w Hw. rewrite GetNewsSources_run.
    destruct (sources_dict _); simpl; date_keyed_side.
  - intros w Hw. rewrite CheckAndPublishNewsSources_run. simpl.
    unfold after_check_pubsub_topic.
    repeat case_match; repeat case_decide; date_keyed_side.
  - unfold ClearOldSourceData_execute_, date_minus_one_day.
    repeat maintains_step; apply delete_while_exists_date_keyed;
      intros; date_keyed_side.
  - unfold GetData_execute_. repeat maintains_step. apply GetData_pages_date_keyed.
  - unfold CheckAndCreateBigQueryTable_execute_, get_table.
    repeat maintains_step; try date_keyed_side; case_match; date_keyed_side.
  - unfold LoadsDataToBigQuery_execute_, get_table, slice_19, insert_rows_json, get_table.
    repeat maintains_step; date_keyed_side.
Qed.

(** X8. Every task of the DAG, on every date and however it ends, keeps
    the three snapshot collections date-keyed: run in a state where every
    document id of the sources, sources-schema and article-schema
    collections is the ISO string of a date, it leaves such a state. *)
Theorem tasks_keep_snapshots_date_keyed (t : dag_task) (e : datetime) (w : world) :
  snapshots_date_keyed w -> snapshots_date_keyed (run_task t e w).2.
Proof. apply run_maintains_date_keyed. Qed.

End DateKeyed.

Lemma tasks_keep_snapshots_date_keyed_witness :
  let w := Sample.with_schemas [("2020-01-01", ["id"; "name"])]
                               [("2020-01-01", ["title"; "url"])] in
  snapshots_date_keyed w ∧
  snapshots_date_keyed
    (Sample.run_task (get_news_sources [[("id", JStr "bbc")]]) Sample.jan2 w).2.
Proof.
  intros w.
  assert (snapshots_date_keyed w) as Hw.
  { repeat split; intros k [x Hx].
    - cbn in Hx. by rewrite lookup_empty in Hx.
    - exists (Date 2020 1 1). destruct (decide (k = "2020-01-01")) as [->|Hne]; [done|].
      unfold w, Sample.with_schemas in Hx. simpl in Hx.
      by rewrite lookup_insert_ne, lookup_empty in Hx.
    - exists (Date 2020 1 1). destruct (decide (k = "2020-01-01")) as [->|Hne]; [done|].
      unfold w, Sample.with_schemas in Hx. simpl in Hx.
      by rewrite lookup_insert_ne, lookup_empty in Hx. }
  split; [exact Hw|].
  exact (tasks_keep_snapshots_date_keyed Sample.project false ["rocq"; "ocaml"] []
           (fun url => "md5:" +:+ url) (get_news_sources [[("id", JStr "bbc")]])
           Sample.jan2 w Hw).
Defined.

(** ** The key the notifiers read for the previous day *)

Section PreviousDay.

Variable GOOGLE_CLOUD_PROJECT : string.
Variable NEWSAPI_DEV_MODE : bool.
Variable NEWSAPI_QUERY_KEYWORDS : list string.
Variable BIGQUERY_TABLE_SCHEMA : list (string * field_decl).
Variable md5_hexdigest : string -> string.

Local Notation run_task :=
  (run GOOGLE_CLOUD_PROJECT NEWSAPI_DEV_MODE NEWSAPI_QUERY_KEYWORDS
       BIGQUERY_TABLE_SCHEMA md5_hexdigest).
Local Notation topic := (sources_topic GOOGLE_CLOUD_PROJECT).
Local Notation schema_topic := (sources_schema_topic GOOGLE_CLOUD_PROJECT).
Local Notation article_topic := (articles_schema_topic GOOGLE_CLOUD_PROJECT).

Lemma diff_messages_announce (t : string) (prev cur : gset string) :
  announces_diff t prev cur (diff_messages t prev cur).
Proof.
  exists (elements (prev ∖ cur)), (elements (cur ∖ prev)).
  split; [apply NoDup_elements|]. split; [apply list_to_set_elements_L|].
  split; [apply NoDup_elements|]. split; [apply list_to_set_elements_L|].
  unfold diff_messages. f_equal.
  - destruct (decide (prev ∖ cur = ∅)) as [->|Hne].
    + by rewrite elements_empty.
    + rewrite decide_False; [done|]. intros Hnil. apply Hne.
      by apply leibniz_equiv, elements_empty_iff.
  - destruct (decide (cur ∖ prev = ∅)) as [->|Hne].
    + by rewrite elements_empty.
    + rewrite decide_False; [done|]. intros Hnil. apply Hne.
      by apply leibniz_equiv, elements_empty_iff.
Qed.

Lemma schema_messages_announce (t bootstrap : string) (prev cur : option (list string)) :
  announces_schema t bootstrap prev cur (schema_messages t bootstrap prev cur).
Proof. destruct prev, cur; simpl; auto using diff_messages_announce. Qed.

(** A run of the sources notifier on a store whose sources collection is
    date-keyed: nothing is found for the previous day, and the run returns
    after the topic check. *)
Lemma publish_news_sources_date_keyed (e p : datetime) (w : world) :
  datetime_minus_one_day e = Some p ->
  date_keyed (sources w) ->
  run_task publish_news_sources e w = (Returned tt, after_check_pubsub_topic topic w).
Proof.
  intros Hp Hkeyed. unfold run, execute. rewrite Hp.
  rewrite CheckAndPublishNewsSources_run.
  by rewrite (date_keyed_previous_day _ p Hkeyed).
Qed.

(** C1, where the code leaves it. On a store whose sources collection is
    date-keyed, as the tasks leave it, and that holds the snapshots of the
    day and of the day before, the sources notifier returns and publishes
    nothing, whatever the two key sets are: it looks for the snapshot of
    the day before under [prev_execution_date.isoformat()], where nothing
    is. *)
Theorem publish_news_sources_skips_diff (e p : datetime) (w : world)
    (yesterday today : gmap string json) :
  datetime_minus_one_day e = Some p ->
  date_keyed (sources w) ->
  sources w !! date_isoformat (dt_date p) = Some yesterday ->
  sources w !! date_isoformat (dt_date e) = Some today ->
  let r := run_task publish_news_sources e w in
  r.1 = Returned tt ∧ published r.2 = published w.
Proof.
  intros Hp Hkeyed _ _ r. unfold r.
  rewrite (publish_news_sources_date_keyed e p w Hp Hkeyed). simpl. split; [done|].
  by destruct (after_check_pubsub_topic_frame topic w) as (_ & _ & _ & _ & -> & _).
Qed.

(** C2. On a store whose sources collection is date-keyed, as the tasks
    leave it, with the snapshot of the day before and without the snapshot
    of the day, the sources notifier returns without an exception and
    publishes nothing; the collections and the table are as before, and
    all it has done is to make sure of its topic. *)
Theorem publish_news_sources_waits_for_today (e p : datetime) (w : world)
    (yesterday : gmap string json) :
  datetime_minus_one_day e = Some p ->
  date_keyed (sources w) ->
  sources w !! date_isoformat (dt_date p) = Some yesterday ->
  sources w !! date_isoformat (dt_date e) = None ->
  let r := run_task publish_news_sources e w in
  r.1 = Returned tt ∧ published r.2 = published w ∧
  sources r.2 = sources w ∧ sources_schema r.2 = sources_schema w ∧
  article_schema r.2 = article_schema w ∧ articles r.2 = articles w ∧
  bq_table r.2 = bq_table w ∧
  topic ∈ topics r.2 ∧ (topic ∈ topics w -> r.2 = w).
Proof.
  intros Hp Hkeyed _ _ r. unfold r.
  rewrite (publish_news_sources_date_keyed e p w Hp Hkeyed). simpl. split; [done|].
  destruct (after_check_pubsub_topic_frame topic w)
    as (-> & -> & -> & -> & -> & _ & ->).
  do 6 (split; [done|]). unfold after_check_pubsub_topic.
  destruct (decide (topic ∈ topics w)) as [Hin|Hout]; [done|].
  split; [|done]. simpl. set_solver.
Qed.

Lemma schedule_keeps_date_keyed (schedule : list (dag_task * datetime)) (w : world) :
  snapshots_date_keyed w -> snapshots_date_keyed (run_schedule run_task schedule w).
Proof.
  revert w. induction schedule as [|[t e] schedule IH]; intros w Hw; simpl; [done|].
  by apply IH, run_maintains_date_keyed.
Qed.

(** C3. For an execution timestamp [e] with previous timestamp [p]: the
    key [p.isoformat()] is the date, a [T] and the time of day, and is the
    ISO string of no date. A snapshotter run at any timestamp [e'] writes
    under [e'.date().isoformat()] when it returns and changes no document
    under another key, so none under [p.isoformat()]. Both notifiers read
    the previous day under [p.isoformat()] and the day under
    [e.date().isoformat()]: what they publish is the diff (or, for a
    schema, the bootstrap message) of the documents under these two keys,
    whatever the collections hold under other keys. And on a store whose
    snapshot collections are date-keyed nothing is under [p.isoformat()],
    nor after any sequence of tasks. *)
Theorem previous_day_key_never_written (e p e' : datetime) (l h : list dict)
    (w : world) :
  datetime_minus_one_day e = Some p ->
  let read_key := datetime_isoformat p in
  let day_key := date_isoformat (dt_date e) in
  let written_key := date_isoformat (dt_date e') in
  read_key = date_isoformat (dt_date p) +:+ "T" +:+ string_of_list_ascii (time_chars p) ∧
  (∀ d, date_isoformat d ≠ read_key) ∧
  (let r := run_task (get_news_sources l) e' w in
   (r.1 = Returned tt -> is_Some (sources r.2 !! written_key)) ∧
   (∀ k, k ≠ written_key -> sources r.2 !! k = sources w !! k) ∧
   sources r.2 !! read_key = sources w !! read_key) ∧
  (let r := run_task (get_schemas_task l h) e' w in
   (r.1 = Returned tt -> is_Some (sources_schema r.2 !! written_key) ∧
                        is_Some (article_schema r.2 !! written_key)) ∧
   (∀ k, k ≠ written_key -> sources_schema r.2 !! k = sources_schema w !! k ∧
                            article_schema r.2 !! k = article_schema w !! k) ∧
   sources_schema r.2 !! read_key = sources_schema w !! read_key ∧
   article_schema r.2 !! read_key = article_schema w !! read_key) ∧
  (∃ ms, published (run_task publish_news_sources e w).2 = published w ++ ms ∧
     match sources w !! read_key, sources w !! day_key with
     | Some yesterday, Some today => announces_diff topic (dom yesterday) (dom today) ms
     | _, _ => ms = []
     end) ∧
  (∃ ms1 ms2,
     published (run_task check_schemas_task e w).2 = published w ++ ms1 ++ ms2 ∧
     announces_schema schema_topic article_topic
       (sources_schema w !! read_key) (sources_schema w !! day_key) ms1 ∧
     announces_schema article_topic article_topic
       (article_schema w !! read_key) (article_schema w !! day_key) ms2) ∧
  (snapshots_date_keyed w ->
   ∀ schedule, let w' := run_schedule run_task schedule w in
     sources w' !! read_key = None ∧ sources_schema w' !! read_key = None ∧
     article_schema w' !! read_key = None).
Proof.
  intros Hp read_key day_key written_key.
  assert (∀ d, date_isoformat d ≠ read_key) as Hne
    by (intros d; apply date_isoformat_ne_datetime_isoformat).
  split; [apply datetime_isoformat_time|]. split; [done|].
  split; [|split; [|split; [|split]]].
  - split; [|split].
    + unfold run, execute.
      destruct (datetime_minus_one_day e') as [p'|]; [|done].
      rewrite GetNewsSources_run. destruct (sources_dict l); simpl; [|done].
      intros _. fold written_key. rewrite lookup_insert_eq. by eexists.
    + intros k Hk. by apply get_news_sources_other_keys.
    + apply get_news_sources_other_keys. intros H. by apply (Hne (dt_date e')).
  - split; [|split].
    + unfold run, execute.
      destruct (datetime_minus_one_day e') as [p'|]; [|done].
      rewrite GetDataSchemas_run. destruct (last l), (last h); simpl; try done.
      intros _. fold written_key. rewrite !lookup_insert_eq. split; by eexists.
    + intros k Hk. by apply get_schemas_task_other_keys.
    + apply get_schemas_task_other_keys. intros H. by apply (Hne (dt_date e')).
  - unfold run, execute. rewrite Hp, CheckAndPublishNewsSources_run.
    fold read_key day_key.
    destruct (after_check_pubsub_topic_frame topic w) as (_ & _ & _ & _ & Hpub & _).
    destruct (sources w !! read_key) as [yesterday|];
      [destruct (sources w !! day_key) as [today|]|]; simpl.
    + eexists. split; [reflexivity|]. apply diff_messages_announce.
    + exists []. by rewrite app_nil_r.
    + exists []. by rewrite app_nil_r.
  - unfold run, execute. rewrite Hp, CheckDataSchemas_run. simpl.
    fold read_key day_key. eexists _, _. split; [reflexivity|].
    split; apply schema_messages_announce.
  - intros Hw schedule w'.
    destruct (schedule_keeps_date_keyed schedule w Hw) as (Hs & Hss & Has).
    fold w' in Hs, Hss, Has.
    unfold read_key.
    by rewrite (date_keyed_previous_day _ p Hs), (date_keyed_previous_day _ p Hss),
               (date_keyed_previous_day _ p Has).
Qed.

End PreviousDay.

(** The example of the specification as the snapshotter stores it: the
    sources [{bbc, cnn}] fetched on 2020-01-01 and [{cnn, reuters}] on
    2020-01-02. The notifier of 2020-01-02 publishes nothing. *)
Lemma publish_news_sources_skips_diff_witness :
  let bbc := [("id", JStr "bbc")] in
  let cnn := [("id", JStr "cnn")] in
  let reuters := [("id", JStr "reuters")] in
  let w1 := (Sample.run_task (get_news_sources [bbc; cnn]) Sample.jan1
               Sample.empty_world).2 in
  let w2 := (Sample.run_task (get_news_sources [cnn; reuters]) Sample.jan2 w1).2 in
  let r := Sample.run_task publish_news_sources Sample.jan2 w2 in
  datetime_minus_one_day Sample.jan2 = Some Sample.jan1 ∧
  date_keyed (sources w2) ∧
  dom <$> sources w2 !! "2020-01-01" = Some {["bbc"; "cnn"]} ∧
  dom <$> sources w2 !! "2020-01-02" = Some {["cnn"; "reuters"]} ∧
  r.1 = Returned tt ∧ published r.2 = [].
Proof.
  intros bbc cnn reuters w1 w2 r.
  assert (snapshots_date_keyed Sample.empty_world) as Hempty.
  { repeat split; intros k [x Hx]; cbn in Hx; by rewrite lookup_empty in Hx. }
  assert (date_keyed (sources w2)) as Hkeyed.
  { unfold w2, w1, Sample.run_task. by repeat apply run_maintains_date_keyed. }
  assert (∃ yesterday, sources w2 !! date_isoformat (dt_date Sample.jan1) = Some yesterday)
    as [yesterday Hyesterday] by (eexists; vm_compute; reflexivity).
  assert (∃ today, sources w2 !! date_isoformat (dt_date Sample.jan2) = Some today)
    as [today Htoday] by (eexists; vm_compute; reflexivity).
  split; [reflexivity|]. split; [exact Hkeyed|].
  split; [by vm_compute|]. split; [by vm_compute|].
  exact (publish_news_sources_skips_diff Sample.project false ["rocq"; "ocaml"] []
           (fun url => "md5:" +:+ url) Sample.jan2 Sample.jan1 w2 yesterday today
           eq_refl Hkeyed Hyesterday Htoday).
Defined.

(** The snapshotter has run on 2020-01-01 only: the notifier of 2020-01-02
    returns and publishes nothing. *)
Lemma publish_news_sources_waits_for_today_witness :
  let bbc := [("id", JStr "bbc")] in
  let cnn := [("id", JStr "cnn")] in
  let w1 := (Sample.run_task (get_news_sources [bbc; cnn]) Sample.jan1
               Sample.empty_world).2 in
  let r := Sample.run_task publish_news_sources Sample.jan2 w1 in
  datetime_minus_one_day Sample.jan2 = Some Sample.jan1 ∧
  date_keyed (sources w1) ∧
  dom <$> sources w1 !! "2020-01-01" = Some {["bbc"; "cnn"]} ∧
  sources w1 !! "2020-01-02" = None ∧
  r.1 = Returned tt ∧ published r.2 = [] ∧ sources r.2 = sources w1.
Proof.
  intros bbc cnn w1 r.
  assert (snapshots_date_keyed Sample.empty_world) as Hempty.
  { repeat split; intros k [x Hx]; cbn in Hx; by rewrite lookup_empty in Hx. }
  assert (date_keyed (sources w1)) as Hkeyed.
  { unfold w1, Sample.run_task. by apply run_maintains_date_keyed. }
  assert (∃ yesterday, sources w1 !! date_isoformat (dt_date Sample.jan1) = Some yesterday)
    as [yesterday Hyesterday] by (eexists; vm_compute; reflexivity).
  assert (sources w1 !! date_isoformat (dt_date Sample.jan2) = None) as Htoday
    by (by vm_compute).
  split; [reflexivity|]. split; [exact Hkeyed|].
  split; [by vm_compute|]. split; [by vm_compute|].
  destruct (publish_news_sources_waits_for_today Sample.project false ["rocq"; "ocaml"] []
              (fun url => "md5:" +:+ url) Sample.jan2 Sample.jan1 w1 yesterday
              eq_refl Hkeyed Hyesterday Htoday)
    as (Hrun & Hpub & Hsources & _).
  split; [exact Hrun|]. split; [|exact Hsources].
  etrans; [exact Hpub | by vm_compute].
Defined.

(** The schema snapshots of 2020-01-01 and of 2020-01-02 under their date
    keys: the notifier of 2020-01-02 reads 2020-01-01T00:00:00, finds
    nothing, and publishes the keys of 2020-01-02 as new. *)
Lemma previous_day_key_never_written_witness :
  let w := Sample.with_schemas [("2020-01-01", ["id"]); ("2020-01-02", ["id"; "name"])]
                               [] in
  datetime_minus_one_day Sample.jan2 = Some Sample.jan1 ∧
  datetime_isoformat Sample.jan1 = "2020-01-01T00:00:00" ∧
  published (Sample.run_task check_schemas_task Sample.jan2 w).2
  = [Message "projects/demo/topics/articles-schema"
             (JObj [("new", JArr [JStr "id"; JStr "name"])])].
Proof.
  intros w. split; [reflexivity|]. split; [reflexivity|].
  destruct (previous_day_key_never_written Sample.project false ["rocq"; "ocaml"] []
              (fun url => "md5:" +:+ url) Sample.jan2 Sample.jan1 Sample.jan2 [] [] w
              eq_refl)
    as (_ & _ & _ & _ & _ & (ms1 & ms2 & Hpub & Hms1 & Hms2) & _).
  etrans; [exact Hpub|].
  vm_compute in Hms1. vm_compute in Hms2. by subst.
Defined.

Section NeverRemoved.

Variable GOOGLE_CLOUD_PROJECT : string.
Variable NEWSAPI_DEV_MODE : bool.
Variable NEWSAPI_QUERY_KEYWORDS : list string.
Variable BIGQUERY_TABLE_SCHEMA : list (string * field_decl).
Variable md5_hexdigest : string -> string.

Local Notation run_task :=
  (run GOOGLE_CLOUD_PROJECT NEWSAPI_DEV_MODE NEWSAPI_QUERY_KEYWORDS
       BIGQUERY_TABLE_SCHEMA md5_hexdigest).
Local Notation art_topic := (articles_schema_topic GOOGLE_CLOUD_PROJECT).

(** In a date-keyed state a task publishes only bootstrap messages. *)
Lemma task_publishes_bootstrap_only (t : dag_task) (e : datetime) (w : world) :
  snapshots_date_keyed w ->
  ∃ ms, published (run_task t e w).2 = published w ++ ms ∧
        Forall (bootstrap_message GOOGLE_CLOUD_PROJECT) ms.
Proof.
  intros (Hsources & Hschema & Harticle).
  destruct t;
    try (exists []; rewrite app_nil_r; split;
         [by apply other_tasks_keep_published | constructor]).
  - unfold run, execute.
    destruct (datetime_minus_one_day e) as [p|]; simpl;
      [|by exists []; rewrite app_nil_r].
    rewrite CheckDataSchemas_run. simpl.
    rewrite (date_keyed_previous_day _ p Hschema),
            (date_keyed_previous_day _ p Harticle).
    eexists. split; [reflexivity|].
    apply Forall_app. split.
    + destruct (sources_schema w !! date_isoformat (dt_date e)); simpl;
        repeat constructor. by eexists.
    + destruct (article_schema w !! date_isoformat (dt_date e)); simpl;
        repeat constructor. by eexists.
  - unfold run, execute.
    destruct (datetime_minus_one_day e) as [p|]; simpl;
      [|by exists []; rewrite app_nil_r].
    rewrite CheckAndPublishNewsSources_run.
    rewrite (date_keyed_previous_day _ p Hsources). simpl.
    exists []. rewrite app_nil_r. split; [|constructor].
    by destruct (after_check_pubsub_topic_frame
                   (sources_topic GOOGLE_CLOUD_PROJECT) w) as (_ & _ & _ & _ & -> & _).
Qed.

(** X9. From a state whose snapshot collections are date-keyed, the empty
    store for one, and through any sequence of tasks on any dates, every
    message that is published is [{new: keys}] on the articles-schema topic:
    no [remove] message is ever published, and no message on the sources
    topic or on the sources-schema topic. The collections stay date-keyed. *)
Theorem schedule_publishes_bootstrap_only (schedule : list (dag_task * datetime))
    (w : world) :
  snapshots_date_keyed w ->
  let w' := run_schedule run_task schedule w in
  snapshots_date_keyed w' ∧
  ∃ ms, published w' = published w ++ ms ∧
    Forall (fun m =>
              msg_topic m = art_topic ∧
              msg_topic m ≠ sources_topic GOOGLE_CLOUD_PROJECT ∧
              msg_topic m ≠ sources_schema_topic GOOGLE_CLOUD_PROJECT ∧
              ∃ keys : list string, msg_data m = JObj [("new", JArr (JStr <$> keys))])
           ms.
Proof.
  revert w. induction schedule as [|[t e] schedule IH]; intros w Hw; simpl.
  - split; [done|]. exists []. by rewrite app_nil_r.
  - destruct (task_publishes_bootstrap_only t e w Hw) as (ms1 & Hms1 & Hboot).
    pose proof (run_maintains_date_keyed GOOGLE_CLOUD_PROJECT NEWSAPI_DEV_MODE
                  NEWSAPI_QUERY_KEYWORDS BIGQUERY_TABLE_SCHEMA md5_hexdigest t e w Hw)
      as Hw1.
    destruct (IH _ Hw1) as (Hkeyed & ms2 & Hms2 & Hrest).
    split; [done|]. exists (ms1 ++ ms2). rewrite Hms2, Hms1, app_assoc.
    split; [done|]. apply Forall_app. split; [|done].
    eapply Forall_impl; [exact Hboot|]. intros m [Htopic Hdata].
    split; [done|]. rewrite Htopic. split; [|split; [|done]].
    + unfold articles_schema_topic, sources_topic, topic_path.
      intros H. do 3 apply append_inj_r in H. discriminate H.
    + apply schema_topics_differ.
Qed.

(** X10. The schema snapshotter followed by the schema notifier, on the
    same date and from a date-keyed state: the notifier finds no previous
    snapshot and publishes exactly two messages, the keys of the last source
    and the keys of the last headline as [new], both on the articles-schema
    topic, whatever the snapshots of the day before hold. *)
Theorem daily_schema_run_announces_all (l h l' h' : list dict) (source headline : dict)
    (e p : datetime) (w : world) :
  datetime_minus_one_day e = Some p ->
  snapshots_date_keyed w ->
  l = l' ++ [source] -> h = h' ++ [headline] ->
  let w1 := (run_task (get_schemas_task l h) e w).2 in
  ∃ w2, run_task check_schemas_task e w1 = (Returned tt, w2) ∧
    published w2 =
      published w ++
      [Message art_topic (JObj [("new", JArr (JStr <$> source.*1))]);
       Message art_topic (JObj [("new", JArr (JStr <$> headline.*1))])].
Proof.
  intros Hp Hw -> -> w1.
  pose proof (run_maintains_date_keyed GOOGLE_CLOUD_PROJECT NEWSAPI_DEV_MODE
                NEWSAPI_QUERY_KEYWORDS BIGQUERY_TABLE_SCHEMA md5_hexdigest
                (get_schemas_task (l' ++ [source]) (h' ++ [headline])) e w Hw)
    as (_ & Hschema & Harticle).
  fold w1 in Hschema, Harticle.
  assert (sources_schema w1 !! date_isoformat (dt_date e) = Some source.*1 ∧
          article_schema w1 !! date_isoformat (dt_date e) = Some headline.*1 ∧
          published w1 = published w) as (Hs & Ha & Hpub).
  { unfold w1, run, execute. rewrite Hp, GetDataSchemas_run, !last_snoc. simpl.
    by rewrite !lookup_insert_eq. }
  unfold run at 1, execute. rewrite Hp, CheckDataSchemas_run.
  eexists. split; [reflexivity|]. simpl.
  rewrite (date_keyed_previous_day _ p Hschema), (date_keyed_previous_day _ p Harticle).
  by rewrite Hs, Ha, Hpub.
Qed.

End NeverRemoved.

(** Three days of the sources and schema branches from the empty store, the
    sources changing every day: only bootstrap messages are published. *)
Lemma schedule_publishes_bootstrap_only_witness :
  let day d := DateTime (Date 2020 1 d) 0 0 0 0 None in
  let source id := [("id", JStr id)] in
  let daily d ids :=
    [(get_news_sources (source <$> ids), day d); (publish_news_sources, day d);
     (clear_old_sources, day d);
     (get_schemas_task [source "x"] [[("title", JStr "t")]], day d);
     (check_schemas_task, day d); (clear_old_schemas, day d)] in
  let w' := run_schedule Sample.run_task
              (daily 1%Z ["bbc"; "cnn"] ++ daily 2%Z ["cnn"; "reuters"] ++ daily 3%Z ["ap"])
              Sample.empty_world in
  snapshots_date_keyed Sample.empty_world ∧
  length (published w') = 6 ∧
  Forall (fun m => msg_topic m = "projects/demo/topics/articles-schema") (published w').
Proof.
  intros day source daily w'.
  assert (snapshots_date_keyed Sample.empty_world) as Hempty.
  { repeat split; intros k [x Hx]; cbn in Hx; by rewrite lookup_empty in Hx. }
  split; [exact Hempty|]. split; [by vm_compute|].
  destruct (schedule_publishes_bootstrap_only Sample.project false ["rocq"; "ocaml"] []
              (fun url => "md5:" +:+ url)
              (daily 1%Z ["bbc"; "cnn"] ++ daily 2%Z ["cnn"; "reuters"] ++ daily 3%Z ["ap"])
              Sample.empty_world Hempty) as (_ & ms & Hpub & Hms).
  change (published w' = published Sample.empty_world ++ ms) in Hpub.
  rewrite Hpub. simpl.
  eapply Forall_impl; [exact Hms|]. intros m (Htopic & _). exact Htopic.
Defined.

Lemma daily_schema_run_announces_all_witness :
  let source := [("id", JStr "bbc"); ("name", JStr "BBC")] in
  let headline := [("title", JStr "t"); ("url", JStr "u")] in
  let w := Sample.with_schemas [("2020-01-01", ["id"; "name"])]
                               [("2020-01-01", ["title"; "url"])] in
  let w1 := (Sample.run_task (get_schemas_task [source] [headline]) Sample.jan2 w).2 in
  datetime_minus_one_day Sample.jan2 = Some Sample.jan1 ∧
  snapshots_date_keyed w ∧
  ∃ w2, Sample.run_task check_schemas_task Sample.jan2 w1 = (Returned tt, w2) ∧
    published w2 =
      [Message "projects/demo/topics/articles-schema"
               (JObj [("new", JArr [JStr "id"; JStr "name"])]);
       Message "projects/demo/topics/articles-schema"
               (JObj [("new", JArr [JStr "title"; JStr "url"])])].
Proof.
  intros source headline w w1.
  assert (snapshots_date_keyed w) as Hw.
  { repeat split; intros k [x Hx].
    - cbn in Hx. by rewrite lookup_empty in Hx.
    - exists (Date 2020 1 1). destruct (decide (k = "2020-01-01")) as [->|Hne]; [done|].
      unfold w, Sample.with_schemas in Hx. simpl in Hx.
      by rewrite lookup_insert_ne, lookup_empty in Hx.
    - exists (Date 2020 1 1). destruct (decide (k = "2020-01-01")) as [->|Hne]; [done|].
      unfold w, Sample.with_schemas in Hx. simpl in Hx.
      by rewrite lookup_insert_ne, lookup_empty in Hx. }
  split; [reflexivity|]. split; [exact Hw|].
  destruct (daily_schema_run_announces_all Sample.project false ["rocq"; "ocaml"] []
              (fun url => "md5:" +:+ url) [source] [headline] [] [] source headline
              Sample.jan2 Sample.jan1 w eq_refl Hw eq_refl eq_refl) as (w2 & Hrun & Hpub).
  exists w2. split; [exact Hrun|]. rewrite Hpub. by vm_compute.
Defined.

(** ** The article fetcher *)

Section Fetcher.

Variable GOOGLE_CLOUD_PROJECT : string.
Variable NEWSAPI_DEV_MODE : bool.
Variable NEWSAPI_QUERY_KEYWORDS : list string.
Variable BIGQUERY_TABLE_SCHEMA : list (string * field_decl).
Variable md5_hexdigest : string -> string.

Local Notation run_task :=
  (run GOOGLE_CLOUD_PROJECT NEWSAPI_DEV_MODE NEWSAPI_QUERY_KEYWORDS
       BIGQUERY_TABLE_SCHEMA md5_hexdigest).

Lemma for_each_ext {A} (xs : list A) (f g : A -> task unit) :
  (∀ x, f x = g x) -> for_each xs f = for_each xs g.
Proof. intros H. induction xs as [|x xs IH]; simpl; [done|]. by rewrite H, IH. Qed.

(** In development mode the paging loop asks for the pages 1 to 10 only. *)
Lemma GetData_pages_dev_cap (date keyword : string) (page : nat)
    (pages : list (list (gmap string json))) :
  GetData_pages true md5_hexdigest date keyword page pages
  = GetData_pages true md5_hexdigest date keyword page (take (11 - page) pages).
Proof.
  revert page. induction pages as [|articles pages IH]; intros page.
  - by rewrite take_nil.
  - destruct (decide (10 < page)) as [Hlt|Hge].
    + replace (11 - page) with 0 by lia. simpl.
      by rewrite (bool_decide_eq_true_2 _ Hlt).
    + replace (11 - page) with (S (10 - page)) by lia. simpl.
      rewrite (bool_decide_eq_false_2 _ Hge). simpl.
      rewrite IH. by replace (11 - S page) with (10 - page) by lia.
Qed.

(** The paging loop stops at the first page without articles. *)
Lemma GetData_pages_empty_page (dev : bool) (date keyword : string) (page : nat)
    (before after : list (list (gmap string json))) :
  GetData_pages dev md5_hexdigest date keyword page (before ++ [] :: after)
  = GetData_pages dev md5_hexdigest date keyword page before.
Proof.
  revert page. induction before as [|articles before IH]; intros page; simpl.
  - by destruct (dev && bool_decide (10 < page)).
  - by rewrite IH.
Qed.

(** X11. In development mode the fetcher does what it does on the first
    ten pages of every keyword: no article of a later page is stored. In
    either mode it does what it does on the pages before the first page
    without articles: nothing after an empty page is stored. *)
Theorem get_data_pages_fetched
    (get_everything : string -> list (list (gmap string json))) (e : datetime) :
  run GOOGLE_CLOUD_PROJECT true NEWSAPI_QUERY_KEYWORDS BIGQUERY_TABLE_SCHEMA
      md5_hexdigest (get_data_task get_everything) e
  = run GOOGLE_CLOUD_PROJECT true NEWSAPI_QUERY_KEYWORDS BIGQUERY_TABLE_SCHEMA
        md5_hexdigest (get_data_task (fun keyword => take 10 (get_everything keyword))) e
  ∧
  ∀ before after : string -> list (list (gmap string json)),
    (∀ keyword, get_everything keyword = before keyword ++ [] :: after keyword) ->
    run_task (get_data_task get_everything) e = run_task (get_data_task before) e.
Proof.
  split.
  - unfold run, execute. destruct (datetime_minus_one_day e); [|done].
    unfold GetData_execute_. apply for_each_ext. intros keyword.
    apply GetData_pages_dev_cap.
  - intros before after Hpages. unfold run, execute.
    destruct (datetime_minus_one_day e); [|done].
    unfold GetData_execute_. apply for_each_ext. intros keyword.
    rewrite Hpages. apply GetData_pages_empty_page.
Qed.

(** *** The documents the fetcher writes *)

Lemma write_all_app (ws1 ws2 : list (string * string * string * gmap string json))
    (c : gmap (string * string * string) (gmap string json)) :
  write_all (ws1 ++ ws2) c = write_all ws2 (write_all ws1 c).
Proof. unfold write_all. apply foldl_app. Qed.

Lemma lookup_write_all (ws : list (string * string * string * gmap string json))
    (c : gmap (string * string * string) (gmap string json))
    (key : string * string * string) :
  write_all ws c !! key = match last_write key ws with
                          | Some article => Some article
                          | None => c !! key
                          end.
Proof.
  unfold write_all, last_write. revert c.
  induction ws as [|[k article] ws IH]; intros c; simpl; [done|].
  rewrite IH, filter_cons. simpl. destruct (decide (k = key)) as [->|Hne].
  - destruct (filter _ ws) as [|x f] eqn:Ef; simpl.
    + by rewrite lookup_insert_eq.
    + destruct (last (x :: f)) eqn:El; [done|]. by apply last_None in El.
  - destruct (last (filter _ ws)); simpl; [done|]. by rewrite lookup_insert_ne.
Qed.

Lemma write_all_idempotent (ws : list (string * string * string * gmap string json))
    (c : gmap (string * string * string) (gmap string json)) :
  write_all ws (write_all ws c) = write_all ws c.
Proof.
  apply map_eq. intros key. rewrite !lookup_write_all.
  by destruct (last_write key ws).
Qed.

Lemma last_write_elem_of (key : string * string * string)
    (ws : list (string * string * string * gmap string json)) (article : gmap string json) :
  last_write key ws = Some article -> (key, article) ∈ ws.
Proof.
  unfold last_write. intros H. apply fmap_Some in H as ([k a] & Hlast & ->).
  apply last_Some_elem_of in Hlast.
  apply list_elem_of_filter in Hlast as [Hk Hin]. simpl in *. by subst.
Qed.

Section Writers.

Context (P : string * string * string * gmap string json -> Prop).

Lemma article_writer_ret {A} (a : A) : article_writer P (mret a).
Proof. exists [], (Returned a). split; [|constructor]. intros w. by destruct w. Qed.

Lemma article_writer_raise {A} (ex : exn) : article_writer P (raise ex : task A).
Proof. exists [], (Raised ex). split; [|constructor]. intros w. by destruct w. Qed.

Lemma article_writer_bind {A B} (m : task A) (f : A -> task B) :
  article_writer P m -> (∀ a, article_writer P (f a)) -> article_writer P (m ≫= f).
Proof.
  intros (ws1 & r1 & Hm & Hws1) Hf. destruct r1 as [a|ex].
  - destruct (Hf a) as (ws2 & r2 & Hfa & Hws2).
    exists (ws1 ++ ws2), r2. split; [|by apply Forall_app].
    intros w. unfold mbind, task_bind. rewrite Hm, Hfa. simpl.
    rewrite write_all_app. by destruct w.
  - exists ws1, (Raised ex). split; [|done].
    intros w. unfold mbind, task_bind. by rewrite Hm.
Qed.

Lemma article_writer_for_each {A} (xs : list A) (body : A -> task unit) :
  (∀ x, article_writer P (body x)) -> article_writer P (for_each xs body).
Proof.
  intros H. induction xs as [|x xs IH]; simpl.
  - apply article_writer_ret.
  - apply article_writer_bind; [apply H | intros _; apply IH].
Qed.

End Writers.

Lemma article_writer_weaken {A}
    (P Q : string * string * string * gmap string json -> Prop) (m : task A) :
  (∀ write, P write -> Q write) -> article_writer P m -> article_writer Q m.
Proof.
  intros HPQ (ws & r & Hrun & Hws). exists ws, r. split; [done|].
  eapply Forall_impl; [exact Hws | exact HPQ].
Qed.

Lemma GetData_store_article_writer (date keyword : string)
    (pages : list (list (gmap string json))) (page : list (gmap string json))
    (article : gmap string json) :
  page ∈ pages -> article ∈ page ->
  article_writer (page_write md5_hexdigest date keyword pages)
    (GetData_store_article md5_hexdigest date keyword article).
Proof.
  intros Hpage Harticle. unfold GetData_store_article.
  destruct (article !! "url") as [[| | |url| |]|] eqn:Hurl;
    try (exists [], (Raised TypeError); split; [|constructor];
         intros w; unfold_task; by destruct w).
  - exists [((date, keyword, md5_hexdigest url),
             stored_article (md5_hexdigest url) keyword date article)], (Returned tt).
    split; [by intros w|]. repeat constructor. by exists page, url, article.
  - exists [], (Raised KeyError). split; [|constructor].
    intros w. unfold_task. by destruct w.
Qed.

Lemma GetData_pages_writer (date keyword : string) (page : nat)
    (pages all : list (list (gmap string json))) :
  pages ⊆ all ->
  article_writer (page_write md5_hexdigest date keyword all)
    (GetData_pages NEWSAPI_DEV_MODE md5_hexdigest date keyword page pages).
Proof.
  revert page. induction pages as [|articles pages IH]; intros page Hsub; simpl.
  - destruct (NEWSAPI_DEV_MODE && bool_decide (10 < page)); apply article_writer_ret.
  - destruct (NEWSAPI_DEV_MODE && bool_decide (10 < page)); [apply article_writer_ret|].
    destruct (bool_decide (length articles = 0)); [apply article_writer_ret|].
    apply article_writer_bind; [|intros _; apply IH; set_solver].
    assert (∀ l, l ⊆ articles ->
              article_writer (page_write md5_hexdigest date keyword all)
                (for_each l (GetData_store_article md5_hexdigest date keyword))) as Hloop.
    { induction l as [|article l IHl]; intros Hl; simpl.
      - apply article_writer_ret.
      - apply article_writer_bind; [|intros _; apply IHl; set_solver].
        apply (GetData_store_article_writer _ _ _ articles); set_solver. }
    by apply Hloop.
Qed.

Lemma for_each_keyword_writer (date : string)
    (get_everything : string -> list (list (gmap string json))) (keywords : list string) :
  keywords ⊆ NEWSAPI_QUERY_KEYWORDS ->
  article_writer
    (fetched_write md5_hexdigest date NEWSAPI_QUERY_KEYWORDS get_everything)
    (for_each keywords (fun keyword =>
       GetData_pages NEWSAPI_DEV_MODE md5_hexdigest date keyword 1
                     (get_everything keyword))).
Proof.
  induction keywords as [|keyword keywords IH]; intros Hsub; simpl.
  - apply article_writer_ret.
  - apply article_writer_bind.
    + apply (article_writer_weaken
               (page_write md5_hexdigest date keyword (get_everything keyword))).
      * intros write Hwrite. exists keyword. split; [set_solver|done].
      * by apply GetData_pages_writer.
    + intros _. apply IH. set_solver.
Qed.

(** A run of the fetcher is a sequence of writes of fetched articles. *)
Lemma get_data_task_writer
    (get_everything : string -> list (list (gmap string json))) (e : datetime) :
  article_writer
    (fetched_write md5_hexdigest (date_isoformat (dt_date e)) NEWSAPI_QUERY_KEYWORDS
                   get_everything)
    (run_task (get_data_task get_everything) e).
Proof.
  unfold run, execute.
  destruct (datetime_minus_one_day e); [|apply article_writer_raise].
  unfold GetData_execute_. by apply for_each_keyword_writer.
Qed.

(** X12. Whatever the content API answers and however the run ends, the
    fetcher changes nothing but article documents and deletes none; every
    document it leaves changed is in the partition of the execution date
    and of a configured keyword, under the MD5 of the URL of an article of
    a page the content API answered for this keyword, and is that article
    with its [id], [keyword] and [date] set. *)
Theorem get_data_writes_only_fetched
    (get_everything : string -> list (list (gmap string json))) (e : datetime)
    (w : world) :
  let r := run_task (get_data_task get_everything) e w in
  let date := date_isoformat (dt_date e) in
  (∃ c, r.2 = set_articles c w) ∧
  dom (articles w) ⊆ dom (articles r.2) ∧
  ∀ key, articles r.2 !! key = articles w !! key ∨
         ∃ keyword page article url,
           keyword ∈ NEWSAPI_QUERY_KEYWORDS ∧
           page ∈ get_everything keyword ∧ article ∈ page ∧
           article !! "url" = Some (JStr url) ∧
           key = (date, keyword, md5_hexdigest url) ∧
           articles r.2 !! key
           = Some (<["date" := JStr date]>
                     (<["keyword" := JStr keyword]>
                        (<["id" := JStr (md5_hexdigest url)]> article))).
Proof.
  intros r date. unfold r.
  destruct (get_data_task_writer get_everything e) as (ws & res & Hrun & Hws).
  unfold writes_articles in Hrun. rewrite (Hrun w). simpl.
  split; [by exists (write_all ws (articles w))|].
  assert (∀ key, write_all ws (articles w) !! key = articles w !! key ∨
                 ∃ article, last_write key ws = Some article ∧
                            write_all ws (articles w) !! key = Some article) as Hkey.
  { intros key. rewrite lookup_write_all.
    destruct (last_write key ws) as [article|]; [right; by eexists | by left]. }
  split.
  - intros key Hin. apply elem_of_dom. apply elem_of_dom in Hin.
    destruct (Hkey key) as [-> | (article & _ & ->)]; [done | by eexists].
  - intros key. destruct (Hkey key) as [Hsame | (article & Hlast & Hlookup)];
      [by left | right].
    apply last_write_elem_of in Hlast.
    rewrite Forall_forall in Hws.
    destruct (Hws _ Hlast)
      as (keyword & Hkw & page & url & fetched & Hpage & Hin & Hurl & [= -> ->]).
    exists keyword, page, fetched, url. by rewrite Hlookup.
Qed.

(** X13. Fetching again is idempotent: a second run of the fetcher with
    the same answers of the content API, on the state the first run left,
    ends as the first run did and leaves that state as it is. *)
Theorem get_data_refetch_idempotent
    (get_everything : string -> list (list (gmap string json))) (e : datetime)
    (w : world) :
  let r := run_task (get_data_task get_everything) e w in
  run_task (get_data_task get_everything) e r.2 = r.
Proof.
  intros r. unfold r.
  destruct (get_data_task_writer get_everything e) as (ws & res & Hrun & _).
  unfold writes_articles in Hrun. rewrite (Hrun w). simpl.
  rewrite Hrun. simpl. by rewrite write_all_idempotent.
Qed.

End Fetcher.

(** ** The loader *)

Section Loader.

Variable GOOGLE_CLOUD_PROJECT : string.
Variable NEWSAPI_DEV_MODE : bool.
Variable NEWSAPI_QUERY_KEYWORDS : list string.
Variable BIGQUERY_TABLE_SCHEMA : list (string * field_decl).
Variable md5_hexdigest : string -> string.

Local Notation run_task :=
  (run GOOGLE_CLOUD_PROJECT NEWSAPI_DEV_MODE NEWSAPI_QUERY_KEYWORDS
       BIGQUERY_TABLE_SCHEMA md5_hexdigest).

Lemma elem_of_stream (date keyword id : string) (article : gmap string json) (w : world) :
  (id, article) ∈ stream date keyword w ↔ articles w !! (date, keyword, id) = Some article.
Proof.
  unfold stream. rewrite merge_sort_Permutation, list_elem_of_omap. split.
  - intros ([[[d k] i] a] & Hin & Hsome). apply elem_of_map_to_list in Hin.
    case_decide as Hdk; [|done]. destruct Hdk as [-> ->]. by simplify_eq.
  - intros Hlookup. exists ((date, keyword, id), article). split.
    + by apply elem_of_map_to_list.
    + by rewrite decide_True.
Qed.

Lemma elem_of_streamed (keywords : list string) (date : string) (w : world)
    (doc : string * gmap string json) :
  doc ∈ streamed keywords date w ↔
  ∃ keyword, keyword ∈ keywords ∧ articles w !! (date, keyword, doc.1) = Some doc.2.
Proof.
  unfold streamed. rewrite list_elem_of_bind. destruct doc as [id article]. simpl.
  split; intros (keyword & H1 & H2); exists keyword.
  - split; [done|]. by apply elem_of_stream.
  - split; [|done]. by apply elem_of_stream.
Qed.

Lemma Forall2_elem_of_l {A B} (P : A -> B -> Prop) (l : list A) (k : list B) (x : A) :
  Forall2 P l k -> x ∈ l -> ∃ y, y ∈ k ∧ P x y.
Proof.
  induction 1 as [|a b l k Hab _ IH]; intros Hin.
  - by apply elem_of_nil in Hin.
  - apply elem_of_cons in Hin as [->|Hin].
    + exists b. split; [left|done].
    + destruct (IH Hin) as (y & Hy & HP). exists y. split; [by right|done].
Qed.

Lemma Forall2_elem_of_r {A B} (P : A -> B -> Prop) (l : list A) (k : list B) (y : B) :
  Forall2 P l k -> y ∈ k -> ∃ x, x ∈ l ∧ P x y.
Proof.
  induction 1 as [|a b l k Hab _ IH]; intros Hin.
  - by apply elem_of_nil in Hin.
  - apply elem_of_cons in Hin as [->|Hin].
    + exists a. split; [left|done].
    + destruct (IH Hin) as (x & Hx & HP). exists x. split; [by right|done].
Qed.

Lemma stream_set_bq_table (date keyword : string) (t : option table) (w : world) :
  stream date keyword (set_bq_table t w) = stream date keyword w.
Proof. done. Qed.

Lemma task_bind_returned {A B} (m : task A) (f : A -> task B) (a : A) (w w' : world) :
  m w = (Returned a, w') -> (m ≫= f) w = f a w'.
Proof. intros H. unfold mbind, task_bind. by rewrite H. Qed.

Lemma task_bind_raised {A B} (m : task A) (f : A -> task B) (ex : exn) (w w' : world) :
  m w = (Raised ex, w') -> (m ≫= f) w = (Raised ex, w').
Proof. intros H. unfold mbind, task_bind. by rewrite H. Qed.

Lemma get_table_run (w : world) (t : table) :
  bq_table w = Some t -> get_table w = (Returned t, w).
Proof. intros Ht. unfold get_table. unfold_task. by rewrite Ht. Qed.

Lemma set_bq_table_id (w : world) (t : table) :
  bq_table w = Some t -> set_bq_table (Some (Table (schema t) (rows t ++ []))) w = w.
Proof. intros Ht. rewrite app_nil_r. destruct w, t; simpl in *. by subst. Qed.

Lemma insert_rows_json_run (row : gmap string json) (w : world) (t : table) :
  bq_table w = Some t ->
  insert_rows_json row w
  = (Returned tt, set_bq_table (Some (Table (schema t) (rows t ++ [row]))) w).
Proof.
  intros Ht. unfold insert_rows_json.
  by rewrite (task_bind_returned _ _ t w w (get_table_run w t Ht)).
Qed.

(** The loop over the documents of one keyword. *)
Lemma load_documents_run (current_date : string) (docs : list (string * gmap string json))
    (w : world) (t : table) :
  bq_table w = Some t ->
  for_each docs (fun '(id, article) =>
    let row := <["id" := JStr id]> article in
    publishedAt ← slice_19 (row !! "publishedAt");
    let row := <["publishedAt" := publishedAt]> row in
    let row := <["date" := JStr current_date]> row in
    insert_rows_json row) w
  = ((load_rows current_date docs).2,
     set_bq_table (Some (Table (schema t)
                               (rows t ++ (load_rows current_date docs).1))) w).
Proof.
  revert w t. induction docs as [|[id article] docs IH]; intros w t Ht.
  - simpl. by rewrite set_bq_table_id.
  - cbn [for_each load_rows]. unfold build_row. cbn [fst snd].
    destruct (<["id":=JStr id]> article !! "publishedAt") as [[| | |s|l|]|];
      try (erewrite task_bind_raised;
           [by rewrite set_bq_table_id
           |erewrite task_bind_raised; reflexivity]).
    + erewrite task_bind_returned;
        [|erewrite task_bind_returned; [apply (insert_rows_json_run _ w t Ht)|reflexivity]].
      erewrite IH; [|reflexivity]. simpl. by rewrite <- app_assoc.
    + erewrite task_bind_returned;
        [|erewrite task_bind_returned; [apply (insert_rows_json_run _ w t Ht)|reflexivity]].
      erewrite IH; [|reflexivity]. simpl. by rewrite <- app_assoc.
Qed.

Lemma load_rows_app (current_date : string) (docs1 docs2 : list (string * gmap string json)) :
  load_rows current_date (docs1 ++ docs2)
  = match (load_rows current_date docs1).2 with
    | Returned _ => ((load_rows current_date docs1).1 ++ (load_rows current_date docs2).1,
                     (load_rows current_date docs2).2)
    | Raised e => ((load_rows current_date docs1).1, Raised e)
    end.
Proof.
  induction docs1 as [|doc docs1 IH]; simpl.
  - by destruct (load_rows current_date docs2).
  - destruct (build_row current_date doc); [|done]. simpl. rewrite IH.
    by destruct (load_rows current_date docs1).2.
Qed.

(** A run of [LoadsDataToBigQuery.execute_] on an existing table. *)
Lemma LoadsDataToBigQuery_run (e p : datetime) (w : world) (t : table) :
  bq_table w = Some t ->
  let current_date := date_isoformat (dt_date e) in
  let sent := load_rows current_date (streamed NEWSAPI_QUERY_KEYWORDS current_date w) in
  LoadsDataToBigQuery_execute_ NEWSAPI_QUERY_KEYWORDS e p w
  = (sent.2, set_bq_table (Some (Table (schema t) (rows t ++ sent.1))) w).
Proof.
  intros Ht current_date. unfold LoadsDataToBigQuery_execute_.
  rewrite (task_bind_returned _ _ t w w (get_table_run w t Ht)).
  fold current_date. clearbody current_date. clear e p.
  revert w t Ht. induction NEWSAPI_QUERY_KEYWORDS as [|keyword keywords IH];
    intros w t Ht.
  - simpl. by rewrite set_bq_table_id.
  - cbn [for_each]. unfold streamed. cbn [mbind list_bind].
    fold (streamed keywords current_date w). rewrite load_rows_app.
    pose proof (load_documents_run current_date (stream current_date keyword w) w t Ht)
      as Hdocs.
    destruct (load_rows current_date (stream current_date keyword w)) as [new1 [[]|ex]];
      simpl in Hdocs |- *.
    + erewrite task_bind_returned;
        [|erewrite task_bind_returned; [exact Hdocs|reflexivity]].
      erewrite IH; [|reflexivity]. simpl. unfold streamed. simpl.
      by rewrite <- app_assoc.
    + erewrite task_bind_raised; [reflexivity|].
      erewrite task_bind_returned; [exact Hdocs|reflexivity].
Qed.

Lemma load_rows_loaded (current_date : string) (docs : list (string * gmap string json)) :
  ∃ before, before `prefix_of` docs ∧
            Forall2 (loaded_row current_date) before (load_rows current_date docs).1.
Proof.
  induction docs as [|doc docs (before & Hprefix & Hrows)]; simpl.
  - exists []. split; [done|constructor].
  - unfold build_row. simpl.
    destruct (<["id":=JStr doc.1]> doc.2 !! "publishedAt") as [[| | |s|l|]|] eqn:Hp;
      simpl; try (exists []; split; [apply prefix_nil | constructor]).
    + exists (doc :: before). split; [by apply prefix_cons|].
      constructor; [|done]. rewrite lookup_insert_ne in Hp by done.
      eexists. split; [left; by eexists|done].
    + exists (doc :: before). split; [by apply prefix_cons|].
      constructor; [|done]. rewrite lookup_insert_ne in Hp by done.
      eexists. split; [right; by eexists|done].
Qed.

Lemma load_rows_text (current_date : string) (docs : list (string * gmap string json)) :
  Forall (fun doc => ∃ s, doc.2 !! "publishedAt" = Some (JStr s)) docs ->
  (load_rows current_date docs).2 = Returned tt ∧
  Forall2 (text_row current_date) docs (load_rows current_date docs).1.
Proof.
  induction 1 as [|doc docs [s Hs] _ [IHr IHrows]]; simpl.
  - split; [done|constructor].
  - unfold build_row. simpl. rewrite lookup_insert_ne by done. rewrite Hs. simpl.
    split; [done|]. constructor; [by exists s | done].
Qed.

(** X14. Without the table the loader raises [NotFound] and changes
    nothing. With the table, however the run ends, it changes nothing but
    the rows of the table, which it only appends to; every row it appends
    is a document of the execution date's partition of a configured keyword,
    with the document id as [id], [publishedAt] cut to 19 characters and
    the execution date as [date]. *)
Theorem loader_appends_rows_of_the_day (e p : datetime) (w : world) :
  datetime_minus_one_day e = Some p ->
  let date := date_isoformat (dt_date e) in
  (bq_table w = None -> run_task loads_data_task e w = (Raised NotFound, w)) ∧
  ∀ t, bq_table w = Some t ->
    ∃ new, (run_task loads_data_task e w).2
           = set_bq_table (Some (Table (schema t) (rows t ++ new))) w ∧
      Forall (fun row =>
                ∃ keyword id article,
                  keyword ∈ NEWSAPI_QUERY_KEYWORDS ∧
                  articles w !! (date, keyword, id) = Some article ∧
                  loaded_row date (id, article) row) new.
Proof.
  intros Hp date. unfold run, execute. rewrite Hp. split.
  - intros Hnone. unfold LoadsDataToBigQuery_execute_, get_table. unfold_task.
    by rewrite Hnone.
  - intros t Ht. rewrite (LoadsDataToBigQuery_run e p w t Ht). simpl.
    eexists. split; [reflexivity|]. fold date.
    destruct (load_rows_loaded date (streamed NEWSAPI_QUERY_KEYWORDS date w))
      as (before & Hprefix & Hrows).
    apply list.Forall_forall. intros row Hrow.
    apply (Forall2_elem_of_r _ _ _ _ Hrows) in Hrow as ([id article] & Hdoc & Hloaded).
    destruct Hprefix as [rest Hrest].
    assert ((id, article) ∈ streamed NEWSAPI_QUERY_KEYWORDS date w) as Hin
      by (rewrite Hrest; set_solver).
    apply elem_of_streamed in Hin as (keyword & Hkw & Hlookup).
    by exists keyword, id, article.
Qed.

(** X15. With the table in place and a text [publishedAt] in every document
    of the execution date's partitions of the configured keywords, the
    loader returns, and appends one row for each document streamed, in the
    order of the stream; so every such document has its row in the table. *)
Theorem loader_loads_every_article (e p : datetime) (w : world) (t : table) :
  datetime_minus_one_day e = Some p ->
  bq_table w = Some t ->
  let date := date_isoformat (dt_date e) in
  (∀ keyword id article,
     keyword ∈ NEWSAPI_QUERY_KEYWORDS ->
     articles w !! (date, keyword, id) = Some article ->
     ∃ s, article !! "publishedAt" = Some (JStr s)) ->
  ∃ new, run_task loads_data_task e w
         = (Returned tt, set_bq_table (Some (Table (schema t) (rows t ++ new))) w) ∧
    Forall2 (text_row date) (streamed NEWSAPI_QUERY_KEYWORDS date w) new ∧
    ∀ keyword id article,
      keyword ∈ NEWSAPI_QUERY_KEYWORDS ->
      articles w !! (date, keyword, id) = Some article ->
      ∃ row, row ∈ new ∧ text_row date (id, article) row.
Proof.
  intros Hp Ht date Htext. unfold run, execute. rewrite Hp.
  rewrite (LoadsDataToBigQuery_run e p w t Ht). simpl. fold date.
  destruct (load_rows_text date (streamed NEWSAPI_QUERY_KEYWORDS date w))
    as [Hr Hrows].
  { apply list.Forall_forall. intros [id article] Hin.
    apply elem_of_streamed in Hin as (keyword & Hkw & Hlookup). by eapply Htext. }
  eexists. split; [by rewrite Hr|]. split; [done|].
  intros keyword id article Hkw Hlookup.
  assert ((id, article) ∈ streamed NEWSAPI_QUERY_KEYWORDS date w) as Hin
    by (apply elem_of_streamed; by exists keyword).
  apply (Forall2_elem_of_l _ _ _ _ Hrows) in Hin as (row & Hrow & Hloaded).
  by exists row.
Qed.

(** X16. A document without [publishedAt] ends the load with [KeyError]:
    the rows of the documents streamed before it stay in the table, and
    no row is appended for it or for a document after it. *)
Theorem loader_stops_at_missing_publishedAt (e p : datetime) (w : world) (t : table)
    (before after : list (string * gmap string json))
    (doc : string * gmap string json) :
  datetime_minus_one_day e = Some p ->
  bq_table w = Some t ->
  let date := date_isoformat (dt_date e) in
  streamed NEWSAPI_QUERY_KEYWORDS date w = before ++ doc :: after ->
  Forall (fun doc => ∃ s, doc.2 !! "publishedAt" = Some (JStr s)) before ->
  doc.2 !! "publishedAt" = None ->
  ∃ new, run_task loads_data_task e w
         = (Raised KeyError, set_bq_table (Some (Table (schema t) (rows t ++ new))) w) ∧
    Forall2 (text_row date) before new.
Proof.
  intros Hp Ht date Hdocs Hbefore Hdoc. unfold run, execute. rewrite Hp.
  rewrite (LoadsDataToBigQuery_run e p w t Ht). simpl. fold date.
  rewrite Hdocs, load_rows_app.
  destruct (load_rows_text date before Hbefore) as [-> Hrows]. simpl.
  unfold build_row. simpl. rewrite lookup_insert_ne by done. rewrite Hdoc. simpl.
  rewrite app_nil_r. by eexists.
Qed.

(** X17. The loader does not look at what the table holds: run again on the
    state it left, it ends as before and appends the same rows a second
    time. *)
Theorem loader_reload_duplicates (e : datetime) (w : world) (t : table) :
  bq_table w = Some t ->
  let r1 := run_task loads_data_task e w in
  let r2 := run_task loads_data_task e r1.2 in
  r2.1 = r1.1 ∧
  ∃ new, r1.2 = set_bq_table (Some (Table (schema t) (rows t ++ new))) w ∧
         r2.2 = set_bq_table (Some (Table (schema t) (rows t ++ new ++ new))) w.
Proof.
  intros Ht r1 r2. unfold r2, r1, run, execute.
  destruct (datetime_minus_one_day e) as [p|].
  - rewrite (LoadsDataToBigQuery_run e p w t Ht). simpl.
    erewrite LoadsDataToBigQuery_run; [|reflexivity]. simpl.
    split; [done|]. eexists. split; [reflexivity|].
    unfold streamed. simpl. rewrite <- app_assoc. by destruct w.
  - simpl. split; [done|]. exists []. rewrite !app_nil_r.
    destruct w, t; simpl in *. by subst.
Qed.

End Loader.

(** ** What no task undoes *)

Section Monotone.

Variable GOOGLE_CLOUD_PROJECT : string.
Variable NEWSAPI_DEV_MODE : bool.
Variable NEWSAPI_QUERY_KEYWORDS : list string.
Variable BIGQUERY_TABLE_SCHEMA : list (string * field_decl).
Variable md5_hexdigest : string -> string.

Local Notation run_task :=
  (run GOOGLE_CLOUD_PROJECT NEWSAPI_DEV_MODE NEWSAPI_QUERY_KEYWORDS
       BIGQUERY_TABLE_SCHEMA md5_hexdigest).
Local Notation articles_and_table := (fun w : world => (articles w, bq_table w)).

Lemma delete_while_exists_articles_and_table {A} (ref : collection_ref A) (fuel : nat)
    (d : date) :
  (∀ c w, articles_and_table (coll_set ref c w) = articles_and_table w) ->
  preserves articles_and_table (delete_while_exists fuel ref d).
Proof.
  intros Href. revert d. induction fuel as [|fuel IH]; intros d; simpl.
  - apply preserves_ret.
  - repeat preserves_step; auto using preserves_ret.
    unfold document_delete. preserves_step. apply Href.
Qed.

(** The tasks of the sources and schema branches touch neither the
    articles nor the table. *)
Lemma snapshot_tasks_preserve (t : dag_task) (e : datetime) :
  (∀ get_everything, t ≠ get_data_task get_everything) ->
  t ≠ check_data_schemas -> t ≠ loads_data_task ->
  preserves articles_and_table (run_task t e).
Proof.
  intros Hfetch Hprovision Hload. unfold run, execute.
  destruct (datetime_minus_one_day e) as [p|]; [|apply preserves_raise].
  destruct t; try (exfalso; congruence).
  - apply preserves_ret.
  - unfold GetDataSchemas_execute_, pop, document_set. repeat preserves_step; done.
  - intros w. rewrite CheckDataSchemas_run. simpl.
    unfold after_check_pubsub_topic. by repeat case_decide.
  - unfold ClearOldSchemas_execute_.
    repeat preserves_step; by apply delete_while_exists_articles_and_table.
  - intros w. rewrite GetNewsSources_run. by destruct (sources_dict _).
  - intros w. rewrite CheckAndPublishNewsSources_run. simpl.
    unfold after_check_pubsub_topic. by repeat case_match.
  - unfold ClearOldSourceData_execute_.
    repeat preserves_step; by apply delete_while_exists_articles_and_table.
Qed.

Lemma snapshot_tasks_keep_articles_and_table (t : dag_task) (e : datetime) (w : world) :
  (∀ get_everything, t ≠ get_data_task get_everything) ->
  t ≠ check_data_schemas -> t ≠ loads_data_task ->
  articles (run_task t e w).2 = articles w ∧ bq_table (run_task t e w).2 = bq_table w.
Proof.
  intros Hfetch Hprovision Hload.
  pose proof (snapshot_tasks_preserve t e Hfetch Hprovision Hload w) as H.
  simpl in H. by injection H.
Qed.

Lemma write_all_dom (ws : list (string * string * string * gmap string json))
    (c : gmap (string * string * string) (gmap string json)) :
  dom c ⊆ dom (write_all ws c).
Proof.
  intros key Hin. apply elem_of_dom. apply elem_of_dom in Hin.
  rewrite lookup_write_all. by destruct (last_write key ws).
Qed.

Lemma table_grows_refl (t : table) : table_grows t t.
Proof. by split. Qed.

Lemma table_grows_trans (t1 t2 t3 : table) :
  table_grows t1 t2 -> table_grows t2 t3 -> table_grows t1 t3.
Proof. intros [? ?] [? ?]. split; by etrans. Qed.

Lemma task_table_grows (t : dag_task) (e : datetime) (w : world) (tb : table) :
  bq_table w = Some tb ->
  ∃ tb', bq_table (run_task t e w).2 = Some tb' ∧ table_grows tb tb'.
Proof.
  intros Htb.
  assert (bq_table (run_task t e w).2 = bq_table w ->
          ∃ tb', bq_table (run_task t e w).2 = Some tb' ∧ table_grows tb tb') as Hsame.
  { intros ->. exists tb. split; [done|apply table_grows_refl]. }
  destruct t as [| | | | | | |get_everything| |];
    try (apply Hsame; by apply snapshot_tasks_keep_articles_and_table).
  - apply Hsame.
    destruct (get_data_task_writer GOOGLE_CLOUD_PROJECT NEWSAPI_DEV_MODE
                NEWSAPI_QUERY_KEYWORDS BIGQUERY_TABLE_SCHEMA md5_hexdigest
                get_everything e) as (ws & r & Hrun & _).
    by rewrite (Hrun w).
  - unfold run, execute. destruct (datetime_minus_one_day e) as [p|];
      [|exists tb; split; [done|apply table_grows_refl]].
    rewrite CheckAndCreateBigQueryTable_run, Htb. simpl. eexists. split; [done|].
    split; simpl; [by eexists | done].
  - unfold run, execute. destruct (datetime_minus_one_day e) as [p|];
      [|exists tb; split; [done|apply table_grows_refl]].
    rewrite (LoadsDataToBigQuery_run _ e p w tb Htb). simpl. eexists. split; [done|].
    split; simpl; [done | by eexists].
Qed.

Lemma task_articles_grow (t : dag_task) (e : datetime) (w : world) :
  dom (articles w) ⊆ dom (articles (run_task t e w).2) ∧
  ((∀ get_everything, t ≠ get_data_task get_everything) ->
   articles (run_task t e w).2 = articles w).
Proof.
  assert (articles (run_task t e w).2 = articles w ->
          dom (articles w) ⊆ dom (articles (run_task t e w).2) ∧
          ((∀ get_everything, t ≠ get_data_task get_everything) ->
           articles (run_task t e w).2 = articles w)) as Hsame.
  { by intros ->. }
  destruct t as [| | | | | | |get_everything| |];
    try (apply Hsame; by apply snapshot_tasks_keep_articles_and_table).
  - split; [|by intros H; specialize (H get_everything)].
    destruct (get_data_task_writer GOOGLE_CLOUD_PROJECT NEWSAPI_DEV_MODE
                NEWSAPI_QUERY_KEYWORDS BIGQUERY_TABLE_SCHEMA md5_hexdigest
                get_everything e) as (ws & r & Hrun & _).
    rewrite (Hrun w). simpl. apply write_all_dom.
  - apply Hsame. unfold run, execute.
    destruct (datetime_minus_one_day e) as [p|]; [|done].
    by rewrite CheckAndCreateBigQueryTable_run.
  - apply Hsame. unfold run, execute.
    destruct (datetime_minus_one_day e) as [p|]; [|done].
    destruct (bq_table w) as [tb|] eqn:Htb.
    + by rewrite (LoadsDataToBigQuery_run _ e p w tb Htb).
    + unfold LoadsDataToBigQuery_execute_, get_table. unfold_task. by rewrite Htb.
Qed.

End Monotone.

Section NeverUndone.

Variable GOOGLE_CLOUD_PROJECT : string.
Variable NEWSAPI_DEV_MODE : bool.
Variable NEWSAPI_QUERY_KEYWORDS : list string.
Variable BIGQUERY_TABLE_SCHEMA : list (string * field_decl).
Variable md5_hexdigest : string -> string.

Local Notation run_task :=
  (run GOOGLE_CLOUD_PROJECT NEWSAPI_DEV_MODE NEWSAPI_QUERY_KEYWORDS
       BIGQUERY_TABLE_SCHEMA md5_hexdigest).

Lemma load_rows_not_NotFound (current_date : string)
    (docs : list (string * gmap string json)) :
  (load_rows current_date docs).2 ≠ Raised NotFound.
Proof.
  induction docs as [|doc docs IH]; simpl; [done|]. unfold build_row.
  by destruct (<["id":=JStr doc.1]> doc.2 !! "publishedAt") as [[]|].
Qed.

(** X18. Once the table exists, no sequence of tasks drops it, nor any of
    its columns or rows: after any schedule the table is there, with the
    columns it had as a prefix of its schema and the rows it had as a prefix
    of its rows; so the loader, run then on any date, does not raise
    [NotFound]. *)
Theorem table_only_grows (schedule : list (dag_task * datetime)) (w : world)
    (tb : table) :
  bq_table w = Some tb ->
  let w' := run_schedule run_task schedule w in
  ∃ tb', bq_table w' = Some tb' ∧
    schema tb `prefix_of` schema tb' ∧ rows tb `prefix_of` rows tb' ∧
    ∀ e, (run_task loads_data_task e w').1 ≠ Raised NotFound.
Proof.
  revert w tb. induction schedule as [|[t e] schedule IH]; intros w tb Htb; simpl.
  - exists tb. do 3 (split; [done|]). intros e. unfold run, execute.
    destruct (datetime_minus_one_day e) as [p|]; [|done].
    rewrite (LoadsDataToBigQuery_run _ e p w tb Htb). apply load_rows_not_NotFound.
  - destruct (task_table_grows GOOGLE_CLOUD_PROJECT NEWSAPI_DEV_MODE
                NEWSAPI_QUERY_KEYWORDS BIGQUERY_TABLE_SCHEMA md5_hexdigest t e w tb Htb)
      as (tb1 & Htb1 & Hschema1 & Hrows1).
    destruct (IH _ tb1 Htb1) as (tb' & Htb' & Hschema & Hrows & Hload).
    exists tb'. split; [done|]. split; [by etrans|]. split; [by etrans|]. done.
Qed.

(** X19. No task deletes an article document: after any schedule every
    document id of the articles collection is still there; and a schedule
    without the fetcher leaves the articles as they are. *)
Theorem articles_never_deleted (schedule : list (dag_task * datetime)) (w : world) :
  let w' := run_schedule run_task schedule w in
  dom (articles w) ⊆ dom (articles w') ∧
  (Forall (fun step => ∀ get_everything, step.1 ≠ get_data_task get_everything)
          schedule ->
   articles w' = articles w).
Proof.
  revert w. induction schedule as [|[t e] schedule IH]; intros w; simpl.
  - done.
  - destruct (task_articles_grow GOOGLE_CLOUD_PROJECT NEWSAPI_DEV_MODE
                NEWSAPI_QUERY_KEYWORDS BIGQUERY_TABLE_SCHEMA md5_hexdigest t e w)
      as [Hdom Hsame].
    destruct (IH (run_task t e w).2) as [IHdom IHsame].
    split; [by etrans|].
    intros Hno. apply Forall_cons in Hno as [Ht Hno].
    rewrite (IHsame Hno). by apply Hsame.
Qed.

(** X20. After provisioning, the column names of the table are those it
    had followed by the declared names it did not have: every declared
    field is a column, every column it had is kept as it was, whatever the
    declaration says of a field of that name, and when neither the table nor
    the declaration repeats a name, the new schema repeats none. *)
Theorem provisioning_covers_declared (e p : datetime) (w : world) :
  datetime_minus_one_day e = Some p ->
  let current := schema (table_or_new (bq_table w)) in
  let provisioned := schema (table_or_new (bq_table (run_task check_data_schemas e w).2)) in
  (∀ name, name ∈ BIGQUERY_TABLE_SCHEMA.*1 -> name ∈ SchemaField_name <$> provisioned) ∧
  (∀ field, field ∈ provisioned ->
     field ∈ current ∨
     ((SchemaField_name field ∉ SchemaField_name <$> current) ∧
      ∃ decl, (SchemaField_name field, decl) ∈ BIGQUERY_TABLE_SCHEMA ∧
              field = _get_field_schema (SchemaField_name field) decl)) ∧
  (∀ field, field ∈ current -> field ∈ provisioned) ∧
  (NoDup (SchemaField_name <$> current) -> NoDup BIGQUERY_TABLE_SCHEMA.*1 ->
   NoDup (SchemaField_name <$> provisioned)).
Proof.
  intros Hp current provisioned.
  assert (provisioned
          = current ++ missing_fields (SchemaField_name <$> current) BIGQUERY_TABLE_SCHEMA)
    as ->.
  { unfold provisioned, run, execute. rewrite Hp.
    by rewrite CheckAndCreateBigQueryTable_run. }
  assert (SchemaField_name <$> missing_fields (SchemaField_name <$> current)
                                              BIGQUERY_TABLE_SCHEMA
          = (filter (fun entry => entry.1 ∉ SchemaField_name <$> current)
                    BIGQUERY_TABLE_SCHEMA).*1) as Hnames.
  { unfold missing_fields. rewrite <- list_fmap_compose. apply list_fmap_ext.
    intros i [name decl] _. simpl. apply _get_field_schema_name. }
  split; [|split; [|split]].
  - intros name Hin. rewrite fmap_app, Hnames. apply elem_of_app.
    destruct (decide (name ∈ SchemaField_name <$> current)) as [|Hnew]; [by left|right].
    apply list_elem_of_fmap in Hin as ([n decl] & -> & Hin).
    apply list_elem_of_fmap. exists (n, decl). split; [done|].
    by apply list_elem_of_filter.
  - intros field [Hin|Hin]%elem_of_app; [by left|right].
    unfold missing_fields in Hin.
    apply list_elem_of_fmap in Hin as ([n decl] & -> & [Hnew Hin]%list_elem_of_filter).
    simpl in *. rewrite _get_field_schema_name. split; [done|]. by exists decl.
  - intros field Hin. apply elem_of_app. by left.
  - intros Hcurrent Hdeclared. rewrite fmap_app, Hnames. apply NoDup_app.
    split; [done|]. split.
    + intros name Hin ([n decl] & -> & [Hnew _]%list_elem_of_filter)%list_elem_of_fmap.
      by apply Hnew.
    + eapply sublist_NoDup; [exact Hdeclared|].
      apply fmap_sublist, sublist_filter.
Qed.

End NeverUndone.

(** One article of 2020-01-02 under [rocq], whose [publishedAt] has 20
    characters, and an empty table. *)
Lemma loader_appends_rows_of_the_day_witness :
  let article : gmap string json :=
    {[ "url" := JStr "u1"; "publishedAt" := JStr "2020-01-02T10:00:00Z" ]} in
  let w := set_bq_table (Some (Table [] []))
             (set_articles {[ ("2020-01-02", "rocq", "h1") := article ]}
                           Sample.empty_world) in
  datetime_minus_one_day Sample.jan2 = Some Sample.jan1 ∧
  ∃ new, (Sample.run_task loads_data_task Sample.jan2 w).2
         = set_bq_table (Some (Table [] new)) w ∧
         Forall (fun row => row !! "date" = Some (JStr "2020-01-02")) new.
Proof.
  intros article w. split; [reflexivity|].
  destruct (proj2 (loader_appends_rows_of_the_day Sample.project false ["rocq"; "ocaml"] []
                     (fun url => "md5:" +:+ url) Sample.jan2 Sample.jan1 w eq_refl)
                  (Table [] []) eq_refl) as (new & Hrun & Hrows).
  exists new. split; [exact Hrun|].
  eapply Forall_impl; [exact Hrows|].
  intros row (keyword & id & doc & _ & _ & publishedAt & _ & ->).
  by rewrite lookup_insert_eq.
Defined.

Lemma loader_loads_every_article_witness :
  let article : gmap string json :=
    {[ "url" := JStr "u1"; "publishedAt" := JStr "2020-01-02T10:00:00Z" ]} in
  let w := set_bq_table (Some (Table [] []))
             (set_articles {[ ("2020-01-02", "rocq", "h1") := article ]}
                           Sample.empty_world) in
  datetime_minus_one_day Sample.jan2 = Some Sample.jan1 ∧
  bq_table w = Some (Table [] []) ∧
  ∃ new, Sample.run_task loads_data_task Sample.jan2 w
         = (Returned tt, set_bq_table (Some (Table [] new)) w) ∧
         length new = 1.
Proof.
  intros article w. split; [reflexivity|]. split; [reflexivity|].
  destruct (loader_loads_every_article Sample.project false ["rocq"; "ocaml"] []
              (fun url => "md5:" +:+ url) Sample.jan2 Sample.jan1 w (Table [] [])
              eq_refl eq_refl) as (new & Hrun & Hrows & _).
  { intros keyword id doc _ Hdoc. simpl in Hdoc.
    apply lookup_singleton_Some in Hdoc as [_ <-].
    by exists "2020-01-02T10:00:00Z". }
  exists new. split; [exact Hrun|].
  by rewrite <- (Forall2_length _ _ _ Hrows).
Defined.

(** The document under [ocaml] has no [publishedAt]: the row of the
    document under [rocq], streamed before it, is appended all the same. *)
Lemma loader_stops_at_missing_publishedAt_witness :
  let first : gmap string json :=
    {[ "url" := JStr "u1"; "publishedAt" := JStr "2020-01-02T10:00:00Z" ]} in
  let second : gmap string json := {[ "url" := JStr "u2" ]} in
  let w := set_bq_table (Some (Table [] []))
             (set_articles {[ ("2020-01-02", "rocq", "h1") := first;
                              ("2020-01-02", "ocaml", "h2") := second ]}
                           Sample.empty_world) in
  datetime_minus_one_day Sample.jan2 = Some Sample.jan1 ∧
  bq_table w = Some (Table [] []) ∧
  streamed ["rocq"; "ocaml"] (date_isoformat (dt_date Sample.jan2)) w
  = [("h1", first)] ++ ("h2", second) :: [] ∧
  ∃ new, Sample.run_task loads_data_task Sample.jan2 w
         = (Raised KeyError, set_bq_table (Some (Table [] new)) w) ∧
         length new = 1.
Proof.
  intros first second w.
  assert (streamed ["rocq"; "ocaml"] (date_isoformat (dt_date Sample.jan2)) w
          = [("h1", first)] ++ ("h2", second) :: []) as Hstream by (by vm_compute).
  split; [reflexivity|]. split; [reflexivity|]. split; [exact Hstream|].
  destruct (loader_stops_at_missing_publishedAt Sample.project false ["rocq"; "ocaml"] []
              (fun url => "md5:" +:+ url) Sample.jan2 Sample.jan1 w (Table [] [])
              [("h1", first)] [] ("h2", second) eq_refl eq_refl Hstream)
    as (new & Hrun & Hrows).
  { repeat constructor. by exists "2020-01-02T10:00:00Z". }
  { reflexivity. }
  exists new. split; [exact Hrun|].
  by rewrite <- (Forall2_length _ _ _ Hrows).
Defined.

Lemma loader_reload_duplicates_witness :
  let article : gmap string json :=
    {[ "url" := JStr "u1"; "publishedAt" := JStr "2020-01-02T10:00:00Z" ]} in
  let w := set_bq_table (Some (Table [] []))
             (set_articles {[ ("2020-01-02", "rocq", "h1") := article ]}
                           Sample.empty_world) in
  let r1 := Sample.run_task loads_data_task Sample.jan2 w in
  let r2 := Sample.run_task loads_data_task Sample.jan2 r1.2 in
  bq_table w = Some (Table [] []) ∧
  (length <$> (rows <$> bq_table r1.2) = Some 1) ∧
  ∃ new, r2.2 = set_bq_table (Some (Table [] (new ++ new))) w.
Proof.
  intros article w r1 r2. split; [reflexivity|]. split; [by vm_compute|].
  destruct (loader_reload_duplicates Sample.project false ["rocq"; "ocaml"] []
              (fun url => "md5:" +:+ url) Sample.jan2 w (Table [] []) eq_refl)
    as (_ & new & _ & Hagain).
  exists new. exact Hagain.
Defined.

(** The table made by the provisioner, then a day of the three branches. *)
Lemma table_only_grows_witness :
  let w := (Sample.run_task check_data_schemas Sample.jan1 Sample.empty_world).2 in
  let schedule :=
    [(get_news_sources [[("id", JStr "bbc")]], Sample.jan2);
     (clear_old_sources, Sample.jan2);
     (get_data_task (fun _ => [[{[ "url" := JStr "u1" ]}]]), Sample.jan2);
     (check_data_schemas, Sample.jan2);
     (loads_data_task, Sample.jan2)] in
  bq_table w = Some (Table [] []) ∧
  (Sample.run_task loads_data_task Sample.jan2
     (run_schedule Sample.run_task schedule w)).1 ≠ Raised NotFound.
Proof.
  intros w schedule. split; [reflexivity|].
  destruct (table_only_grows Sample.project false ["rocq"; "ocaml"] []
              (fun url => "md5:" +:+ url) schedule w (Table [] []) eq_refl)
    as (tb' & _ & _ & _ & Hload).
  apply Hload.
Defined.

(** A table with the column [title] of another type, and a declaration of
    [title] and [source]. *)
Lemma provisioning_covers_declared_witness :
  let declared :=
    [("title", FieldDecl "STRING" None);
     ("source", FieldDecl "RECORD" (Some [("id", FieldDecl "STRING" None)]))] in
  let w := set_bq_table (Some (Table [mkSchemaField "title" "INTEGER" []] []))
             Sample.empty_world in
  let provisioned :=
    schema (table_or_new
              (bq_table (run Sample.project false [] declared (fun url => url)
                             check_data_schemas Sample.jan2 w).2)) in
  datetime_minus_one_day Sample.jan2 = Some Sample.jan1 ∧
  "source" ∈ SchemaField_name <$> provisioned ∧
  mkSchemaField "title" "INTEGER" [] ∈ provisioned ∧
  NoDup (SchemaField_name <$> provisioned).
Proof.
  intros declared w provisioned. split; [reflexivity|].
  destruct (provisioning_covers_declared Sample.project false [] declared
              (fun url => url) Sample.jan2 Sample.jan1 w eq_refl)
    as (Hcovers & _ & Hkept & Hnodup).
  split; [|split].
  - apply Hcovers. simpl. set_solver.
  - apply Hkept. simpl. set_solver.
  - apply Hnodup; simpl.
    + apply NoDup_singleton.
    + apply NoDup_cons. split; [set_solver|apply NoDup_singleton].
Defined.

(** ** From the fetcher to the loader *)

Section FetchedThenLoaded.

Variable GOOGLE_CLOUD_PROJECT : string.
Variable NEWSAPI_DEV_MODE : bool.
Variable NEWSAPI_QUERY_KEYWORDS : list string.
Variable BIGQUERY_TABLE_SCHEMA : list (string * field_decl).
Variable md5_hexdigest : string -> string.

Local Notation run_task :=
  (run GOOGLE_CLOUD_PROJECT NEWSAPI_DEV_MODE NEWSAPI_QUERY_KEYWORDS
       BIGQUERY_TABLE_SCHEMA md5_hexdigest).

Lemma stored_article_well_keyed (hash keyword date : string) (article : gmap string json) :
  stored_article hash keyword date article !! "id" = Some (JStr hash) ∧
  stored_article hash keyword date article !! "keyword" = Some (JStr keyword) ∧
  stored_article hash keyword date article !! "date" = Some (JStr date).
Proof.
  unfold stored_article. split; [|split].
  - rewrite !lookup_insert_ne by done. apply lookup_insert_eq.
  - rewrite lookup_insert_ne by done. apply lookup_insert_eq.
  - apply lookup_insert_eq.
Qed.

Lemma task_keeps_well_keyed (t : dag_task) (e : datetime) (w : world) :
  articles_well_keyed (articles w) -> articles_well_keyed (articles (run_task t e w).2).
Proof.
  intros Hw.
  destruct (task_articles_grow GOOGLE_CLOUD_PROJECT NEWSAPI_DEV_MODE
              NEWSAPI_QUERY_KEYWORDS BIGQUERY_TABLE_SCHEMA md5_hexdigest t e w)
    as [_ Hsame].
  destruct t as [| | | | | | |get_everything| |];
    try (rewrite Hsame; done).
  destruct (get_data_task_writer GOOGLE_CLOUD_PROJECT NEWSAPI_DEV_MODE
              NEWSAPI_QUERY_KEYWORDS BIGQUERY_TABLE_SCHEMA md5_hexdigest
              get_everything e) as (ws & r & Hrun & Hws).
  rewrite (Hrun w). simpl. intros date keyword hash article.
  rewrite lookup_write_all.
  destruct (last_write (date, keyword, hash) ws) as [written|] eqn:Hlast;
    [|apply Hw].
  intros [= ->]. apply last_write_elem_of in Hlast.
  rewrite list.Forall_forall in Hws.
  destruct (Hws _ Hlast)
    as (keyword' & _ & page & url & fetched & _ & _ & _ & [= -> -> -> ->]).
  apply stored_article_well_keyed.
Qed.

Lemma schedule_keeps_well_keyed (schedule : list (dag_task * datetime)) (w : world) :
  articles_well_keyed (articles w) ->
  articles_well_keyed (articles (run_schedule run_task schedule w)).
Proof.
  revert w. induction schedule as [|[t e] schedule IH]; intros w Hw; simpl; [done|].
  by apply IH, task_keeps_well_keyed.
Qed.

(** X21. The fetcher stores every article with its document id as [id]
    and its partition as [keyword] and [date], and no task breaks this: it
    holds after any schedule run on a store where it holds. On such a store
    the [id] and the [date] the loader sets are those the document has, so
    every row it appends is a document of the day with nothing but
    [publishedAt] replaced, by the first 19 characters of the text the
    document has there (the first 19 items when it is a list). *)
Theorem loaded_rows_are_fetched_documents (schedule : list (dag_task * datetime))
    (e p : datetime) (w : world) (tb : table) :
  articles_well_keyed (articles w) ->
  datetime_minus_one_day e = Some p ->
  let w' := run_schedule run_task schedule w in
  let date := date_isoformat (dt_date e) in
  bq_table w' = Some tb ->
  articles_well_keyed (articles w') ∧
  ∃ new, (run_task loads_data_task e w').2
         = set_bq_table (Some (Table (schema tb) (rows tb ++ new))) w' ∧
    Forall (fun row =>
              ∃ keyword id article publishedAt,
                keyword ∈ NEWSAPI_QUERY_KEYWORDS ∧
                articles w' !! (date, keyword, id) = Some article ∧
                ((∃ s, article !! "publishedAt" = Some (JStr s) ∧
                       publishedAt = JStr (String.substring 0 19 s)) ∨
                 (∃ l, article !! "publishedAt" = Some (JArr l) ∧
                       publishedAt = JArr (take 19 l))) ∧
                row = <["publishedAt" := publishedAt]> article) new.
Proof.
  intros Hw Hp w' date Htb.
  assert (articles_well_keyed (articles w')) as Hw'
    by by apply schedule_keeps_well_keyed.
  split; [done|]. unfold run, execute. rewrite Hp.
  rewrite (LoadsDataToBigQuery_run _ e p w' tb Htb). simpl. fold date.
  eexists. split; [reflexivity|].
  destruct (load_rows_loaded date (streamed NEWSAPI_QUERY_KEYWORDS date w'))
    as (before & [rest Hrest] & Hrows).
  apply list.Forall_forall. intros row Hrow.
  apply (Forall2_elem_of_r _ _ _ _ Hrows) in Hrow
    as ([id article] & Hdoc & publishedAt & Hcut & ->).
  assert ((id, article) ∈ streamed NEWSAPI_QUERY_KEYWORDS date w') as Hin
    by (rewrite Hrest; set_solver).
  apply elem_of_streamed in Hin as (keyword & Hkw & Hlookup). simpl in Hlookup.
  destruct (Hw' _ _ _ _ Hlookup) as (Hid & _ & Hdate).
  exists keyword, id, article, publishedAt. do 3 (split; [done|]). simpl.
  rewrite (insert_id article "id") by done.
  apply insert_id. by rewrite lookup_insert_ne.
Qed.

End FetchedThenLoaded.

(** A day of the articles branch from the empty store: the fetcher, the
    provisioner, and then the loader. *)
Lemma loaded_rows_are_fetched_documents_witness :
  let article : gmap string json :=
    {[ "url" := JStr "u1"; "publishedAt" := JStr "2020-01-02T10:00:00Z" ]} in
  let schedule :=
    [(get_data_task (fun _ => [[article]]), Sample.jan2);
     (check_data_schemas, Sample.jan2)] in
  let w' := run_schedule Sample.run_task schedule Sample.empty_world in
  articles_well_keyed (articles Sample.empty_world) ∧
  datetime_minus_one_day Sample.jan2 = Some Sample.jan1 ∧
  bq_table w' = Some (Table [] []) ∧
  ∃ new, (Sample.run_task loads_data_task Sample.jan2 w').2
         = set_bq_table (Some (Table [] new)) w' ∧
         length new = 2.
Proof.
  intros article schedule w'.
  assert (articles_well_keyed (articles Sample.empty_world)) as Hempty.
  { intros date keyword hash doc Hdoc. cbn in Hdoc. by rewrite lookup_empty in Hdoc. }
  split; [exact Hempty|]. split; [reflexivity|]. split; [by vm_compute|].
  destruct (loaded_rows_are_fetched_documents Sample.project false ["rocq"; "ocaml"] []
              (fun url => "md5:" +:+ url) schedule Sample.jan2 Sample.jan1
              Sample.empty_world (Table [] []) Hempty eq_refl)
    as (_ & new & Hrun & _); [by vm_compute|].
  exists new. split; [exact Hrun|].
  apply (f_equal (fun w => length <$> (rows <$> bq_table w))) in Hrun.
  simpl in Hrun. vm_compute in Hrun. by injection Hrun.
Defined.
